(** * Smartlead internal scripts: client, follow-up duplication, lead filter

    A shallow embedding of the Python sources

      - [clients/smartlead/index.py]          (module [Client])
      - [clients/smartlead/internal/index.py] (module [Internal])
      - [pages/va/add_follow_ups.py]          (module [AddFollowUps])
      - [pages/va/filter_leads_from_campaign.py] and [common/utils.py]
                                              (module [FilterLeads])

    Python values are modelled as the code has them: [int] as [Z], [str] as
    [string] (code points below 256), [Optional[T]] as [option T], pydantic
    models as records.  Effects are explicit: every function runs against
    an environment [Env] (secrets, tokens, the remote services) and threads
    a trace of the calls and requests it made; exceptions are results. *)

From Stdlib Require Import ZArith List String Ascii Bool Lia QArith.
From Stdlib Require Import Floats.SpecFloat DecimalString Permutation.
Set Warnings "-register-all".
Import ListNotations.
Local Open Scope string_scope.
Local Open Scope Z_scope.

(* ================================================================== *)
(** ** Python strings *)

Module PyStr.

(** [str.isspace] on one code point below 256: TAB..CR, FS..US, space,
    NEL (0x85) and NBSP (0xA0). *)
Definition is_space (c : ascii) : bool :=
  let n := nat_of_ascii c in
  ((9 <=? n) && (n <=? 13) || (28 <=? n) && (n <=? 32)
   || (n =? 133) || (n =? 160))%nat.

(** [str.lower] on one code point below 256: A-Z and the Latin-1 capitals
    0xC0..0xDE (the multiplication sign 0xD7 apart) move up by 32. *)
Definition lower_char (c : ascii) : ascii :=
  let n := nat_of_ascii c in
  if ((65 <=? n) && (n <=? 90)
      || (192 <=? n) && (n <=? 222) && negb (n =? 215))%nat
  then ascii_of_nat (n + 32) else c.

Fixpoint lower (s : string) : string :=
  match s with
  | EmptyString => EmptyString
  | String c s' => String (lower_char c) (lower s')
  end.

Fixpoint lstrip (s : string) : string :=
  match s with
  | EmptyString => EmptyString
  | String c s' => if is_space c then lstrip s' else s
  end.

Fixpoint rstrip (s : string) : string :=
  match s with
  | EmptyString => EmptyString
  | String c s' =>
      match rstrip s' with
      | EmptyString => if is_space c then EmptyString else String c EmptyString
      | r => String c r
      end
  end.

(** [s.strip()] *)
Definition strip (s : string) : string := rstrip (lstrip s).

(** [s.replace(old, new)] for one-character [old]. *)
Fixpoint replace_char (old : ascii) (new : string) (s : string) : string :=
  match s with
  | EmptyString => EmptyString
  | String c s' =>
      if Ascii.eqb c old then new ++ replace_char old new s'
      else String c (replace_char old new s')
  end.

(** [str.upper] on one code point below 256.  It is applied to HTTP method
    names only; the three code points whose capital lies above 255 (0xB5,
    0xDF, 0xFF) are left as they are. *)
Definition upper_char (c : ascii) : ascii :=
  let n := nat_of_ascii c in
  if ((97 <=? n) && (n <=? 122)
      || (224 <=? n) && (n <=? 254) && negb (n =? 247))%nat
  then ascii_of_nat (n - 32) else c.

Fixpoint upper (s : string) : string :=
  match s with
  | EmptyString => EmptyString
  | String c s' => String (upper_char c) (upper s')
  end.

(** Truth value of a [str]: non-empty. *)
Definition truthy (s : string) : bool :=
  match s with EmptyString => false | _ => true end.

(** Truth value of an [Optional[str]]. *)
Definition truthy_opt (o : option string) : bool :=
  match o with Some s => truthy s | None => false end.

Definition is_digit (c : ascii) : bool :=
  let n := nat_of_ascii c in ((48 <=? n) && (n <=? 57))%nat.

Definition digit_val (c : ascii) : Z := Z.of_nat (nat_of_ascii c) - 48.

(** Digits of a decimal literal: a digit first, single underscores only
    between digits.  Returns the value and the number of digits. *)
Fixpoint parse_digits (acc : Z) (count : nat) (after_digit : bool)
  (s : string) : option (Z * nat) :=
  match s with
  | EmptyString => if after_digit then Some (acc, count) else None
  | String c s' =>
      if is_digit c then
        parse_digits (10 * acc + digit_val c) (S count) true s'
      else if Ascii.eqb c "_" then
        (if after_digit then parse_digits acc count false s' else None)
      else None
  end.

(** [sys.int_max_str_digits], the default of CPython 3.11. *)
Definition int_max_str_digits : nat := 4300.

(** [int(s)] for a [str] in base 10: surrounding white space, an optional
    sign, then the digits.  [None] stands for [ValueError]. *)
Definition int_of_str (s : string) : option Z :=
  let body := strip s in
  let '(neg, digits) :=
    match body with
    | String "-" r => (true, r)
    | String "+" r => (false, r)
    | _ => (false, body)
    end in
  match parse_digits 0 0 false digits with
  | Some (v, n) =>
      if (n <=? int_max_str_digits)%nat
      then Some (if neg then - v else v) else None
  | None => None
  end.

End PyStr.

(* ================================================================== *)
(** ** Exceptions, results and the trace monad *)

Module Py.

(** The exception classes the sources raise or let through.  All of them
    derive from [Exception], so [except Exception] catches each one. *)
Inductive exn : Type :=
| TypeError | ValueError | KeyError | RuntimeError | AttributeError
| ZeroDivisionError | OverflowError
| ValidationError          (* pydantic *)
| SmartleadGraphQLError    (* subclass of RuntimeError *)
| APIError                 (* raised by the OpenAI client *)
| Exception_.              (* a plain [Exception(...)] *)

Inductive res (A : Type) : Type :=
| Ret (a : A)
| Raise (e : exn).
Arguments Ret {A} a.
Arguments Raise {A} e.

(** A computation reads the events so far and returns a result together
    with the extended list of events. *)
Definition M (E A : Type) : Type := list E -> res A * list E.

Definition ret {E A} (a : A) : M E A := fun tr => (Ret a, tr).

Definition raise {E A} (e : exn) : M E A := fun tr => (Raise e, tr).

Definition bind {E A B} (m : M E A) (k : A -> M E B) : M E B :=
  fun tr =>
    match m tr with
    | (Ret a, tr') => k a tr'
    | (Raise e, tr') => (Raise e, tr')
    end.

(** [try: m  except Exception as e: h e] *)
Definition try_except {E A} (m : M E A) (h : exn -> M E A) : M E A :=
  fun tr =>
    match m tr with
    | (Ret a, tr') => (Ret a, tr')
    | (Raise e, tr') => h e tr'
    end.

(** Append one event. *)
Definition emit {E} (e : E) : M E unit := fun tr => (Ret tt, (tr ++ [e])%list).

(** Lift a pure result. *)
Definition lift {E A} (r : res A) : M E A := fun tr => (r, tr).

Definition of_option {A} (e : exn) (o : option A) : res A :=
  match o with Some a => Ret a | None => Raise e end.

End Py.

Import Py.

Declare Scope py_scope.
Delimit Scope py_scope with py.
Notation "x <- m ;; k" := (bind m (fun x => k))
  (at level 61, m at next level, right associativity) : py_scope.
Notation "m ;;; k" := (bind m (fun _ => k))
  (at level 61, right associativity) : py_scope.
Local Open Scope py_scope.

(* ================================================================== *)
(** ** [clients/smartlead/schema.py] *)

(** The pydantic models the functions below read or build.  Fields keep
    their names; where two models have a field of the same name, the one
    declared later here carries a prefix ([stat_], [var_], [seq_], [vin_],
    [in_]).  A [datetime] is kept as the text it was parsed from. *)
Module Schema.

Record SmartleadLead : Type := {
  lead_id : Z;
  first_name : string;
  last_name : string;
  email : string;
  phone_number : string;
  company_name : string;
  website : string;
  location : string;
  custom_fields : list (string * string);
  linkedin_profile : string;
  company_url : string;
  is_unsubscribed : bool
}.

Record SmartleadCampaignLead : Type := {
  campaign_lead_map_id : Z;
  status : string;
  lead_category_id : option Z;
  created_at : string;
  lead : SmartleadLead
}.

Record SmartleadGetCampaignLeadsResponse : Type := {
  total_leads : Z;
  offset : Z;
  limit : Z;
  data : list SmartleadCampaignLead
}.

Record CampaignLeadStats : Type := {
  total : Z;
  paused : Z;
  blocked : Z;
  stopped : Z;
  completed : Z;
  inprogress : Z;
  interested : Z;
  notStarted : Z
}.

(** Of [SmartleadCampaignStatistics] the counters are [str] fields; the
    descriptive fields that no function reads (name, status, client) are
    kept as text. *)
Record SmartleadCampaignStatistics : Type := {
  stat_id : Z;
  stat_user_id : Z;
  stat_created_at : string;
  stat_status : string;
  stat_name : string;
  sent_count : string;
  open_count : string;
  click_count : string;
  reply_count : string;
  block_count : string;
  total_count : string;
  sequence_count : string;
  drafted_count : string;
  bounce_count : string;
  unsubscribed_count : string;
  unique_open_count : string;
  unique_click_count : string;
  unique_sent_count : string;
  stat_client_id : option Z;
  stat_client_name : option string;
  stat_client_email : option string;
  campaign_lead_stats : CampaignLeadStats
}.

Record SeqDelayDetails : Type := { delayInDays : Z }.

Record SmartleadCampaignSequenceVariant : Type := {
  var_id : Z;
  var_created_at : string;
  var_updated_at : string;
  var_is_deleted : bool;
  var_subject : string;
  var_email_body : string;
  email_campaign_seq_id : Z;
  var_variant_label : string;
  optional_email_body_1 : option string;
  var_variant_distribution_percentage : option Z;
  year : Z
}.

Record SmartleadCampaignSequence : Type := {
  seq_id : Z;
  seq_created_at : string;
  seq_updated_at : string;
  email_campaign_id : Z;
  seq_number : Z;
  subject : string;
  email_body : string;
  seq_delay_details : SeqDelayDetails;
  sequence_variants : option (list SmartleadCampaignSequenceVariant)
}.

Record SeqDelayDetailsInput : Type := { delay_in_days : Z }.

(** [variant_distribution_percentage] is [Optional[float]] here and
    [Optional[int]] in the variant it is copied from; pydantic's coercion
    keeps the value, which stays the integer that was read. *)
Record SequenceVariantInput : Type := {
  vin_subject : string;
  vin_id : option Z;
  vin_email_body : string;
  vin_variant_label : string;
  vin_variant_distribution_percentage : option Z
}.

Record SmartleadCampaignSequenceInput : Type := {
  in_seq_number : Z;
  in_id : option Z;
  in_subject : option string;
  in_email_body : option string;
  in_seq_delay_details : option SeqDelayDetailsInput;
  in_seq_variants : option (list SequenceVariantInput)
}.

End Schema.

Import Schema.

(* ================================================================== *)
(** ** The environment: configuration and remote services *)

Module World.

(** A value of a query parameter or of a keyword argument. *)
Inductive pyval : Type :=
| VNone
| VInt (n : Z)
| VStr (s : string)
| VList (l : list pyval)
| VDict (d : list (string * pyval)).

(** The JSON body of a request. *)
Inductive body : Type :=
| NoBody
| SequencesBody (sequences : list SmartleadCampaignSequenceInput)
    (* [{"sequences": [seq.model_dump(by_alias=True, exclude_none=True)
                       for seq in input_sequences]}]: one dict per input,
       the fields that are [None] left out *)
| JsonBody (j : pyval).

(** The three hosts the clients talk to. *)
Inductive host : Type :=
| SmartleadV1        (* https://server.smartlead.ai/api/v1/ *)
| SmartleadServer    (* https://server.smartlead.ai/api/ *)
| SmartleadGraphQL.  (* https://fe-gql.smartlead.ai/v1/graphql *)

(** The arguments of one [requests.request] call.  Headers (credentials
    and content type) and the fixed 30 second timeout are not recorded. *)
Record request : Type := {
  req_host : host;
  req_method : string;
  req_endpoint : string;
  req_params : list (string * pyval);
  req_body : body
}.

(** What comes back.  A 2xx JSON answer is kept by the shape it validates
    as; any other JSON is [Other]. *)
Inductive payload : Type :=
| LeadsPage (r : SmartleadGetCampaignLeadsResponse)
| SequenceList (l : list SmartleadCampaignSequence)
| Statistics (s : SmartleadCampaignStatistics)
| Other (j : pyval).

(** The body of an answer whose status is an error, as the handlers of
    [HTTPError] see it through [response.json()]. *)
Inductive error_body : Type :=
| NotJson        (* [response.json()] raises [ValueError] *)
| JsonObject     (* a JSON object: [.get("error", ...)] works *)
| JsonOther.     (* a JSON list, string, number or null: no [.get] *)

Inductive reply : Type :=
| Ok (p : payload)
| HttpError (b : error_body)
                     (* [raise_for_status] raised *)
| TransportError.    (* any other [requests.RequestException], a body
                        that is not JSON included *)

(** One chat completion request of [get_gpt_answer]. *)
Record gpt_request : Type := {
  system_prompt : string;
  user_prompt : string;
  temperature : Q
}.

Inductive gpt_reply : Type :=
| Content (s : string)   (* [response.choices[0].message.content] *)
| NoContent              (* the content is [None] *)
| GptFailure.            (* the client raised *)

(** Calls of the page-level functions, recorded when they are entered. *)
Inductive invocation : Type :=
| call_update_follow_up_percentage (campaign_id follow_up_percentage : Z)
| call_add_follow_ups (smartlead_campaign_id delay_period : Z)
    (expected_sequence_length : option Z)
| call_remove_multiple_leads (smartlead_campaign_id : string)
    (email_lead_ids email_lead_map_ids : list Z)
| call_is_outside_whitelisted_area (location : option string)
    (whitelisted_areas : string)
| call_is_in_blocklisted_industry (industry : option string)
    (blocklisted_industries : string)
| call_is_outside_whitelisted_industry (industry : option string)
    (whitelisted_industries : string).

Inductive event : Type :=
| Invoked (i : invocation)
| Sent (r : request)
| Asked (g : gpt_request).

Definition trace : Type := list event.

(** Secrets, tokens and the services.  A service answers a request in view
    of everything that happened before it. *)
Record Env : Type := {
  SMARTLEAD_API_KEY : option string;            (* [st.secrets] *)
  OPENAI_API_KEY : option string;               (* [st.secrets] *)
  SMARTLEAD_INTERNAL_API_TOKEN : option string; (* [os.environ] *)
  http : trace -> request -> reply;
  openai : trace -> gpt_request -> gpt_reply
}.

(** [str(n)] for an [int]. *)
Definition str_of_int (n : Z) : string :=
  DecimalString.NilZero.string_of_int (Z.to_int n).

(** [d.get(k)] on a dict kept as an association list. *)
Fixpoint dict_get {V} (k : string) (d : list (string * V)) : option V :=
  match d with
  | [] => None
  | (k', v) :: d' => if String.eqb k k' then Some v else dict_get k d'
  end.

(** [d[k] = v]: the value of an existing key is replaced in place, a new
    key goes last. *)
Fixpoint dict_set {V} (k : string) (v : V) (d : list (string * V))
  : list (string * V) :=
  match d with
  | [] => [(k, v)]
  | (k', v') :: d' =>
      if String.eqb k k' then (k, v) :: d' else (k', v') :: dict_set k v d'
  end.

End World.

Import World.

(* ================================================================== *)
(** ** [clients/smartlead/index.py] *)

Module Client.

Section WithEnv.

Variable env : Env.

(** The handler of [requests.exceptions.HTTPError]: the error body is read
    with [response.json()] under [except ValueError] alone, then
    [error_data.get("error", ...)] is called on it.  A body that is JSON
    but not an object has no [get]: the [AttributeError] leaves the
    handler in place of the [Exception] it was building. *)
Definition http_error_exn (b : error_body) : exn :=
  match b with
  | JsonOther => AttributeError
  | NotJson | JsonObject => Exception_
  end.

(** [query_smartlead(endpoint, method, headers, body, query_params)]: the
    API key is read before the [try]; a transport failure comes back as a
    plain [Exception], an HTTP error as what its handler raises. *)
Definition query_smartlead (endpoint method : string) (b : body)
  (query_params : list (string * pyval)) : M event payload :=
  fun tr =>
    match SMARTLEAD_API_KEY env with
    | None => (Raise KeyError, tr)
    | Some key =>
        let params := dict_set "api_key" (VStr key) query_params in
        let req := {| req_host := SmartleadV1;
                      req_method := PyStr.upper method;
                      req_endpoint := endpoint;
                      req_params := params;
                      req_body := b |} in
        match http env tr req with
        | Ok p => (Ret p, (tr ++ [Sent req])%list)
        | HttpError b' =>
            (Raise (http_error_exn b'), (tr ++ [Sent req])%list)
        | TransportError => (Raise Exception_, (tr ++ [Sent req])%list)
        end
    end.

(** [SmartleadGetCampaignLeadsResponse.model_validate(response)] *)
Definition validate_leads_response (p : payload)
  : res SmartleadGetCampaignLeadsResponse :=
  match p with
  | LeadsPage r => Ret r
  | _ => Raise ValidationError
  end.

(** [f"campaigns/{campaign_id}/leads"] *)
Definition leads_endpoint (campaign_id : Z) : string :=
  "campaigns/" ++ str_of_int campaign_id ++ "/leads".

(** [if event_time: params["event_time_gt"] = event_time] *)
Definition event_time_param (event_time : option string)
  : list (string * pyval) :=
  match event_time with
  | Some t => if PyStr.truthy t then [("event_time_gt", VStr t)] else []
  | None => []
  end.

(** [if lead_category_id: params["lead_category_id"] = lead_category_id] *)
Definition lead_category_param (lead_category_id : option Z)
  : list (string * pyval) :=
  match lead_category_id with
  | Some c => if negb (c =? 0) then [("lead_category_id", VInt c)] else []
  | None => []
  end.

(** One request for a page and its validation, as both [try] blocks do. *)
Definition fetch_leads_page (campaign_id : Z)
  (params : list (string * pyval))
  : M event SmartleadGetCampaignLeadsResponse :=
  response <- query_smartlead (leads_endpoint campaign_id) "GET" NoBody params ;;
  lift (validate_leads_response response).

(** The [while len(leads) < total_leads] loop.  A failed page is logged
    and the loop goes round again ([continue]); [fuel] bounds the number
    of page requests and [None] means it ran out. *)
Fixpoint pagination (fuel : nat) (campaign_id : Z)
  (event_time : option string) (total_leads : Z)
  (leads : list SmartleadCampaignLead) (tr : trace)
  : option (list SmartleadCampaignLead * trace) :=
  if Z.of_nat (List.length leads) <? total_leads then
    match fuel with
    | O => None
    | S fuel' =>
        let offset_params :=
          (("offset", VInt (Z.of_nat (List.length leads)))
             :: event_time_param event_time)%list in
        match fetch_leads_page campaign_id offset_params tr with
        | (Ret page, tr') =>
            pagination fuel' campaign_id event_time total_leads
              (leads ++ data page)%list tr'
        | (Raise _, tr') =>
            pagination fuel' campaign_id event_time total_leads leads tr'
        end
    end
  else Some (leads, tr).

Definition get_leads_by_campaign_id_with_pagination (fuel : nat)
  (campaign_id : Z) (lead_category_id : option Z)
  (event_time : option string) (tr : trace)
  : option (res (list SmartleadCampaignLead) * trace) :=
  let leads : list SmartleadCampaignLead := [] in
  let params :=
    (event_time_param event_time ++ lead_category_param lead_category_id)%list in
  match fetch_leads_page campaign_id params tr with
  | (Ret first_page, tr') =>
      match pagination fuel campaign_id event_time (total_leads first_page)
              (leads ++ data first_page)%list tr' with
      | Some (all, tr'') => Some (Ret all, tr'')
      | None => None
      end
  | (Raise _, tr') => Some (Ret leads, tr')
  end.

(** [get_campaign_statistics(campaign_id)] *)
Definition get_campaign_statistics (campaign_id : Z)
  : M event SmartleadCampaignStatistics :=
  resp <- try_except
            (query_smartlead
               ("/campaigns/" ++ str_of_int campaign_id ++ "/analytics")
               "GET" NoBody [])
            (fun _ => raise RuntimeError) ;;
  match resp with
  | Statistics s => ret s
  | _ => raise RuntimeError
  end.

(** [get_campaign_sequences(campaign_id)]: an answer that is not a list, or
    a list with an item of the wrong shape, is a [RuntimeError]. *)
Definition get_campaign_sequences (campaign_id : Z)
  : M event (list SmartleadCampaignSequence) :=
  result <- query_smartlead
              ("/campaigns/" ++ str_of_int campaign_id ++ "/sequences")
              "GET" NoBody [] ;;
  match result with
  | SequenceList l => ret l
  | _ => raise RuntimeError
  end.

(** [add_sequences_to_campaign(campaign_id=..., input_sequences=...)] *)
Definition add_sequences_to_campaign (campaign_id : Z)
  (input_sequences : list SmartleadCampaignSequenceInput) : M event unit :=
  try_except
    (_ <- query_smartlead
            ("/campaigns/" ++ str_of_int campaign_id ++ "/sequences")
            "POST" (SequencesBody input_sequences) [] ;;
     ret tt)
    (fun _ => raise RuntimeError).

End WithEnv.

End Client.

(* ================================================================== *)
(** ** [clients/smartlead/internal/index.py] *)

Module Internal.

(** Python binds the keyword arguments of a call to the parameters of the
    function before its body runs.  A parameter is a name and whether it
    has no default (is required). *)
Definition parameters : Type := list (string * bool).

Definition accepts (ps : parameters) (k : string) : bool :=
  existsb (fun p => String.eqb (fst p) k) ps.

Definition supplied (kwargs : list (string * pyval)) (k : string) : bool :=
  match dict_get k kwargs with Some _ => true | None => false end.

(** A keyword the function does not declare, or a required parameter left
    out, is a [TypeError] raised in place of the call. *)
Definition bind_keywords (ps : parameters) (kwargs : list (string * pyval))
  : res unit :=
  if forallb (fun kv => accepts ps (fst kv)) kwargs then
    if forallb (fun p => negb (snd p) || supplied kwargs (fst p)) ps
    then Ret tt
    else Raise TypeError
  else Raise TypeError.

(** The value of a parameter whose default is [None]. *)
Definition arg (k : string) (kwargs : list (string * pyval)) : pyval :=
  match dict_get k kwargs with Some v => v | None => VNone end.

(** [json=body] *)
Definition json_body (v : pyval) : body :=
  match v with VNone => NoBody | _ => JsonBody v end.

(** [params=query_params] *)
Definition params_of (v : pyval) : list (string * pyval) :=
  match v with VDict d => d | _ => [] end.

(** [if not token] *)
Definition present (token : option string) : option string :=
  match token with
  | Some t => if PyStr.truthy t then Some t else None
  | None => None
  end.

Section WithEnv.

Variable env : Env.

(** [query_smartlead_internal_rest_endpoint(endpoint, method, body=None,
        headers=None, query_params=None)], with [endpoint] and [method] the
    [str] their annotations say. *)
Definition query_smartlead_internal_rest_endpoint (endpoint method : string)
  (b : pyval) (query_params : pyval) : M event payload :=
  match present (SMARTLEAD_INTERNAL_API_TOKEN env) with
  | None => raise RuntimeError
  | Some _ =>
      fun tr =>
        let req := {| req_host := SmartleadServer;
                      req_method := PyStr.upper method;
                      req_endpoint := endpoint;
                      req_params := params_of query_params;
                      req_body := json_body b |} in
        match http env tr req with
        | Ok p => (Ret p, (tr ++ [Sent req])%list)
        | HttpError _ => (Raise RuntimeError, (tr ++ [Sent req])%list)
        | TransportError => (Raise RuntimeError, (tr ++ [Sent req])%list)
        end
  end.

(** [query_smartlead_internal_graphql_endpoint]: its parameters are all
    keyword-only, [method] with no default, then [headers=None],
    [body=None], [query_params=None] and [timeout=30].  Its one caller
    names other parameters, so the call goes through [bind_keywords]. *)
Definition graphql_endpoint_parameters : parameters :=
  [("method", true); ("headers", false); ("body", false);
   ("query_params", false); ("timeout", false)].

Definition query_smartlead_internal_graphql_endpoint
  (kwargs : list (string * pyval)) : M event payload :=
  lift (bind_keywords graphql_endpoint_parameters kwargs) ;;;
  match present (SMARTLEAD_INTERNAL_API_TOKEN env) with
  | None => raise SmartleadGraphQLError
  | Some _ =>
      match arg "method" kwargs with
      | VStr method =>
          fun tr =>
            let req := {| req_host := SmartleadGraphQL;
                          req_method := PyStr.upper method;
                          req_endpoint := "";
                          req_params := params_of (arg "query_params" kwargs);
                          req_body := json_body (arg "body" kwargs) |} in
            match http env tr req with
            | Ok p => (Ret p, (tr ++ [Sent req])%list)
            | HttpError _ =>
                (Raise SmartleadGraphQLError, (tr ++ [Sent req])%list)
            | TransportError =>
                (Raise SmartleadGraphQLError, (tr ++ [Sent req])%list)
            end
      | _ => raise AttributeError          (* [method.upper()] *)
      end
  end.

(** [remove_multiple_leads_from_campaign(smartlead_campaign_id,
        email_lead_ids, email_lead_map_ids)] *)
Definition remove_multiple_leads_from_campaign
  (smartlead_campaign_id : string) (email_lead_ids email_lead_map_ids : list Z)
  : M event payload :=
  emit (Invoked (call_remove_multiple_leads smartlead_campaign_id
                   email_lead_ids email_lead_map_ids)) ;;;
  if negb (Nat.eqb (List.length email_lead_ids)
                   (List.length email_lead_map_ids))
  then raise ValueError
  else
    let b := VDict [("campaignId", VStr smartlead_campaign_id);
                    ("emailLeadIds", VList (map VInt email_lead_ids));
                    ("emailLeadMapIds", VList (map VInt email_lead_map_ids))] in
    query_smartlead_internal_rest_endpoint
      "email-campaigns/delete-email-campaign-multiple-leads" "POST" b VNone.

(** The text of the GraphQL mutation. *)
Definition update_campaign_query : string :=
"
    mutation updateCampaignById($id: Int!, $changes: email_campaigns_set_input!) {
      update_email_campaigns_by_pk(pk_columns: {id: $id}, _set: $changes) {
        id
        __typename
      }
    }".

(** [update_smartlead_campaign_follow_up_percentage(campaign_id=...,
        follow_up_percentage=...)]: the call passes [query], [variables]
    and [operation_name]; the function has no [return], so its value,
    when the call comes back, is [None]. *)
Definition update_smartlead_campaign_follow_up_percentage
  (campaign_id follow_up_percentage : Z) : M event pyval :=
  emit (Invoked (call_update_follow_up_percentage campaign_id
                   follow_up_percentage)) ;;;
  let variables :=
    VDict [("id", VInt campaign_id);
           ("changes",
            VDict [("follow_up_percentage", VInt follow_up_percentage)])] in
  _ <- query_smartlead_internal_graphql_endpoint
         [("query", VStr update_campaign_query);
          ("variables", variables);
          ("operation_name", VStr "updateCampaignById")] ;;
  ret VNone.

End WithEnv.

End Internal.

(* ================================================================== *)
(** ** [pages/va/add_follow_ups.py] *)

Module AddFollowUps.

(** [enumerate(l)] *)
Fixpoint enumerate_from {A} (i : nat) (l : list A) : list (nat * A) :=
  match l with
  | [] => []
  | x :: l' => (i, x) :: enumerate_from (S i) l'
  end.

Definition enumerate {A} (l : list A) : list (nat * A) := enumerate_from 0 l.

(** The variants of an original sequence, ids kept; [None] when the
    sequence has no variants or an empty list of them. *)
Definition original_variants (seq : SmartleadCampaignSequence)
  : option (list SequenceVariantInput) :=
  match sequence_variants seq with
  | Some ((_ :: _) as vs) =>
      Some (map (fun v =>
                   {| vin_subject := var_subject v;
                      vin_id := Some (var_id v);
                      vin_email_body := var_email_body v;
                      vin_variant_label := var_variant_label v;
                      vin_variant_distribution_percentage :=
                        var_variant_distribution_percentage v |}) vs)
  | _ => None
  end.

Definition original_input (seq : SmartleadCampaignSequence)
  : SmartleadCampaignSequenceInput :=
  {| in_seq_number := seq_number seq;
     in_id := Some (seq_id seq);
     in_subject := Some (subject seq);
     in_email_body := Some (email_body seq);
     in_seq_delay_details :=
       Some {| delay_in_days := delayInDays (seq_delay_details seq) |};
     in_seq_variants := original_variants seq |}.

(** The variants of a clone, ids unset. *)
Definition clone_variants (seq : SmartleadCampaignSequence)
  : option (list SequenceVariantInput) :=
  match sequence_variants seq with
  | Some ((_ :: _) as vs) =>
      Some (map (fun v =>
                   {| vin_subject := var_subject v;
                      vin_id := None;
                      vin_email_body := var_email_body v;
                      vin_variant_label := var_variant_label v;
                      vin_variant_distribution_percentage :=
                        var_variant_distribution_percentage v |}) vs)
  | _ => None
  end.

(** The body of the second [for] loop at [index], [count] being
    [len(sequences)]. *)
Definition clone (count : nat) (delay_period : Z) (index : nat)
  (seq : SmartleadCampaignSequence) : SmartleadCampaignSequenceInput :=
  let new_seq_number := Z.of_nat count + Z.of_nat index + 1 in
  let new_delay :=
    if Nat.eqb index 0 then delay_period
    else delayInDays (seq_delay_details seq) in
  {| in_seq_number := new_seq_number;
     in_id := None;
     in_subject := Some (subject seq);
     in_email_body := Some (email_body seq);
     in_seq_delay_details := Some {| delay_in_days := new_delay |};
     in_seq_variants := clone_variants seq |}.

(** [input_sequences = original_inputs + clones] *)
Definition build_inputs (delay_period : Z)
  (sequences : list SmartleadCampaignSequence)
  : list SmartleadCampaignSequenceInput :=
  let original_inputs := map original_input sequences in
  let clones :=
    map (fun p => clone (List.length sequences) delay_period (fst p) (snd p))
        (enumerate sequences) in
  (original_inputs ++ clones)%list.

(** The guard [expected_sequence_length is not None and
    len(sequences) >= expected_sequence_length]. *)
Definition nothing_to_do (expected_sequence_length : option Z)
  (sequences : list SmartleadCampaignSequence) : bool :=
  match expected_sequence_length with
  | Some e => e <=? Z.of_nat (List.length sequences)
  | None => false
  end.

(** The sent ratio is the [int] 0 or the [float] of a true division. *)
Inductive number : Type :=
| Int (n : Z)
| Float (x : spec_float).

Definition float_of_int (n : Z) : spec_float :=
  match n with
  | Z0 => S754_zero false
  | Zpos p => S754_finite false p 0
  | Zneg p => S754_finite true p 0
  end.

(** [a / b] on [int]s: the quotient rounded once to binary64. *)
Definition truediv (a b : Z) : res spec_float :=
  if b =? 0 then Raise ZeroDivisionError
  else
    match SFdiv 53 1024 (float_of_int a) (float_of_int b) with
    | S754_infinity _ => Raise OverflowError
    | q => Ret q
    end.

(** The literal [0.70], that is 0x1.6666666666666p-1. *)
Definition threshold : spec_float := S754_finite false 6305039478318694 (-53).

(** [x >= c] for a number [x] and a float [c]; an [int] is compared
    exactly. *)
Definition ge_float (x : number) (c : spec_float) : bool :=
  match x with
  | Float r => SFleb c r
  | Int n =>
      match c with
      | S754_zero _ => 0 <=? n
      | S754_finite s m (Zneg p) =>
          cond_Zopp s (Zpos m) <=? n * 2 ^ Zpos p
      | S754_finite s m e => cond_Zopp s (Zpos m) * 2 ^ e <=? n
      | S754_infinity s => s
      | S754_nan => false
      end
  end.

(** What the run of the page leaves in the session: the ids of the
    campaigns that went through and of those that failed, with the error.
    The label and the link of a row are functions of the id. *)
Record session : Type := {
  successful_campaigns : list Z;
  failed_campaigns : list (Z * exn)
}.

Section WithEnv.

Variable env : Env.

Definition add_follow_ups_to_campaign (smartlead_campaign_id delay_period : Z)
  (expected_sequence_length : option Z) : M event unit :=
  emit (Invoked (call_add_follow_ups smartlead_campaign_id delay_period
                   expected_sequence_length)) ;;;
  sequences <- Client.get_campaign_sequences env smartlead_campaign_id ;;
  if nothing_to_do expected_sequence_length sequences then ret tt
  else
    let input_sequences := build_inputs delay_period sequences in
    try_except
      (Client.add_sequences_to_campaign env smartlead_campaign_id
         input_sequences)
      (fun _ => raise RuntimeError).

(** The optional bump of the follow-up percentage, lines 176 to 189. *)
Definition follow_up_percentage_bump (cid : Z) : M event unit :=
  stats <- Client.get_campaign_statistics env cid ;;
  let total_leads := total (campaign_lead_stats stats) in
  unique_sent_count <-
    lift (of_option ValueError (PyStr.int_of_str (unique_sent_count stats))) ;;
  sent_ratio <-
    (if total_leads =? 0 then ret (Int 0)
     else r <- lift (truediv unique_sent_count total_leads) ;; ret (Float r)) ;;
  if (total_leads =? 0) || ge_float sent_ratio threshold then
    _ <- Internal.update_smartlead_campaign_follow_up_percentage env cid 90 ;;
    ret tt
  else ret tt.

(** The body of the [try] for one campaign. *)
Definition process_campaign (change_follow_up_percentage : bool)
  (delay_period cid : Z) : M event unit :=
  (if change_follow_up_percentage then follow_up_percentage_bump cid
   else ret tt) ;;;
  add_follow_ups_to_campaign cid delay_period None.

(** The runner: each selected campaign in turn, a failure recorded and
    the loop carried on. *)
Fixpoint runner (change_follow_up_percentage : bool) (delay_period : Z)
  (selected_campaigns : list Z) (ss : session) (tr : trace)
  : session * trace :=
  match selected_campaigns with
  | [] => (ss, tr)
  | cid :: rest =>
      match process_campaign change_follow_up_percentage delay_period cid tr
      with
      | (Ret _, tr') =>
          runner change_follow_up_percentage delay_period rest
            {| successful_campaigns :=
                 (successful_campaigns ss ++ [cid])%list;
               failed_campaigns := failed_campaigns ss |} tr'
      | (Raise e, tr') =>
          runner change_follow_up_percentage delay_period rest
            {| successful_campaigns := successful_campaigns ss;
               failed_campaigns := (failed_campaigns ss ++ [(cid, e)])%list |}
            tr'
      end
  end.

End WithEnv.

End AddFollowUps.

(* ================================================================== *)
(** ** [common/utils.py] and [pages/va/filter_leads_from_campaign.py] *)

Module FilterLeads.

(** One row of the uploaded CSV, as [csv.DictReader] gives it: a column of
    a short row has the value [None]. *)
Definition lead_row : Type := list (string * option string).

(** [lead.get(k)] *)
Definition get (k : string) (lead : lead_row) : option string :=
  match dict_get k lead with Some v => v | None => None end.

Definition newline : string := String (ascii_of_nat 10) EmptyString.

(** [criteria.replace(";", "\n")] *)
Definition one_per_line (criteria : string) : string :=
  PyStr.replace_char ";" newline criteria.

(** [not a or not b] on the two arguments of a predicate. *)
Definition either_empty (a : option string) (b : string) : bool :=
  negb (PyStr.truthy_opt a) || negb (PyStr.truthy b).

(** The text of an argument that passed the emptiness test. *)
Definition text (a : option string) : string :=
  match a with Some s => s | None => "None" end.

(** The two messages and the temperature of each predicate's question. *)
Definition area_question (location : option string)
  (whitelisted_areas : string) : gpt_request :=
  {| system_prompt :=
       "You are a helpful assistant that filters addresses based on whitelisted areas. "
       ++ "The whitelisted areas are:" ++ newline
       ++ one_per_line whitelisted_areas;
     user_prompt :=
       "Is the address " ++ text location
       ++ " located within any of the whitelisted areas? "
       ++ "You answer should strictly be 'yes' or 'no'";
     temperature := (7 # 10)%Q |}.

Definition blocklist_question (industry : option string)
  (blocklisted_industries : string) : gpt_request :=
  {| system_prompt :=
       "You are a helpful assistant that filters industries based on blocklisted industries:"
       ++ newline ++ one_per_line blocklisted_industries;
     user_prompt :=
       "Does the industry " ++ text industry
       ++ " match any of the blocklisted industries? "
       ++ "Answer strictly 'yes' or 'no'";
     temperature := (7 # 10)%Q |}.

Definition whitelist_question (industry : option string)
  (whitelisted_industries : string) : gpt_request :=
  {| system_prompt :=
       "You are a helpful assistant that filters industries based on whitelisted industries:"
       ++ newline ++ one_per_line whitelisted_industries;
     user_prompt :=
       "Does the industry " ++ text industry
       ++ " stay within any of the whitelisted industries? "
       ++ "Answer strictly 'yes' or 'no'";
     temperature := (2 # 10)%Q |}.

Section WithEnv.

Variable env : Env.

(** [get_gpt_answer(system_prompt, user_prompt, temperature=0.7)]; the
    first two predicates leave the temperature at its default. *)
Definition get_gpt_answer (system user : string) (temp : Q)
  : M event string :=
  fun tr =>
    match OPENAI_API_KEY env with
    | None => (Raise KeyError, tr)
    | Some _ =>
        let g := {| system_prompt := system;
                    user_prompt := user;
                    temperature := temp |} in
        match openai env tr g with
        | Content s =>
            (Ret (PyStr.lower (PyStr.strip s)), (tr ++ [Asked g])%list)
        | NoContent => (Raise AttributeError, (tr ++ [Asked g])%list)
        | GptFailure => (Raise APIError, (tr ++ [Asked g])%list)
        end
    end.

Definition is_outside_whitelisted_area (location : option string)
  (whitelisted_areas : string) : M event bool :=
  emit (Invoked (call_is_outside_whitelisted_area location
                   whitelisted_areas)) ;;;
  if either_empty location whitelisted_areas then ret false
  else
    let q := area_question location whitelisted_areas in
    ans <- get_gpt_answer (system_prompt q) (user_prompt q) (7 # 10)%Q ;;
    ret (String.eqb (PyStr.lower (PyStr.strip ans)) "no").

Definition is_in_blocklisted_industry (industry : option string)
  (blocklisted_industries : string) : M event bool :=
  emit (Invoked (call_is_in_blocklisted_industry industry
                   blocklisted_industries)) ;;;
  if either_empty industry blocklisted_industries then ret false
  else
    let q := blocklist_question industry blocklisted_industries in
    ans <- get_gpt_answer (system_prompt q) (user_prompt q) (7 # 10)%Q ;;
    ret (String.eqb (PyStr.lower (PyStr.strip ans)) "yes").

Definition is_outside_whitelisted_industry (industry : option string)
  (whitelisted_industries : string) : M event bool :=
  emit (Invoked (call_is_outside_whitelisted_industry industry
                   whitelisted_industries)) ;;;
  if either_empty industry whitelisted_industries then ret false
  else
    let q := whitelist_question industry whitelisted_industries in
    ans <- get_gpt_answer (system_prompt q) (user_prompt q) (2 # 10)%Q ;;
    ret (String.eqb (PyStr.lower (PyStr.strip ans)) "no").

(** [check_one(lead)] of [process_leads]: the lead when it is to be
    removed, [None] otherwise. *)
Definition check_one (blocklisted_industries whitelisted_industries
  whitelisted_areas : string) (lead : lead_row) : M event (option lead_row) :=
  let loc := get "Location" lead in
  let industry := get "informalIndustry" lead in
  outside_area <- is_outside_whitelisted_area loc whitelisted_areas ;;
  if (outside_area : bool) then ret (Some lead)
  else
    blocklisted <- is_in_blocklisted_industry industry blocklisted_industries ;;
    if (blocklisted : bool) then ret (Some lead)
    else
      outside_industry <-
        is_outside_whitelisted_industry industry whitelisted_industries ;;
      if (outside_industry : bool) then ret (Some lead)
      else ret None.

End WithEnv.

End FilterLeads.

(* ================================================================== *)
(** ** Concrete campaigns and services *)

Module Demo.

Definition variant (id : Z) (label : string)
  : SmartleadCampaignSequenceVariant :=
  {| var_id := id;
     var_created_at := "2025-01-01T00:00:00Z";
     var_updated_at := "2025-01-01T00:00:00Z";
     var_is_deleted := false;
     var_subject := "Hello";
     var_email_body := "Body";
     email_campaign_seq_id := 1;
     var_variant_label := label;
     optional_email_body_1 := None;
     var_variant_distribution_percentage := Some 50;
     year := 2025 |}.

Definition sequence (id number delay : Z)
  (variants : option (list SmartleadCampaignSequenceVariant))
  : SmartleadCampaignSequence :=
  {| seq_id := id;
     seq_created_at := "2025-01-01T00:00:00Z";
     seq_updated_at := "2025-01-01T00:00:00Z";
     email_campaign_id := 7;
     seq_number := number;
     subject := "Hello";
     email_body := "Body";
     seq_delay_details := {| delayInDays := delay |};
     sequence_variants := variants |}.

(** A campaign with three sequences, delays 1, 2 and 3. *)
Definition three_sequences : list SmartleadCampaignSequence :=
  [sequence 11 1 1 (Some [variant 101 "A"; variant 102 "B"]);
   sequence 12 2 2 None;
   sequence 13 3 3 (Some [])].

(** The sequence a platform keeps for a submitted input: the id of the
    input, or a new one for an input without id. *)
Definition stored (i : SmartleadCampaignSequenceInput)
  : SmartleadCampaignSequence :=
  sequence (match in_id i with Some n => n | None => 1000 + in_seq_number i end)
           (in_seq_number i)
           (match in_seq_delay_details i with
            | Some d => delay_in_days d
            | None => 0
            end)
           None.

(** The sequences of the campaign after the requests of a trace: the last
    submitted list, or the initial one. *)
Fixpoint sequences_after (initial : list SmartleadCampaignSequence)
  (tr : trace) : list SmartleadCampaignSequence :=
  match tr with
  | [] => initial
  | Sent {| req_body := SequencesBody l |} :: tr' =>
      sequences_after (map stored l) tr'
  | _ :: tr' => sequences_after initial tr'
  end.

Definition lead_of (id : Z) (mail : string) (category : option Z)
  : SmartleadCampaignLead :=
  {| campaign_lead_map_id := 500 + id;
     status := "INPROGRESS";
     lead_category_id := category;
     created_at := "2025-01-01T00:00:00Z";
     lead := {| lead_id := id;
                first_name := "";
                last_name := "";
                email := mail;
                phone_number := "";
                company_name := "";
                website := "";
                location := "";
                custom_fields := [];
                linkedin_profile := "";
                company_url := "";
                is_unsubscribed := false |} |}.

Definition has_category (c : Z) (l : SmartleadCampaignLead) : bool :=
  match lead_category_id l with Some c' => c' =? c | None => false end.

(** The page a leads endpoint serves: the leads of the category asked for
    (all of them when none is), from the offset asked for (0 when none
    is), at most [page_size] of them, with the number of matching leads as
    [total_leads]. *)
Definition leads_page (db : list SmartleadCampaignLead) (page_size : nat)
  (params : list (string * pyval)) : SmartleadGetCampaignLeadsResponse :=
  let matching :=
    match dict_get "lead_category_id" params with
    | Some (VInt c) => filter (has_category c) db
    | _ => db
    end in
  let start :=
    match dict_get "offset" params with
    | Some (VInt o) => Z.to_nat o
    | _ => O
    end in
  {| total_leads := Z.of_nat (List.length matching);
     offset := Z.of_nat start;
     limit := Z.of_nat page_size;
     data := firstn page_size (skipn start matching) |}.

Definition statistics (total_leads : Z) (unique_sent : string)
  : SmartleadCampaignStatistics :=
  {| stat_id := 7;
     stat_user_id := 1;
     stat_created_at := "2025-01-01T00:00:00Z";
     stat_status := "ACTIVE";
     stat_name := "Campaign";
     sent_count := "0";
     open_count := "0";
     click_count := "0";
     reply_count := "0";
     block_count := "0";
     total_count := "0";
     sequence_count := "0";
     drafted_count := "0";
     bounce_count := "0";
     unsubscribed_count := "0";
     unique_open_count := "0";
     unique_click_count := "0";
     unique_sent_count := unique_sent;
     stat_client_id := None;
     stat_client_name := None;
     stat_client_email := None;
     campaign_lead_stats :=
       {| total := total_leads; paused := 0; blocked := 0; stopped := 0;
          completed := 0; inprogress := 0; interested := 0;
          notStarted := 0 |} |}.

Definition ends_with (suffix s : string) : bool :=
  let n := String.length s in
  let k := String.length suffix in
  String.eqb (substring (n - k) k s) suffix.

(** A platform holding one campaign: its sequences, its statistics and
    its leads, served in pages.  Every request is answered. *)
Definition platform (sequences : list SmartleadCampaignSequence)
  (stats : SmartleadCampaignStatistics) (db : list SmartleadCampaignLead)
  (page_size : nat) : trace -> request -> reply :=
  fun tr req =>
    if ends_with "/sequences" (req_endpoint req) then
      if String.eqb (req_method req) "GET"
      then Ok (SequenceList (sequences_after sequences tr))
      else Ok (Other (VDict [("ok", VInt 1)]))
    else if ends_with "/analytics" (req_endpoint req) then
      Ok (Statistics stats)
    else if ends_with "/leads" (req_endpoint req) then
      Ok (LeadsPage (leads_page db page_size (req_params req)))
    else Ok (Other (VDict [("ok", VInt 1)])).

(** A model that gives the same answer to every question. *)
Definition fixed_answer (answer : string) : trace -> gpt_request -> gpt_reply :=
  fun _ _ => Content answer.

Definition env_of (h : trace -> request -> reply)
  (g : trace -> gpt_request -> gpt_reply) : Env :=
  {| SMARTLEAD_API_KEY := Some "key";
     OPENAI_API_KEY := Some "sk";
     SMARTLEAD_INTERNAL_API_TOKEN := Some "token";
     http := h;
     openai := g |}.

(** Three leads, the first outside category 1. *)
Definition three_leads : list SmartleadCampaignLead :=
  [lead_of 1 "a@x.io" (Some 2);
   lead_of 2 "b@x.io" (Some 1);
   lead_of 3 "c@x.io" (Some 1)].

(** Campaign 7 with the given statistics. *)
Definition campaign_with (total_leads : Z) (unique_sent : string) : Env :=
  env_of (platform three_sequences (statistics total_leads unique_sent)
            three_leads 1)
         (fixed_answer " No ").

Definition campaign_env : Env := campaign_with 100 "70".

(** Campaign 7 on a platform that fails every second request: the one
    that comes after an odd number of events. *)
Definition flaky_env : Env :=
  env_of (fun tr req =>
            if Nat.odd (List.length tr) then TransportError
            else platform three_sequences (statistics 100 "70") three_leads 1
                   tr req)
         (fixed_answer " No ").

(** A platform that is down: every request gets an HTTP error. *)
Definition down_env : Env :=
  env_of (fun _ _ => HttpError NotJson) (fixed_answer "no").

End Demo.

(* ================================================================== *)
(** ** The requests the functions send *)

Module Requests.

(** [GET /campaigns/{cid}/sequences] *)
Definition sequences_get (key : string) (cid : Z) : request :=
  {| req_host := SmartleadV1;
     req_method := "GET";
     req_endpoint := "/campaigns/" ++ str_of_int cid ++ "/sequences";
     req_params := [("api_key", VStr key)];
     req_body := NoBody |}.

(** [POST /campaigns/{cid}/sequences] with the given inputs. *)
Definition sequences_post (key : string) (cid : Z)
  (inputs : list SmartleadCampaignSequenceInput) : request :=
  {| req_host := SmartleadV1;
     req_method := "POST";
     req_endpoint := "/campaigns/" ++ str_of_int cid ++ "/sequences";
     req_params := [("api_key", VStr key)];
     req_body := SequencesBody inputs |}.


(** [GET campaigns/{cid}/leads] with the given parameters and the key. *)
Definition leads_get (key : string) (cid : Z)
  (params : list (string * pyval)) : request :=
  {| req_host := SmartleadV1;
     req_method := "GET";
     req_endpoint := Client.leads_endpoint cid;
     req_params := dict_set "api_key" (VStr key) params;
     req_body := NoBody |}.

(** The first request of the paginated listing. *)
Definition first_leads_get (key : string) (cid : Z)
  (lead_category_id : option Z) (event_time : option string) : request :=
  leads_get key cid
    (Client.event_time_param event_time
       ++ Client.lead_category_param lead_category_id)%list.

(** The request of the loop for the page at [offset]. *)
Definition page_get (key : string) (cid : Z) (event_time : option string)
  (offset : nat) : request :=
  leads_get key cid
    (("offset", VInt (Z.of_nat offset)) :: Client.event_time_param event_time).

(** The deletion request. *)
Definition delete_leads_post (cid : string) (ids map_ids : list Z) : request :=
  {| req_host := SmartleadServer;
     req_method := "POST";
     req_endpoint := "email-campaigns/delete-email-campaign-multiple-leads";
     req_params := [];
     req_body :=
       JsonBody
         (VDict [("campaignId", VStr cid);
                 ("emailLeadIds", VList (map VInt ids));
                 ("emailLeadMapIds", VList (map VInt map_ids))]) |}.

(** The answer to a leads request is a page that validates. *)
Definition page_reply (r : reply) : option SmartleadGetCampaignLeadsResponse :=
  match r with
  | Ok (LeadsPage p) => Some p
  | _ => None
  end.

(** A computation only appends events, all of them satisfying [P]. *)
Definition appends {A} (P : event -> Prop) (m : M event A) : Prop :=
  forall tr, exists added,
    snd (m tr) = (tr ++ added)%list /\ Forall P added.

(** An event other than a call of the duplicator with an expected
    length. *)
Definition no_expected_length (e : event) : Prop :=
  match e with
  | Invoked (call_add_follow_ups _ _ (Some _)) => False
  | _ => True
  end.

(** Among the events [added] after [tr], a run of the duplicator on [cid]
    with no expected length that fetched [seqs] and submitted
    [build_inputs d seqs]: twice as many inputs, the second half without
    ids. *)
Definition doubling_run (env : Env) (d cid : Z) (tr added : trace) : Prop :=
  exists before after key seqs,
    added
    = (before
         ++ [Invoked (call_add_follow_ups cid d None);
             Sent (sequences_get key cid);
             Sent (sequences_post key cid (AddFollowUps.build_inputs d seqs))]
         ++ after)%list
    /\ http env (tr ++ before ++ [Invoked (call_add_follow_ups cid d None)])%list
         (sequences_get key cid) = Ok (SequenceList seqs)
    /\ List.length (AddFollowUps.build_inputs d seqs)
       = (2 * List.length seqs)%nat
    /\ Forall (fun i => in_id i = None)
         (skipn (List.length seqs) (AddFollowUps.build_inputs d seqs)).

(** The numbers of inputs of the submissions of a trace, in order. *)
Fixpoint submitted_lengths (tr : trace) : list nat :=
  match tr with
  | [] => []
  | Sent {| req_body := SequencesBody l |} :: tr' =>
      List.length l :: submitted_lengths tr'
  | _ :: tr' => submitted_lengths tr'
  end.

(** A page of the list [db] from [offset] on: the total is the length of
    [db] and the data are its next [k] leads, for some [k] that is at
    least 1. *)
Definition is_page_of (db : list SmartleadCampaignLead) (offset : nat)
  (r : SmartleadGetCampaignLeadsResponse) : Prop :=
  total_leads r = Z.of_nat (List.length db)
  /\ exists k, (1 <= k)%nat /\ data r = firstn k (skipn offset db).

(** The request [req], sent after [tr] and sent again after each failure,
    is answered with a page after at most [n] failures. *)
Fixpoint succeeds_within (env : Env) (n : nat) (tr : trace) (req : request)
  : Prop :=
  match page_reply (http env tr req) with
  | Some _ => True
  | None =>
      match n with
      | O => False
      | S n' => succeeds_within env n' (tr ++ [Sent req])%list req
      end
  end.

(** A string that does not start with white space. *)
Definition clean_front (s : string) : Prop :=
  match s with
  | EmptyString => True
  | String c _ => PyStr.is_space c = false
  end.

End Requests.

Import Requests.

(* ================================================================== *)
(** ** [common/utils.py]: batches *)

Module Utils.

(** The values of [range(start, stop, step)] for a positive [step]; [fuel]
    bounds their number. *)
Fixpoint range_from (fuel start stop step : nat) : list nat :=
  match fuel with
  | O => []
  | S fuel' =>
      if (start <? stop)%nat
      then start :: range_from fuel' (start + step) stop step
      else []
  end.

(** [list(chunk_list(lst, chunk_size))]: the slices [lst[i : i + chunk_size]]
    for [i] in [range(0, len(lst), chunk_size)].  A step of 0 makes [range]
    raise [ValueError]; a negative step makes it empty. *)
Definition chunk_list {A} (lst : list A) (chunk_size : Z)
  : res (list (list A)) :=
  if chunk_size =? 0 then Raise ValueError
  else if chunk_size <? 0 then Ret []
  else
    let n := Z.to_nat chunk_size in
    Ret (map (fun i => firstn n (skipn i lst))
             (range_from (List.length lst) 0 (List.length lst) n)).

End Utils.

(* ================================================================== *)
(** ** [clients/smartlead/index.py]: campaigns *)

Module Campaigns.

Inductive StatusEnum : Type :=
| ACTIVE | PAUSED | COMPLETED | DRAFTED | ARCHIVED.

Record SchedulerCronValue : Type := {
  tz : string;
  days : list Z;
  endHour : string;
  startHour : string
}.

(** [SmartleadCampaign], as its second declaration in the schema has it
    (the one in force): dates are [str], the percentage an [int]. *)
Record SmartleadCampaign : Type := {
  id : Z;
  user_id : Z;
  camp_created_at : string;
  updated_at : string;
  camp_status : StatusEnum;
  name : string;
  track_settings : list string;
  scheduler_cron_value : option SchedulerCronValue;
  min_time_btwn_emails : Z;
  max_leads_per_day : Z;
  stop_lead_settings : string;
  enable_ai_esp_matching : bool;
  send_as_plain_text : bool;
  follow_up_percentage : Z;
  unsubscribe_text : option string;
  parent_campaign_id : option Z;
  client_id : option Z
}.

Section WithEnv.

Variable env : Env.

(** [SmartleadCampaign.model_validate] on a JSON value: the campaign it
    validates as, if any. *)
Variable model_validate : pyval -> option SmartleadCampaign.

(** The campaign a 2xx answer validates as.  An answer already known as a
    page of leads, a list of sequences or statistics lacks the fields of a
    campaign. *)
Definition validate_campaign (p : payload) : option SmartleadCampaign :=
  match p with
  | Other j => model_validate j
  | _ => None
  end.

(** [get_campaign_by_id(campaign_id)]: the request is outside the [try];
    a [ValidationError] becomes a [ValueError]. *)
Definition get_campaign_by_id (campaign_id : Z) : M event SmartleadCampaign :=
  result <- Client.query_smartlead env
              ("campaigns/" ++ str_of_int campaign_id) "GET" NoBody [] ;;
  match validate_campaign result with
  | Some campaign => ret campaign
  | None => raise ValueError
  end.

(** [[SmartleadCampaign.model_validate(item) for item in result]]: all the
    items, or [None] at the first that does not validate. *)
Fixpoint validate_all (items : list pyval) : option (list SmartleadCampaign) :=
  match items with
  | [] => Some []
  | item :: rest =>
      match model_validate item with
      | Some c =>
          match validate_all rest with
          | Some cs => Some (c :: cs)
          | None => None
          end
      | None => None
      end
  end.

(** [get_campaigns()]: an answer that is not a list, and a list with an
    item that does not validate, both end in [RuntimeError]. *)
Definition get_campaigns : M event (list SmartleadCampaign) :=
  result <- Client.query_smartlead env "/campaigns" "GET" NoBody [] ;;
  match result with
  | Other (VList items) =>
      match validate_all items with
      | Some campaigns => ret campaigns
      | None => raise RuntimeError
      end
  | SequenceList [] => ret []
  | _ => raise RuntimeError
  end.

End WithEnv.

End Campaigns.

(* ================================================================== *)
(** ** [pages/va/filter_leads_from_campaign.py]: the page *)

Module FilterPage.

(** One entry of [ss.lead_details]. *)
Record lead_detail : Type := {
  leadId : Z;
  leadMappingId : Z
}.

(** [any(ltr.get("Email") == lead.lead.email for ltr in leads_to_remove)] *)
Definition in_upload (leads_to_remove : list FilterLeads.lead_row)
  (l : SmartleadCampaignLead) : bool :=
  existsb (fun ltr =>
             match FilterLeads.get "Email" ltr with
             | Some e => String.eqb e (email (lead l))
             | None => false
             end)
          leads_to_remove.

(** The comprehension that fills [ss.lead_details]. *)
Definition lead_details (leads : list SmartleadCampaignLead)
  (leads_to_remove : list FilterLeads.lead_row) : list lead_detail :=
  map (fun l => {| leadId := lead_id (lead l);
                   leadMappingId := campaign_lead_map_id l |})
      (filter (in_upload leads_to_remove) leads).

(** What the removal block shows. *)
Inductive removal_message : Type :=
| Failed_to_remove (e : exn)
| Removed (count : nat).

(** A list [sub] obtained from [l] by dropping elements. *)
Inductive sublist {A} : list A -> list A -> Prop :=
| sublist_nil : sublist [] []
| sublist_keep x sub l : sublist sub l -> sublist (x :: sub) (x :: l)
| sublist_drop x sub l : sublist sub l -> sublist sub (x :: l).

Section WithEnv.

Variable env : Env.

(** The listing and the matching that follow a filter run with leads to
    remove: the campaign is listed with its id alone. *)
Definition precompute (fuel : nat) (selected_campaign_id : Z)
  (leads_to_remove : list FilterLeads.lead_row) (tr : trace)
  : option (res (list lead_detail) * trace) :=
  match Client.get_leads_by_campaign_id_with_pagination env fuel
          selected_campaign_id None None tr with
  | Some (Ret leads, tr') => Some (Ret (lead_details leads leads_to_remove), tr')
  | Some (Raise e, tr') => Some (Raise e, tr')
  | None => None
  end.

(** The block under [if ss.removing]: the call inside [try], any exception
    shown as an error. *)
Definition perform_removal (selected_campaign_id : Z)
  (details : list lead_detail) (tr : trace) : removal_message * trace :=
  match Internal.remove_multiple_leads_from_campaign env
          (str_of_int selected_campaign_id)
          (map leadId details) (map leadMappingId details) tr with
  | (Ret _, tr') => (Removed (List.length details), tr')
  | (Raise e, tr') => (Failed_to_remove e, tr')
  end.

Variable model_validate : pyval -> option Campaigns.SmartleadCampaign.

(** The loop that fills [campaign_details]: a [ValueError] is shown and the
    loop goes on, any other exception leaves the loop.  The result is the
    campaigns loaded and the ids whose error was shown. *)
Fixpoint load_campaign_details (campaign_ids : list Z)
  (campaign_details : list Campaigns.SmartleadCampaign) (shown : list Z)
  : M event (list Campaigns.SmartleadCampaign * list Z) :=
  match campaign_ids with
  | [] => ret (campaign_details, shown)
  | cid :: rest =>
      fun tr =>
        match Campaigns.get_campaign_by_id env model_validate cid tr with
        | (Ret campaign_detail, tr') =>
            load_campaign_details rest
              (campaign_details ++ [campaign_detail])%list shown tr'
        | (Raise ValueError, tr') =>
            load_campaign_details rest campaign_details
              (shown ++ [cid])%list tr'
        | (Raise e, tr') => (Raise e, tr')
        end
  end.

(** [asyncio.gather] over [check_one] on one batch: the results of the
    batch in the order of its leads, or the first exception. *)
Variable gather :
  list FilterLeads.lead_row -> M event (list (option FilterLeads.lead_row)).

(** [[x for x in results if x is not None]] *)
Fixpoint not_none {A} (results : list (option A)) : list A :=
  match results with
  | [] => []
  | Some x :: rest => x :: not_none rest
  | None :: rest => not_none rest
  end.

(** The loop of [process_leads] over the batches. *)
Fixpoint process_batches (batches : list (list FilterLeads.lead_row))
  (leads_to_remove : list FilterLeads.lead_row)
  : M event (list FilterLeads.lead_row) :=
  match batches with
  | [] => ret leads_to_remove
  | batch :: rest =>
      results <- gather batch ;;
      process_batches rest (leads_to_remove ++ not_none results)%list
  end.

(** [process_leads(raw_leads, ...)], batches of 50. *)
Definition process_leads (raw_leads : list FilterLeads.lead_row)
  : M event (list FilterLeads.lead_row) :=
  batches <- lift (Utils.chunk_list raw_leads 50) ;;
  process_batches batches [].

End WithEnv.

(** One lead after the other: the schedule of [gather] in which each
    [check_one] ends before the next one starts. *)
Fixpoint check_in_turn (env : Env) (blocklisted_industries
  whitelisted_industries whitelisted_areas : string)
  (batch : list FilterLeads.lead_row)
  : M event (list (option FilterLeads.lead_row)) :=
  match batch with
  | [] => ret []
  | row :: rest =>
      r <- FilterLeads.check_one env blocklisted_industries
             whitelisted_industries whitelisted_areas row ;;
      rs <- check_in_turn env blocklisted_industries whitelisted_industries
              whitelisted_areas rest ;;
      ret (r :: rs)
  end.

End FilterPage.

(* ================================================================== *)
(** ** More concrete services *)

Module Demo2.

(** A validation that accepts the JSON object [{"id": n}] alone and
    fills the other fields with fixed values. *)
Definition validate_by_id (j : pyval) : option Campaigns.SmartleadCampaign :=
  match j with
  | VDict [("id", VInt n)] =>
      Some {| Campaigns.id := n;
              Campaigns.user_id := 1;
              Campaigns.camp_created_at := "2025-01-01T00:00:00Z";
              Campaigns.updated_at := "2025-01-01T00:00:00Z";
              Campaigns.camp_status := Campaigns.ACTIVE;
              Campaigns.name := "Campaign";
              Campaigns.track_settings := [];
              Campaigns.scheduler_cron_value := None;
              Campaigns.min_time_btwn_emails := 10;
              Campaigns.max_leads_per_day := 100;
              Campaigns.stop_lead_settings := "REPLY_TO_AN_EMAIL";
              Campaigns.enable_ai_esp_matching := false;
              Campaigns.send_as_plain_text := false;
              Campaigns.follow_up_percentage := 40;
              Campaigns.unsubscribe_text := None;
              Campaigns.parent_campaign_id := None;
              Campaigns.client_id := None |}
  | _ => None
  end.

(** A platform that knows campaign 7, answers a malformed object for
    campaign 8 and an HTTP error for any other campaign. *)
Definition campaigns_env : Env :=
  Demo.env_of
    (fun _ req =>
       if String.eqb (req_endpoint req) "campaigns/7"
       then Ok (Other (VDict [("id", VInt 7)]))
       else if String.eqb (req_endpoint req) "campaigns/8"
       then Ok (Other (VDict [("error", VStr "gone")]))
       else HttpError JsonObject)
    (Demo.fixed_answer "no").

(** A platform whose first page of leads announces three leads and holds
    one, and whose requests with an offset all fail. *)
Definition stuck_env : Env :=
  Demo.env_of
    (fun _ req =>
       match dict_get "offset" (req_params req) with
       | Some _ => HttpError NotJson
       | None => Ok (LeadsPage (Demo.leads_page Demo.three_leads 1 []))
       end)
    (Demo.fixed_answer "no").

(** A platform behind a gateway that answers every request with an HTTP
    error whose body is a JSON string. *)
Definition bad_gateway_env : Env :=
  Demo.env_of (fun _ _ => HttpError JsonOther) (Demo.fixed_answer "no").

(** The environment of campaign 7 without the API key. *)
Definition keyless_env : Env :=
  {| SMARTLEAD_API_KEY := None;
     OPENAI_API_KEY := None;
     SMARTLEAD_INTERNAL_API_TOKEN := None;
     http := http Demo.campaign_env;
     openai := openai Demo.campaign_env |}.

(** The request for campaign [cid] with the key of these platforms. *)
Definition campaign_get (cid : Z) : request :=
  {| req_host := SmartleadV1;
     req_method := "GET";
     req_endpoint := "campaigns/" ++ str_of_int cid;
     req_params := [("api_key", VStr "key")];
     req_body := NoBody |}.

(** A platform whose list of campaigns is the given JSON list. *)
Definition listing_env (items : list pyval) : Env :=
  Demo.env_of (fun _ _ => Ok (Other (VList items))) (Demo.fixed_answer "no").

(** Three uploaded rows: one with the mail of lead b, one with an
    unknown mail, one without the column. *)
Definition upload : list FilterLeads.lead_row :=
  [[("Email", Some "b@x.io"); ("Location", Some "Oslo")];
   [("Email", Some "z@x.io"); ("Location", Some "Rome")];
   [("Location", Some "Paris")]].

End Demo2.

(* ================================================================== *)
(** ** More requests and the gate as a function *)

Module Statements.

(** [GET /campaigns] *)
Definition campaigns_get (key : string) : request :=
  {| req_host := SmartleadV1;
     req_method := "GET";
     req_endpoint := "/campaigns";
     req_params := [("api_key", VStr key)];
     req_body := NoBody |}.



End Statements.

(* ================================================================== *)
(** * Properties *)

(** ** White space and case *)

Lemma is_space_lower_char (c : ascii) :
  PyStr.is_space (PyStr.lower_char c) = PyStr.is_space c.
Proof. destruct c as [[] [] [] [] [] [] [] []]; reflexivity. Qed.

Lemma lower_char_idem (c : ascii) :
  PyStr.lower_char (PyStr.lower_char c) = PyStr.lower_char c.
Proof. destruct c as [[] [] [] [] [] [] [] []]; reflexivity. Qed.

Lemma lower_idem (s : string) : PyStr.lower (PyStr.lower s) = PyStr.lower s.
Proof.
  induction s as [|c s IH]; simpl; [reflexivity|].
  now rewrite lower_char_idem, IH.
Qed.

Lemma lower_lstrip (s : string) :
  PyStr.lower (PyStr.lstrip s) = PyStr.lstrip (PyStr.lower s).
Proof.
  induction s as [|c s IH]; simpl; [reflexivity|].
  rewrite is_space_lower_char.
  destruct (PyStr.is_space c); [exact IH | reflexivity].
Qed.

Lemma lower_rstrip (s : string) :
  PyStr.lower (PyStr.rstrip s) = PyStr.rstrip (PyStr.lower s).
Proof.
  induction s as [|c s IH]; simpl; [reflexivity|].
  rewrite <- IH, is_space_lower_char.
  destruct (PyStr.rstrip s) as [|d r]; simpl.
  - destruct (PyStr.is_space c); reflexivity.
  - reflexivity.
Qed.

Lemma lower_strip (s : string) :
  PyStr.lower (PyStr.strip s) = PyStr.strip (PyStr.lower s).
Proof. unfold PyStr.strip. now rewrite lower_rstrip, lower_lstrip. Qed.

Lemma rstrip_idem (s : string) :
  PyStr.rstrip (PyStr.rstrip s) = PyStr.rstrip s.
Proof.
  induction s as [|c s IH]; simpl; [reflexivity|].
  destruct (PyStr.rstrip s) as [|d r] eqn:E.
  - destruct (PyStr.is_space c) eqn:Ec; simpl; [reflexivity|].
    now rewrite Ec.
  - change (PyStr.rstrip (String c (String d r)))
      with (match PyStr.rstrip (String d r) with
            | EmptyString =>
                if PyStr.is_space c then EmptyString else String c EmptyString
            | x => String c x
            end).
    now rewrite IH.
Qed.

Lemma lstrip_clean_front (s : string) : clean_front (PyStr.lstrip s).
Proof.
  induction s as [|c s IH]; simpl; [exact I|].
  destruct (PyStr.is_space c) eqn:E; [exact IH | exact E].
Qed.

Lemma lstrip_of_clean_front (s : string) :
  clean_front s -> PyStr.lstrip s = s.
Proof. destruct s as [|c s]; simpl; [reflexivity|]. now intros ->. Qed.

Lemma rstrip_clean_front (s : string) :
  clean_front s -> clean_front (PyStr.rstrip s).
Proof.
  destruct s as [|c s]; simpl; [trivial|]. intros E.
  destruct (PyStr.rstrip s); [rewrite E|]; exact E.
Qed.

Lemma strip_idem (s : string) : PyStr.strip (PyStr.strip s) = PyStr.strip s.
Proof.
  unfold PyStr.strip.
  rewrite (lstrip_of_clean_front (PyStr.rstrip (PyStr.lstrip s))).
  - apply rstrip_idem.
  - apply rstrip_clean_front, lstrip_clean_front.
Qed.

(** Trimming and lowering an answer that was trimmed and lowered already
    changes nothing: the second pass in each predicate is the identity on
    what [get_gpt_answer] returns. *)
Lemma lower_strip_twice (s : string) :
  PyStr.lower (PyStr.strip (PyStr.lower (PyStr.strip s)))
  = PyStr.lower (PyStr.strip s).
Proof.
  rewrite <- (lower_strip (PyStr.strip s)), lower_idem, strip_idem.
  reflexivity.
Qed.

(** ** The lead classifier *)

Section Classifier.

Variable env : Env.

(** [get_gpt_answer] returns the trimmed, lowered content of the reply. *)
Lemma get_gpt_answer_content (sy us : string) (te : Q) (s : string)
  (tr : trace) :
  OPENAI_API_KEY env <> None ->
  openai env tr {| system_prompt := sy; user_prompt := us; temperature := te |}
  = Content s ->
  FilterLeads.get_gpt_answer env sy us te tr
  = (Ret (PyStr.lower (PyStr.strip s)),
     (tr ++ [Asked {| system_prompt := sy; user_prompt := us;
                      temperature := te |}])%list).
Proof.
  intros Hkey Hans. unfold FilterLeads.get_gpt_answer.
  destruct (OPENAI_API_KEY env); [|congruence].
  now rewrite Hans.
Qed.

Lemma area_empty (a : option string) (b : string) (tr : trace) :
  FilterLeads.either_empty a b = true ->
  FilterLeads.is_outside_whitelisted_area env a b tr
  = (Ret false, (tr ++ [Invoked (call_is_outside_whitelisted_area a b)])%list).
Proof.
  intros E. unfold FilterLeads.is_outside_whitelisted_area, bind, emit, ret.
  now rewrite E.
Qed.

Lemma blocklist_empty (a : option string) (b : string) (tr : trace) :
  FilterLeads.either_empty a b = true ->
  FilterLeads.is_in_blocklisted_industry env a b tr
  = (Ret false, (tr ++ [Invoked (call_is_in_blocklisted_industry a b)])%list).
Proof.
  intros E. unfold FilterLeads.is_in_blocklisted_industry, bind, emit, ret.
  now rewrite E.
Qed.

Lemma whitelist_empty (a : option string) (b : string) (tr : trace) :
  FilterLeads.either_empty a b = true ->
  FilterLeads.is_outside_whitelisted_industry env a b tr
  = (Ret false,
     (tr ++ [Invoked (call_is_outside_whitelisted_industry a b)])%list).
Proof.
  intros E.
  unfold FilterLeads.is_outside_whitelisted_industry, bind, emit, ret.
  now rewrite E.
Qed.

Lemma area_answered (a : option string) (b s : string) (tr : trace) :
  FilterLeads.either_empty a b = false ->
  OPENAI_API_KEY env <> None ->
  openai env (tr ++ [Invoked (call_is_outside_whitelisted_area a b)])%list
    (FilterLeads.area_question a b) = Content s ->
  FilterLeads.is_outside_whitelisted_area env a b tr
  = (Ret (String.eqb (PyStr.lower (PyStr.strip s)) "no"),
     (tr ++ [Invoked (call_is_outside_whitelisted_area a b);
             Asked (FilterLeads.area_question a b)])%list).
Proof.
  intros E Hkey Hans.
  unfold FilterLeads.is_outside_whitelisted_area, bind, emit.
  rewrite E.
  cbv zeta.
  rewrite (get_gpt_answer_content
             (system_prompt (FilterLeads.area_question a b))
             (user_prompt (FilterLeads.area_question a b)) _ s _ Hkey Hans).
  unfold ret. rewrite lower_strip_twice, <- app_assoc. reflexivity.
Qed.

Lemma blocklist_answered (a : option string) (b s : string) (tr : trace) :
  FilterLeads.either_empty a b = false ->
  OPENAI_API_KEY env <> None ->
  openai env (tr ++ [Invoked (call_is_in_blocklisted_industry a b)])%list
    (FilterLeads.blocklist_question a b) = Content s ->
  FilterLeads.is_in_blocklisted_industry env a b tr
  = (Ret (String.eqb (PyStr.lower (PyStr.strip s)) "yes"),
     (tr ++ [Invoked (call_is_in_blocklisted_industry a b);
             Asked (FilterLeads.blocklist_question a b)])%list).
Proof.
  intros E Hkey Hans.
  unfold FilterLeads.is_in_blocklisted_industry, bind, emit.
  rewrite E.
  cbv zeta.
  rewrite (get_gpt_answer_content
             (system_prompt (FilterLeads.blocklist_question a b))
             (user_prompt (FilterLeads.blocklist_question a b)) _ s _ Hkey Hans).
  unfold ret. rewrite lower_strip_twice, <- app_assoc. reflexivity.
Qed.

Lemma whitelist_answered (a : option string) (b s : string) (tr : trace) :
  FilterLeads.either_empty a b = false ->
  OPENAI_API_KEY env <> None ->
  openai env (tr ++ [Invoked (call_is_outside_whitelisted_industry a b)])%list
    (FilterLeads.whitelist_question a b) = Content s ->
  FilterLeads.is_outside_whitelisted_industry env a b tr
  = (Ret (String.eqb (PyStr.lower (PyStr.strip s)) "no"),
     (tr ++ [Invoked (call_is_outside_whitelisted_industry a b);
             Asked (FilterLeads.whitelist_question a b)])%list).
Proof.
  intros E Hkey Hans.
  unfold FilterLeads.is_outside_whitelisted_industry, bind, emit.
  rewrite E.
  cbv zeta.
  rewrite (get_gpt_answer_content
             (system_prompt (FilterLeads.whitelist_question a b))
             (user_prompt (FilterLeads.whitelist_question a b)) _ s _ Hkey Hans).
  unfold ret. rewrite lower_strip_twice, <- app_assoc. reflexivity.
Qed.

End Classifier.

(** C5.  Each of the three classifier predicates returns [False], without
    asking the model, whenever one of its two arguments is empty (or
    absent); otherwise, when the model replies with the text [s], the
    predicate returns the exact comparison of the trimmed, lowercased [s]
    with a literal: ["no"] for the area whitelist, ["yes"] for the industry
    blocklist, ["no"] for the industry whitelist.  Any other text makes
    the predicate false. *)
Theorem predicates_compare_answer_exactly (env : Env) (a : option string)
  (b : string) (tr : trace) :
  (FilterLeads.either_empty a b = true ->
     FilterLeads.is_outside_whitelisted_area env a b tr
     = (Ret false,
        (tr ++ [Invoked (call_is_outside_whitelisted_area a b)])%list)
     /\ FilterLeads.is_in_blocklisted_industry env a b tr
        = (Ret false,
           (tr ++ [Invoked (call_is_in_blocklisted_industry a b)])%list)
     /\ FilterLeads.is_outside_whitelisted_industry env a b tr
        = (Ret false,
           (tr ++ [Invoked (call_is_outside_whitelisted_industry a b)])%list))
  /\
  (FilterLeads.either_empty a b = false ->
   OPENAI_API_KEY env <> None ->
   forall s : string,
     let answer := PyStr.lower (PyStr.strip s) in
     (openai env (tr ++ [Invoked (call_is_outside_whitelisted_area a b)])%list
        (FilterLeads.area_question a b) = Content s ->
      FilterLeads.is_outside_whitelisted_area env a b tr
      = (Ret (String.eqb answer "no"),
         (tr ++ [Invoked (call_is_outside_whitelisted_area a b);
                 Asked (FilterLeads.area_question a b)])%list))
     /\
     (openai env (tr ++ [Invoked (call_is_in_blocklisted_industry a b)])%list
        (FilterLeads.blocklist_question a b) = Content s ->
      FilterLeads.is_in_blocklisted_industry env a b tr
      = (Ret (String.eqb answer "yes"),
         (tr ++ [Invoked (call_is_in_blocklisted_industry a b);
                 Asked (FilterLeads.blocklist_question a b)])%list))
     /\
     (openai env
        (tr ++ [Invoked (call_is_outside_whitelisted_industry a b)])%list
        (FilterLeads.whitelist_question a b) = Content s ->
      FilterLeads.is_outside_whitelisted_industry env a b tr
      = (Ret (String.eqb answer "no"),
         (tr ++ [Invoked (call_is_outside_whitelisted_industry a b);
                 Asked (FilterLeads.whitelist_question a b)])%list))).
Proof.
  split.
  - intros E. split; [|split].
    + now apply area_empty.
    + now apply blocklist_empty.
    + now apply whitelist_empty.
  - intros E Hkey s answer. split; [|split]; intros Hans.
    + now apply area_answered.
    + now apply blocklist_answered.
    + now apply whitelist_answered.
Qed.

(** The model replies [" No "] to a lead in Oslo: the area predicate is
    true, the blocklist predicate false, the whitelist predicate true;
    with an empty list of criteria all three are false. *)
Lemma predicates_compare_answer_exactly_witness :
  FilterLeads.is_outside_whitelisted_area Demo.campaign_env (Some "Oslo")
    "Paris;Rome" []
  = (Ret true,
     [Invoked (call_is_outside_whitelisted_area (Some "Oslo") "Paris;Rome");
      Asked (FilterLeads.area_question (Some "Oslo") "Paris;Rome")])
  /\ fst (FilterLeads.is_in_blocklisted_industry Demo.campaign_env
            (Some "Oslo") "Paris;Rome" []) = Ret false
  /\ fst (FilterLeads.is_outside_whitelisted_industry Demo.campaign_env
            (Some "Oslo") "Paris;Rome" []) = Ret true
  /\ FilterLeads.is_outside_whitelisted_area Demo.campaign_env (Some "Oslo")
       "" []
     = (Ret false,
        [Invoked (call_is_outside_whitelisted_area (Some "Oslo") "")]).
Proof.
  destruct (predicates_compare_answer_exactly Demo.campaign_env (Some "Oslo")
              "Paris;Rome" []) as [_ H].
  destruct (H eq_refl ltac:(discriminate) " No ") as (H1 & H2 & H3).
  destruct (predicates_compare_answer_exactly Demo.campaign_env (Some "Oslo")
              "" []) as [H0 _].
  destruct (H0 eq_refl) as (H4 & _).
  split; [|split; [|split]].
  - exact (H1 eq_refl).
  - now rewrite (H2 eq_refl).
  - now rewrite (H3 eq_refl).
  - exact H4.
Defined.

(** A predicate that comes back true has asked its one question. *)
Lemma area_true_trace (env : Env) (a : option string) (b : string)
  (tr tr1 : trace) :
  FilterLeads.is_outside_whitelisted_area env a b tr = (Ret true, tr1) ->
  tr1 = (tr ++ [Invoked (call_is_outside_whitelisted_area a b);
                Asked (FilterLeads.area_question a b)])%list.
Proof.
  unfold FilterLeads.is_outside_whitelisted_area, bind, emit, ret.
  destruct (FilterLeads.either_empty a b); [discriminate|].
  cbv zeta. unfold FilterLeads.get_gpt_answer.
  destruct (OPENAI_API_KEY env); [|discriminate].
  match goal with |- context [openai ?e ?t ?q] => destruct (openai e t q) end;
    try discriminate.
  intros [= _ <-]. now rewrite <- app_assoc.
Qed.

Lemma blocklist_true_trace (env : Env) (a : option string) (b : string)
  (tr tr1 : trace) :
  FilterLeads.is_in_blocklisted_industry env a b tr = (Ret true, tr1) ->
  tr1 = (tr ++ [Invoked (call_is_in_blocklisted_industry a b);
                Asked (FilterLeads.blocklist_question a b)])%list.
Proof.
  unfold FilterLeads.is_in_blocklisted_industry, bind, emit, ret.
  destruct (FilterLeads.either_empty a b); [discriminate|].
  cbv zeta. unfold FilterLeads.get_gpt_answer.
  destruct (OPENAI_API_KEY env); [|discriminate].
  match goal with |- context [openai ?e ?t ?q] => destruct (openai e t q) end;
    try discriminate.
  intros [= _ <-]. now rewrite <- app_assoc.
Qed.

(** C4.  [check_one] evaluates the predicates in the order area whitelist,
    industry blocklist, industry whitelist, each starting from the trace
    the one before left, and stops at the first that is true: the lead is
    returned (marked for removal) exactly when one of them is true.  When
    the area predicate is true the run consists of its call and its one
    question: the two industry predicates are not called and no question
    of theirs is asked. *)
Theorem check_one_stops_at_first_true (env : Env)
  (blocklisted_industries whitelisted_industries whitelisted_areas : string)
  (lead : FilterLeads.lead_row) (tr : trace) :
  let loc := FilterLeads.get "Location" lead in
  let industry := FilterLeads.get "informalIndustry" lead in
  let run :=
    FilterLeads.check_one env blocklisted_industries whitelisted_industries
      whitelisted_areas lead tr in
  (forall tr1,
     FilterLeads.is_outside_whitelisted_area env loc whitelisted_areas tr
     = (Ret true, tr1) ->
     run = (Ret (Some lead), tr1)
     /\ tr1 = (tr ++ [Invoked (call_is_outside_whitelisted_area loc
                                 whitelisted_areas);
                      Asked (FilterLeads.area_question loc
                               whitelisted_areas)])%list)
  /\
  (forall tr1 tr2,
     FilterLeads.is_outside_whitelisted_area env loc whitelisted_areas tr
     = (Ret false, tr1) ->
     FilterLeads.is_in_blocklisted_industry env industry
       blocklisted_industries tr1 = (Ret true, tr2) ->
     run = (Ret (Some lead), tr2)
     /\ tr2 = (tr1 ++ [Invoked (call_is_in_blocklisted_industry industry
                                  blocklisted_industries);
                       Asked (FilterLeads.blocklist_question industry
                                blocklisted_industries)])%list)
  /\
  (forall tr1 tr2 tr3 (outside : bool),
     FilterLeads.is_outside_whitelisted_area env loc whitelisted_areas tr
     = (Ret false, tr1) ->
     FilterLeads.is_in_blocklisted_industry env industry
       blocklisted_industries tr1 = (Ret false, tr2) ->
     FilterLeads.is_outside_whitelisted_industry env industry
       whitelisted_industries tr2 = (Ret outside, tr3) ->
     run = (Ret (if outside then Some lead else None), tr3)).
Proof.
  intros loc industry run. subst run. unfold FilterLeads.check_one.
  fold loc. fold industry. split; [|split].
  - intros tr1 H1. split; [|exact (area_true_trace env _ _ _ _ H1)].
    unfold bind at 1. now rewrite H1.
  - intros tr1 tr2 H1 H2. split; [|exact (blocklist_true_trace env _ _ _ _ H2)].
    unfold bind at 1. rewrite H1. unfold bind at 1. now rewrite H2.
  - intros tr1 tr2 tr3 outside H1 H2 H3.
    unfold bind at 1. rewrite H1. unfold bind at 1. rewrite H2.
    unfold bind at 1. rewrite H3. now destruct outside.
Qed.

(** A lead in Oslo checked against the areas Paris and Rome, the model
    saying no: the lead is returned after one call and one question. *)
Lemma check_one_stops_at_first_true_witness :
  FilterLeads.check_one Demo.campaign_env "Gambling" "Software" "Paris;Rome"
    [("Location", Some "Oslo"); ("informalIndustry", Some "Tech")] []
  = (Ret (Some [("Location", Some "Oslo"); ("informalIndustry", Some "Tech")]),
     [Invoked (call_is_outside_whitelisted_area (Some "Oslo") "Paris;Rome");
      Asked (FilterLeads.area_question (Some "Oslo") "Paris;Rome")]).
Proof.
  destruct (check_one_stops_at_first_true Demo.campaign_env "Gambling"
              "Software" "Paris;Rome"
              [("Location", Some "Oslo"); ("informalIndustry", Some "Tech")] [])
    as [H _].
  destruct (H [Invoked (call_is_outside_whitelisted_area (Some "Oslo")
                          "Paris;Rome");
               Asked (FilterLeads.area_question (Some "Oslo") "Paris;Rome")]
              eq_refl) as [Hrun _].
  exact Hrun.
Defined.

(** ** The internal client *)

(** C7.  [remove_multiple_leads_from_campaign] compares the lengths of the
    two id lists first.  When they differ it raises [ValueError] and the
    trace holds its call and no request; when they are equal its result is
    that of the deletion request, which, the token being set, is sent with
    both lists in its body. *)
Theorem remove_leads_checks_lengths_first (env : Env) (cid : string)
  (ids map_ids : list Z) (tr : trace) :
  let entered :=
    (tr ++ [Invoked (call_remove_multiple_leads cid ids map_ids)])%list in
  (List.length ids <> List.length map_ids ->
   Internal.remove_multiple_leads_from_campaign env cid ids map_ids tr
   = (Raise ValueError, entered))
  /\
  (List.length ids = List.length map_ids ->
   Internal.remove_multiple_leads_from_campaign env cid ids map_ids tr
   = Internal.query_smartlead_internal_rest_endpoint env
       "email-campaigns/delete-email-campaign-multiple-leads" "POST"
       (VDict [("campaignId", VStr cid);
               ("emailLeadIds", VList (map VInt ids));
               ("emailLeadMapIds", VList (map VInt map_ids))])
       VNone entered
   /\ (Internal.present (SMARTLEAD_INTERNAL_API_TOKEN env) <> None ->
       snd (Internal.remove_multiple_leads_from_campaign env cid ids map_ids tr)
       = (entered ++ [Sent (delete_leads_post cid ids map_ids)])%list)).
Proof.
  intros entered. subst entered.
  unfold Internal.remove_multiple_leads_from_campaign, bind, emit.
  split.
  - intros Hne. apply Nat.eqb_neq in Hne. now rewrite Hne.
  - intros Heq. apply Nat.eqb_eq in Heq. rewrite Heq. cbn [negb].
    split; [reflexivity|].
    intros Htok. unfold Internal.query_smartlead_internal_rest_endpoint.
    destruct (Internal.present (SMARTLEAD_INTERNAL_API_TOKEN env));
      [|congruence].
    cbv beta.
    match goal with |- context [http ?e ?t ?q] => destruct (http e t q) end;
      reflexivity.
Qed.

(** Two lead ids against one map id: refused before any request.  Two
    against two: the deletion request goes out. *)
Lemma remove_leads_checks_lengths_first_witness :
  Internal.remove_multiple_leads_from_campaign Demo.campaign_env "7"
    [1; 2] [501] []
  = (Raise ValueError, [Invoked (call_remove_multiple_leads "7" [1; 2] [501])])
  /\ snd (Internal.remove_multiple_leads_from_campaign Demo.campaign_env "7"
            [1; 2] [501; 502] [])
     = [Invoked (call_remove_multiple_leads "7" [1; 2] [501; 502]);
        Sent (delete_leads_post "7" [1; 2] [501; 502])].
Proof.
  split.
  - destruct (remove_leads_checks_lengths_first Demo.campaign_env "7"
                [1; 2] [501] []) as [H _].
    apply H. simpl. lia.
  - destruct (remove_leads_checks_lengths_first Demo.campaign_env "7"
                [1; 2] [501; 502] []) as [_ H].
    destruct (H eq_refl) as [_ Hsent].
    apply Hsent. simpl. discriminate.
Defined.

(** The binding of the keywords fails before the body of the helper. *)
Lemma update_follow_up_percentage_raises_eq (env : Env)
  (campaign_id follow_up_percentage : Z) (tr : trace) :
  Internal.update_smartlead_campaign_follow_up_percentage env campaign_id
    follow_up_percentage tr
  = (Raise TypeError,
     (tr ++ [Invoked (call_update_follow_up_percentage campaign_id
                        follow_up_percentage)])%list).
Proof. reflexivity. Qed.

(** C2 (the code departs from the claim).  For every campaign id and
    every percentage, [update_smartlead_campaign_follow_up_percentage]
    raises [TypeError] when it calls the GraphQL helper, whose parameters
    are not the ones it names: no mutation is sent and no identifier is
    returned. *)
Theorem update_follow_up_percentage_raises (env : Env)
  (campaign_id follow_up_percentage : Z) (tr : trace) :
  Internal.update_smartlead_campaign_follow_up_percentage env campaign_id
    follow_up_percentage tr
  = (Raise TypeError,
     (tr ++ [Invoked (call_update_follow_up_percentage campaign_id
                        follow_up_percentage)])%list).
Proof. apply update_follow_up_percentage_raises_eq. Qed.

(** Had the helper accepted the call and the platform answered, the value
    of the function would still be [None]: it has no [return]. *)
Lemma update_follow_up_percentage_never_an_id (env : Env)
  (campaign_id follow_up_percentage : Z) (tr tr' : trace) (v : pyval) :
  Internal.update_smartlead_campaign_follow_up_percentage env campaign_id
    follow_up_percentage tr = (Ret v, tr') ->
  v = VNone.
Proof.
  unfold Internal.update_smartlead_campaign_follow_up_percentage, bind, emit.
  match goal with |- context [Internal.query_smartlead_internal_graphql_endpoint
                                ?e ?k ?t] =>
    destruct (Internal.query_smartlead_internal_graphql_endpoint e k t)
      as [[p|x] t']
  end; [|discriminate].
  unfold ret. now intros [= <- _].
Qed.

(** ** The paginated lead listing *)

(** C9.  When the first page request fails, whether by an HTTP error, a
    transport error or an answer that does not validate as a page of
    leads, [get_leads_by_campaign_id_with_pagination] raises nothing: it
    returns the empty list after that one request, whatever the fuel. *)
Theorem first_page_failure_is_swallowed (env : Env) (key : string)
  (fuel : nat) (campaign_id : Z) (lead_category_id : option Z)
  (event_time : option string) (tr : trace) :
  SMARTLEAD_API_KEY env = Some key ->
  page_reply
    (http env tr (first_leads_get key campaign_id lead_category_id event_time))
  = None ->
  Client.get_leads_by_campaign_id_with_pagination env fuel campaign_id
    lead_category_id event_time tr
  = Some (Ret [],
          (tr ++ [Sent (first_leads_get key campaign_id lead_category_id
                          event_time)])%list).
Proof.
  intros Hkey Hfail.
  unfold Client.get_leads_by_campaign_id_with_pagination,
    Client.fetch_leads_page, Client.query_smartlead, bind.
  rewrite Hkey.
  change {| req_host := SmartleadV1;
            req_method := PyStr.upper "GET";
            req_endpoint := Client.leads_endpoint campaign_id;
            req_params :=
              dict_set "api_key" (VStr key)
                (Client.event_time_param event_time
                   ++ Client.lead_category_param lead_category_id)%list;
            req_body := NoBody |}
    with (first_leads_get key campaign_id lead_category_id event_time).
  destruct (http env tr
              (first_leads_get key campaign_id lead_category_id event_time))
    as [[r|l|st|j]| |]; simpl in Hfail; try discriminate; reflexivity.
Qed.

(** The platform is down: the listing of campaign 7 is empty. *)
Lemma first_page_failure_is_swallowed_witness :
  Client.get_leads_by_campaign_id_with_pagination Demo.down_env 0 7 None None []
  = Some (Ret [], [Sent (first_leads_get "key" 7 None None)]).
Proof.
  apply (first_page_failure_is_swallowed Demo.down_env "key" 0 7 None None []);
    reflexivity.
Defined.

(** ** The sequence duplicator *)

Lemma enumerate_from_length {A} (l : list A) (k : nat) :
  List.length (AddFollowUps.enumerate_from k l) = List.length l.
Proof.
  revert k. induction l as [|x l IH]; intros k; simpl; [reflexivity|].
  now rewrite IH.
Qed.

Lemma enumerate_from_nth {A} (l : list A) (k i : nat) (x : A) :
  nth_error l i = Some x ->
  nth_error (AddFollowUps.enumerate_from k l) i = Some ((k + i)%nat, x).
Proof.
  revert k i. induction l as [|y l IH]; intros k [|i]; simpl;
    try discriminate.
  - intros [= ->]. now rewrite Nat.add_0_r.
  - intros H. rewrite (IH (S k) i H). f_equal. f_equal. lia.
Qed.

Lemma build_inputs_length (d : Z) (seqs : list SmartleadCampaignSequence) :
  List.length (AddFollowUps.build_inputs d seqs)
  = (2 * List.length seqs)%nat.
Proof.
  unfold AddFollowUps.build_inputs, AddFollowUps.enumerate.
  rewrite length_app, !length_map, enumerate_from_length. lia.
Qed.

Lemma build_inputs_original (d : Z) (seqs : list SmartleadCampaignSequence)
  (i : nat) (seq : SmartleadCampaignSequence) :
  nth_error seqs i = Some seq ->
  nth_error (AddFollowUps.build_inputs d seqs) i
  = Some (AddFollowUps.original_input seq).
Proof.
  intros H. unfold AddFollowUps.build_inputs.
  rewrite nth_error_app1.
  - now rewrite nth_error_map, H.
  - rewrite length_map. apply nth_error_Some. congruence.
Qed.

Lemma build_inputs_clone (d : Z) (seqs : list SmartleadCampaignSequence)
  (i : nat) (seq : SmartleadCampaignSequence) :
  nth_error seqs i = Some seq ->
  nth_error (AddFollowUps.build_inputs d seqs) (List.length seqs + i)
  = Some (AddFollowUps.clone (List.length seqs) d i seq).
Proof.
  intros H. unfold AddFollowUps.build_inputs, AddFollowUps.enumerate.
  rewrite nth_error_app2 by (rewrite length_map; lia).
  rewrite length_map.
  replace (List.length seqs + i - List.length seqs)%nat with i by lia.
  now rewrite nth_error_map, (enumerate_from_nth seqs 0 i seq H).
Qed.

Lemma clone_variants_unset (seq : SmartleadCampaignSequence)
  (vs : list SequenceVariantInput) (v : SequenceVariantInput) :
  AddFollowUps.clone_variants seq = Some vs -> In v vs -> vin_id v = None.
Proof.
  unfold AddFollowUps.clone_variants.
  destruct (sequence_variants seq) as [[|w ws]|]; try discriminate.
  intros [= <-] Hin.
  change (In v (map (fun x : SmartleadCampaignSequenceVariant =>
                       {| vin_subject := var_subject x;
                          vin_id := None;
                          vin_email_body := var_email_body x;
                          vin_variant_label := var_variant_label x;
                          vin_variant_distribution_percentage :=
                            var_variant_distribution_percentage x |})
                    (w :: ws))) in Hin.
  apply in_map_iff in Hin. destruct Hin as (x & <- & _). reflexivity.
Qed.

(** A fetch of the sequences that returns has sent one request, answered
    with the list it returns. *)
Lemma get_campaign_sequences_ret (env : Env) (cid : Z) (tr tr1 : trace)
  (seqs : list SmartleadCampaignSequence) :
  Client.get_campaign_sequences env cid tr = (Ret seqs, tr1) ->
  exists key,
    SMARTLEAD_API_KEY env = Some key
    /\ http env tr (sequences_get key cid) = Ok (SequenceList seqs)
    /\ tr1 = (tr ++ [Sent (sequences_get key cid)])%list.
Proof.
  unfold Client.get_campaign_sequences, Client.query_smartlead, bind.
  destruct (SMARTLEAD_API_KEY env) as [key|]; [|discriminate].
  change {| req_host := SmartleadV1;
            req_method := PyStr.upper "GET";
            req_endpoint := "/campaigns/" ++ str_of_int cid ++ "/sequences";
            req_params := dict_set "api_key" (VStr key) [];
            req_body := NoBody |}
    with (sequences_get key cid).
  destruct (http env tr (sequences_get key cid)) as [[r|l|st|j]| |] eqn:Hrep;
    unfold ret, raise; try discriminate.
  intros [= -> <-]. now exists key.
Qed.

(** With the key set, the submission sends its one request, whatever the
    platform answers. *)
Lemma add_sequences_sends (env : Env) (key : string) (cid : Z)
  (inputs : list SmartleadCampaignSequenceInput) (tr : trace) :
  SMARTLEAD_API_KEY env = Some key ->
  snd (Client.add_sequences_to_campaign env cid inputs tr)
  = (tr ++ [Sent (sequences_post key cid inputs)])%list.
Proof.
  intros Hkey.
  unfold Client.add_sequences_to_campaign, try_except, bind,
    Client.query_smartlead.
  rewrite Hkey.
  change {| req_host := SmartleadV1;
            req_method := PyStr.upper "POST";
            req_endpoint := "/campaigns/" ++ str_of_int cid ++ "/sequences";
            req_params := dict_set "api_key" (VStr key) [];
            req_body := SequencesBody inputs |}
    with (sequences_post key cid inputs).
  destruct (http env tr (sequences_post key cid inputs)); reflexivity.
Qed.

(** Past the guard, the duplicator submits [build_inputs]. *)
Lemma add_follow_ups_submits (env : Env) (cid d : Z) (E : option Z)
  (tr tr1 : trace) (seqs : list SmartleadCampaignSequence) :
  Client.get_campaign_sequences env cid
    (tr ++ [Invoked (call_add_follow_ups cid d E)])%list = (Ret seqs, tr1) ->
  AddFollowUps.nothing_to_do E seqs = false ->
  exists key,
    SMARTLEAD_API_KEY env = Some key
    /\ snd (AddFollowUps.add_follow_ups_to_campaign env cid d E tr)
       = (tr1 ++ [Sent (sequences_post key cid
                          (AddFollowUps.build_inputs d seqs))])%list.
Proof.
  intros Hget Hguard.
  destruct (get_campaign_sequences_ret _ _ _ _ _ Hget) as (key & Hkey & _ & _).
  exists key. split; [exact Hkey|].
  unfold AddFollowUps.add_follow_ups_to_campaign, bind, emit.
  rewrite Hget, Hguard. unfold try_except.
  rewrite <- (add_sequences_sends env key cid _ tr1 Hkey).
  destruct (Client.add_sequences_to_campaign env cid
              (AddFollowUps.build_inputs d seqs) tr1) as [[u|e] t];
    reflexivity.
Qed.

(** C1.  When the sequences of a campaign are fetched and the guard does
    not stop the run, the duplicator sends one submission whose list has
    twice the length of the fetched one: position [i] holds the original
    sequence with its id, number, subject, body, delay and variants (ids
    kept), position [K + i] its clone, with no id, number [K + i + 1], the
    delay period if [i] is 0 and the delay of its source otherwise, and
    the variants of its source with no id on any of them.  A list of
    variants that is absent or empty is submitted as absent. *)
Theorem duplicator_submits_originals_then_clones (env : Env) (cid d : Z)
  (E : option Z) (tr tr1 : trace) (seqs : list SmartleadCampaignSequence) :
  let K := List.length seqs in
  Client.get_campaign_sequences env cid
    (tr ++ [Invoked (call_add_follow_ups cid d E)])%list = (Ret seqs, tr1) ->
  AddFollowUps.nothing_to_do E seqs = false ->
  exists key inputs,
    snd (AddFollowUps.add_follow_ups_to_campaign env cid d E tr)
    = (tr1 ++ [Sent (sequences_post key cid inputs)])%list
    /\ List.length inputs = (2 * K)%nat
    /\ forall i seq,
         nth_error seqs i = Some seq ->
         exists original copy,
           nth_error inputs i = Some original
           /\ nth_error inputs (K + i) = Some copy
           /\ in_id original = Some (seq_id seq)
           /\ in_seq_number original = seq_number seq
           /\ in_subject original = Some (subject seq)
           /\ in_email_body original = Some (email_body seq)
           /\ in_seq_delay_details original
              = Some {| delay_in_days := delayInDays (seq_delay_details seq) |}
           /\ in_id copy = None
           /\ in_seq_number copy = Z.of_nat K + Z.of_nat i + 1
           /\ in_subject copy = Some (subject seq)
           /\ in_email_body copy = Some (email_body seq)
           /\ in_seq_delay_details copy
              = Some {| delay_in_days :=
                          if Nat.eqb i 0 then d
                          else delayInDays (seq_delay_details seq) |}
           /\ (forall vs v,
                 in_seq_variants copy = Some vs -> In v vs -> vin_id v = None)
           /\ in_seq_variants original
              = match sequence_variants seq with
                | Some (v :: vs) =>
                    Some (map (fun x =>
                                 {| vin_subject := var_subject x;
                                    vin_id := Some (var_id x);
                                    vin_email_body := var_email_body x;
                                    vin_variant_label := var_variant_label x;
                                    vin_variant_distribution_percentage :=
                                      var_variant_distribution_percentage x |})
                              (v :: vs))
                | _ => None
                end
           /\ in_seq_variants copy
              = match sequence_variants seq with
                | Some (v :: vs) =>
                    Some (map (fun x =>
                                 {| vin_subject := var_subject x;
                                    vin_id := None;
                                    vin_email_body := var_email_body x;
                                    vin_variant_label := var_variant_label x;
                                    vin_variant_distribution_percentage :=
                                      var_variant_distribution_percentage x |})
                              (v :: vs))
                | _ => None
                end.
Proof.
  intros K Hget Hguard.
  destruct (add_follow_ups_submits env cid d E tr tr1 seqs Hget Hguard)
    as (key & _ & Hsent).
  exists key, (AddFollowUps.build_inputs d seqs).
  split; [exact Hsent|]. split; [apply build_inputs_length|].
  intros i seq Hi.
  exists (AddFollowUps.original_input seq), (AddFollowUps.clone K d i seq).
  split; [now apply build_inputs_original|].
  split; [now apply build_inputs_clone|].
  do 10 (split; [reflexivity|]).
  split; [intros vs v; apply clone_variants_unset|].
  simpl in_seq_variants.
  unfold AddFollowUps.original_variants, AddFollowUps.clone_variants.
  destruct (sequence_variants seq) as [[|v vs]|]; split; reflexivity.
Qed.

(** Three sequences with delays 1, 2, 3 and a delay period of 5: six
    inputs are submitted, the clones numbered 4, 5, 6 with delays 5, 2, 3. *)
Lemma duplicator_submits_originals_then_clones_witness :
  exists key inputs,
    snd (AddFollowUps.add_follow_ups_to_campaign Demo.campaign_env 7 5 None [])
    = ([Invoked (call_add_follow_ups 7 5 None); Sent (sequences_get "key" 7)]
         ++ [Sent (sequences_post key 7 inputs)])%list
    /\ List.length inputs = 6%nat
    /\ map in_seq_number inputs = [1; 2; 3; 4; 5; 6]
    /\ map in_seq_delay_details inputs
       = map (fun n => Some {| delay_in_days := n |}) [1; 2; 3; 5; 2; 3]
    /\ map in_id inputs = [Some 11; Some 12; Some 13; None; None; None]
    /\ map (fun i => option_map (map vin_id) (in_seq_variants i)) inputs
       = [Some [Some 101; Some 102]; None; None;
          Some [None; None]; None; None]
    /\ map (fun i => option_map (map vin_variant_label) (in_seq_variants i))
         inputs
       = [Some ["A"; "B"]; None; None; Some ["A"; "B"]; None; None].
Proof.
  destruct (duplicator_submits_originals_then_clones Demo.campaign_env 7 5
              None []
              [Invoked (call_add_follow_ups 7 5 None);
               Sent (sequences_get "key" 7)]
              Demo.three_sequences eq_refl eq_refl)
    as (key & inputs & Hsent & Hlen & _).
  exists key, inputs. split; [exact Hsent|]. split; [exact Hlen|].
  apply (f_equal (fun t => nth_error t 2)) in Hsent.
  vm_compute in Hsent. injection Hsent as _ <-.
  repeat (split; [reflexivity|]). reflexivity.
Defined.

(** C8.  With an expected length [E] that the fetched sequences already
    reach, the duplicator returns after the fetch: the trace holds its call
    and the one GET, and nothing is built or submitted.  In particular a
    second call whose [E] is the number of sequences the campaign has after
    a first call does nothing. *)
Theorem guard_makes_duplicator_noop (env : Env) (cid : Z) :
  (forall (d E : Z) (tr tr1 : trace) (seqs : list SmartleadCampaignSequence),
     Client.get_campaign_sequences env cid
       (tr ++ [Invoked (call_add_follow_ups cid d (Some E))])%list
     = (Ret seqs, tr1) ->
     E <= Z.of_nat (List.length seqs) ->
     AddFollowUps.add_follow_ups_to_campaign env cid d (Some E) tr
     = (Ret tt, tr1)
     /\ exists key,
          tr1 = (tr ++ [Invoked (call_add_follow_ups cid d (Some E));
                        Sent (sequences_get key cid)])%list)
  /\
  (forall (d1 d2 : Z) (E1 : option Z) (tr tr2 : trace)
          (seqs2 : list SmartleadCampaignSequence),
     let after_first :=
       snd (AddFollowUps.add_follow_ups_to_campaign env cid d1 E1 tr) in
     let E2 := Z.of_nat (List.length seqs2) in
     Client.get_campaign_sequences env cid
       (after_first ++ [Invoked (call_add_follow_ups cid d2 (Some E2))])%list
     = (Ret seqs2, tr2) ->
     AddFollowUps.add_follow_ups_to_campaign env cid d2 (Some E2) after_first
     = (Ret tt, tr2)
     /\ exists key,
          tr2 = (after_first
                   ++ [Invoked (call_add_follow_ups cid d2 (Some E2));
                       Sent (sequences_get key cid)])%list).
Proof.
  assert (Hnoop :
    forall (d E : Z) (tr tr1 : trace) (seqs : list SmartleadCampaignSequence),
      Client.get_campaign_sequences env cid
        (tr ++ [Invoked (call_add_follow_ups cid d (Some E))])%list
      = (Ret seqs, tr1) ->
      E <= Z.of_nat (List.length seqs) ->
      AddFollowUps.add_follow_ups_to_campaign env cid d (Some E) tr
      = (Ret tt, tr1)
      /\ exists key,
           tr1 = (tr ++ [Invoked (call_add_follow_ups cid d (Some E));
                         Sent (sequences_get key cid)])%list).
  { intros d E tr tr1 seqs Hget Hle. split.
    - unfold AddFollowUps.add_follow_ups_to_campaign, bind, emit.
      rewrite Hget. unfold AddFollowUps.nothing_to_do.
      apply Z.leb_le in Hle. now rewrite Hle.
    - destruct (get_campaign_sequences_ret _ _ _ _ _ Hget)
        as (key & _ & _ & ->).
      exists key. now rewrite <- app_assoc. }
  split; [exact Hnoop|].
  intros d1 d2 E1 tr tr2 seqs2 after_first E2 Hget.
  apply (Hnoop d2 E2 after_first tr2 seqs2 Hget). subst E2. lia.
Qed.

(** Campaign 7 has three sequences.  A first call with expected length 6
    submits six; a second call with the same expected length fetches the
    six and stops. *)
Lemma guard_makes_duplicator_noop_witness :
  let after_first :=
    snd (AddFollowUps.add_follow_ups_to_campaign Demo.campaign_env 7 5
           (Some 6) []) in
  List.length after_first = 3%nat
  /\ AddFollowUps.add_follow_ups_to_campaign Demo.campaign_env 7 5 (Some 6)
       after_first
     = (Ret tt,
        (after_first ++ [Invoked (call_add_follow_ups 7 5 (Some 6));
                         Sent (sequences_get "key" 7)])%list).
Proof.
  intros after_first. split; [reflexivity|].
  destruct (guard_makes_duplicator_noop Demo.campaign_env 7) as [_ H].
  destruct (H 5 5 (Some 6) []
              (after_first ++ [Invoked (call_add_follow_ups 7 5 (Some 6));
                               Sent (sequences_get "key" 7)])%list
              (map Demo.stored (AddFollowUps.build_inputs 5 Demo.three_sequences))
              eq_refl) as [Hrun _].
  exact Hrun.
Defined.

(** ** The follow-up workflow *)



(** *** Every function only appends to the trace *)

Section Appends.

Variable env : Env.
Variable P : event -> Prop.
Hypothesis P_sent : forall r, P (Sent r).

Lemma appends_ret {A} (a : A) : appends P (ret a).
Proof. intros tr. exists []. now rewrite app_nil_r. Qed.

Lemma appends_raise {A} (e : exn) : appends P (@raise event A e).
Proof. intros tr. exists []. now rewrite app_nil_r. Qed.

Lemma appends_lift {A} (r : res A) : appends P (lift r).
Proof. intros tr. exists []. now rewrite app_nil_r. Qed.

Lemma appends_emit (e : event) : P e -> appends P (emit e).
Proof. intros He tr. exists [e]. split; [reflexivity | now constructor]. Qed.

Lemma appends_bind {A B} (m : M event A) (k : A -> M event B) :
  appends P m -> (forall a, appends P (k a)) -> appends P (bind m k).
Proof.
  intros Hm Hk tr. unfold bind.
  destruct (Hm tr) as (a1 & E1 & F1).
  destruct (m tr) as [[a|e] tr1]; simpl in E1; subst tr1.
  - destruct (Hk a (tr ++ a1)%list) as (a2 & E2 & F2).
    exists (a1 ++ a2)%list. rewrite E2, app_assoc. split; [reflexivity|].
    now apply Forall_app.
  - now exists a1.
Qed.

Lemma appends_try_except {A} (m : M event A) (h : exn -> M event A) :
  appends P m -> (forall e, appends P (h e)) -> appends P (try_except m h).
Proof.
  intros Hm Hh tr. unfold try_except.
  destruct (Hm tr) as (a1 & E1 & F1).
  destruct (m tr) as [[a|e] tr1]; simpl in E1; subst tr1.
  - now exists a1.
  - destruct (Hh e (tr ++ a1)%list) as (a2 & E2 & F2).
    exists (a1 ++ a2)%list. rewrite E2, app_assoc. split; [reflexivity|].
    now apply Forall_app.
Qed.

Lemma appends_query_smartlead (endpoint method : string) (b : body)
  (params : list (string * pyval)) :
  appends P (Client.query_smartlead env endpoint method b params).
Proof.
  intros tr. unfold Client.query_smartlead.
  destruct (SMARTLEAD_API_KEY env) as [key|].
  - match goal with |- context [http ?e ?t ?q] =>
      exists [Sent q]; destruct (http e t q) end;
      (split; [reflexivity | constructor; [apply P_sent | constructor]]).
  - exists []. now rewrite app_nil_r.
Qed.

Lemma appends_get_campaign_statistics (cid : Z) :
  appends P (Client.get_campaign_statistics env cid).
Proof.
  unfold Client.get_campaign_statistics. apply appends_bind.
  - apply appends_try_except; [apply appends_query_smartlead|].
    intros e. apply appends_raise.
  - intros [r|l|s|j]; first [apply appends_ret | apply appends_raise].
Qed.

Lemma appends_get_campaign_sequences (cid : Z) :
  appends P (Client.get_campaign_sequences env cid).
Proof.
  unfold Client.get_campaign_sequences. apply appends_bind.
  - apply appends_query_smartlead.
  - intros [r|l|s|j]; first [apply appends_ret | apply appends_raise].
Qed.

Lemma appends_add_sequences (cid : Z)
  (inputs : list SmartleadCampaignSequenceInput) :
  appends P (Client.add_sequences_to_campaign env cid inputs).
Proof.
  unfold Client.add_sequences_to_campaign. apply appends_try_except.
  - apply appends_bind; [apply appends_query_smartlead|].
    intros a. apply appends_ret.
  - intros e. apply appends_raise.
Qed.

Lemma appends_update (cid pct : Z) :
  P (Invoked (call_update_follow_up_percentage cid pct)) ->
  appends P (Internal.update_smartlead_campaign_follow_up_percentage env cid pct).
Proof.
  intros HP tr. rewrite update_follow_up_percentage_raises_eq.
  exists [Invoked (call_update_follow_up_percentage cid pct)].
  split; [reflexivity | now constructor].
Qed.

Lemma appends_add_follow_ups (cid d : Z) (E : option Z) :
  P (Invoked (call_add_follow_ups cid d E)) ->
  appends P (AddFollowUps.add_follow_ups_to_campaign env cid d E).
Proof.
  intros HP. unfold AddFollowUps.add_follow_ups_to_campaign.
  apply appends_bind; [now apply appends_emit|]. intros _.
  apply appends_bind; [apply appends_get_campaign_sequences|]. intros seqs.
  destruct (AddFollowUps.nothing_to_do E seqs); [apply appends_ret|].
  apply appends_try_except; [apply appends_add_sequences|].
  intros e. apply appends_raise.
Qed.

Lemma appends_bump (cid : Z) :
  P (Invoked (call_update_follow_up_percentage cid 90)) ->
  appends P (AddFollowUps.follow_up_percentage_bump env cid).
Proof.
  intros HP. unfold AddFollowUps.follow_up_percentage_bump.
  apply appends_bind; [apply appends_get_campaign_statistics|]. intros stats.
  apply appends_bind; [apply appends_lift|]. intros n.
  apply appends_bind.
  - destruct (total (campaign_lead_stats stats) =? 0); [apply appends_ret|].
    apply appends_bind; [apply appends_lift|]. intros r. apply appends_ret.
  - intros ratio.
    destruct ((total (campaign_lead_stats stats) =? 0)
              || AddFollowUps.ge_float ratio AddFollowUps.threshold);
      [|apply appends_ret].
    apply appends_bind; [now apply appends_update|].
    intros v. apply appends_ret.
Qed.

Lemma appends_process_campaign (change : bool) (d cid : Z) :
  P (Invoked (call_update_follow_up_percentage cid 90)) ->
  P (Invoked (call_add_follow_ups cid d None)) ->
  appends P (AddFollowUps.process_campaign env change d cid).
Proof.
  intros HP1 HP2. unfold AddFollowUps.process_campaign.
  apply appends_bind.
  - destruct change; [now apply appends_bump | apply appends_ret].
  - intros _. now apply appends_add_follow_ups.
Qed.

End Appends.

(** *** Successful runs double the sequences *)

Lemma build_inputs_clones_unset (d : Z)
  (seqs : list SmartleadCampaignSequence) :
  Forall (fun i => in_id i = None)
    (skipn (List.length seqs) (AddFollowUps.build_inputs d seqs)).
Proof.
  unfold AddFollowUps.build_inputs.
  rewrite skipn_app, length_map, Nat.sub_diag, skipn_all2
    by (rewrite length_map; lia).
  simpl. apply Forall_forall. intros x Hx.
  apply in_map_iff in Hx. destruct Hx as (p & <- & _). reflexivity.
Qed.

(** A call of the duplicator without expected length that returns has
    fetched some sequences and submitted their doubling. *)
Lemma add_follow_ups_success (env : Env) (cid d : Z) (tr tr' : trace)
  (u : unit) :
  AddFollowUps.add_follow_ups_to_campaign env cid d None tr = (Ret u, tr') ->
  exists key seqs,
    tr' = (tr ++ [Invoked (call_add_follow_ups cid d None);
                  Sent (sequences_get key cid);
                  Sent (sequences_post key cid
                          (AddFollowUps.build_inputs d seqs))])%list
    /\ http env (tr ++ [Invoked (call_add_follow_ups cid d None)])%list
         (sequences_get key cid) = Ok (SequenceList seqs).
Proof.
  intros Hrun.
  destruct (Client.get_campaign_sequences env cid
              (tr ++ [Invoked (call_add_follow_ups cid d None)])%list)
    as [[seqs|e] tr1] eqn:Hget.
  - destruct (get_campaign_sequences_ret _ _ _ _ _ Hget)
      as (key & Hkey & Hrep & Htr1).
    destruct (add_follow_ups_submits env cid d None tr tr1 seqs Hget eq_refl)
      as (key' & Hkey' & Hsent).
    assert (key' = key) by congruence. subst key'.
    exists key, seqs. split; [|exact Hrep].
    rewrite Hrun in Hsent. simpl in Hsent. rewrite Hsent, Htr1.
    now rewrite <- !app_assoc.
  - unfold AddFollowUps.add_follow_ups_to_campaign, bind, emit in Hrun.
    rewrite Hget in Hrun. discriminate.
Qed.

Lemma process_campaign_success (env : Env) (change : bool) (d cid : Z)
  (tr tr' : trace) (u : unit) :
  AddFollowUps.process_campaign env change d cid tr = (Ret u, tr') ->
  exists added, tr' = (tr ++ added)%list /\ doubling_run env d cid tr added.
Proof.
  unfold AddFollowUps.process_campaign. unfold bind at 1.
  destruct (appends_process_campaign env (fun _ => True) (fun _ => I)
              change d cid I I tr) as (whole & _).
  set (first := if change then AddFollowUps.follow_up_percentage_bump env cid
                else ret tt).
  assert (Hfirst : appends (fun _ => True) first).
  { subst first. destruct change;
      [now apply appends_bump | apply appends_ret]. }
  destruct (Hfirst tr) as (before & Eb & _).
  destruct (first tr) as [[v|e] tr0]; [|discriminate].
  simpl in Eb. subst tr0. intros Hrun.
  destruct (add_follow_ups_success _ _ _ _ _ _ Hrun)
    as (key & seqs & -> & Hrep).
  exists (before ++ [Invoked (call_add_follow_ups cid d None);
                     Sent (sequences_get key cid);
                     Sent (sequences_post key cid
                             (AddFollowUps.build_inputs d seqs))])%list.
  split; [now rewrite app_assoc|].
  exists before, [], key, seqs. rewrite app_nil_r.
  split; [reflexivity|]. split; [now rewrite <- app_assoc in Hrep|].
  split; [apply build_inputs_length | apply build_inputs_clones_unset].
Qed.

Lemma doubling_run_later (env : Env) (d cid : Z) (tr a1 a2 : trace) :
  doubling_run env d cid (tr ++ a1)%list a2 ->
  doubling_run env d cid tr (a1 ++ a2)%list.
Proof.
  intros (before & after & key & seqs & -> & Hrep & Hlen & Hids).
  exists (a1 ++ before)%list, after, key, seqs.
  split; [now rewrite app_assoc|]. split; [|now split].
  now rewrite <- !app_assoc in *.
Qed.

Lemma doubling_run_earlier (env : Env) (d cid : Z) (tr a1 a2 : trace) :
  doubling_run env d cid tr a1 ->
  doubling_run env d cid tr (a1 ++ a2)%list.
Proof.
  intros (before & after & key & seqs & -> & Hrep & Hlen & Hids).
  exists before, (after ++ a2)%list, key, seqs.
  split; [|now split].
  rewrite <- !app_assoc. simpl. reflexivity.
Qed.

Lemma runner_doubles (env : Env) (change : bool) (d : Z)
  (selected : list Z) :
  forall (ss : AddFollowUps.session) (tr : trace),
  exists added newly,
    snd (AddFollowUps.runner env change d selected ss tr) = (tr ++ added)%list
    /\ AddFollowUps.successful_campaigns
         (fst (AddFollowUps.runner env change d selected ss tr))
       = (AddFollowUps.successful_campaigns ss ++ newly)%list
    /\ Forall no_expected_length added
    /\ forall cid, In cid newly -> doubling_run env d cid tr added.
Proof.
  induction selected as [|cid rest IH]; intros ss tr; simpl.
  - exists [], []. rewrite !app_nil_r. repeat split; [constructor|].
    intros cid [].
  - destruct (appends_process_campaign env no_expected_length (fun _ => I)
                change d cid I I tr) as (a1 & E1 & F1).
    destruct (AddFollowUps.process_campaign env change d cid tr)
      as [[u|e] tr1] eqn:Hrun; simpl in E1; subst tr1.
    + destruct (IH {| AddFollowUps.successful_campaigns :=
                        (AddFollowUps.successful_campaigns ss ++ [cid])%list;
                      AddFollowUps.failed_campaigns :=
                        AddFollowUps.failed_campaigns ss |}
                  (tr ++ a1)%list) as (a2 & n2 & E2 & S2 & F2 & D2).
      exists (a1 ++ a2)%list, (cid :: n2).
      rewrite E2, S2. simpl. rewrite <- !app_assoc. simpl.
      split; [reflexivity|]. split; [reflexivity|].
      split; [now apply Forall_app|].
      intros c [<-|Hc].
      * destruct (process_campaign_success _ _ _ _ _ _ _ Hrun)
          as (a1' & E1' & D1).
        apply app_inv_head in E1'. subst a1'.
        now apply doubling_run_earlier.
      * now apply doubling_run_later, D2.
    + destruct (IH {| AddFollowUps.successful_campaigns :=
                        AddFollowUps.successful_campaigns ss;
                      AddFollowUps.failed_campaigns :=
                        (AddFollowUps.failed_campaigns ss ++ [(cid, e)])%list |}
                  (tr ++ a1)%list) as (a2 & n2 & E2 & S2 & F2 & D2).
      exists (a1 ++ a2)%list, n2.
      rewrite E2, S2. simpl. rewrite <- !app_assoc.
      split; [reflexivity|]. split; [reflexivity|].
      split; [now apply Forall_app|].
      intros c Hc. now apply doubling_run_later, D2.
Qed.

(** C10.  In a run of the workflow every call of the duplicator leaves
    the expected length out, so the guard cannot stop it: for each campaign
    the run reports as successful, the trace holds the call, the fetch of
    some [K] sequences and the submission of [2 * K] inputs, the last [K]
    of them new (without ids), whatever happened before the run. *)
Theorem workflow_submits_twice_the_sequences (env : Env) (change : bool)
  (d : Z) (selected : list Z) (ss : AddFollowUps.session) (tr : trace) :
  exists added newly,
    snd (AddFollowUps.runner env change d selected ss tr) = (tr ++ added)%list
    /\ AddFollowUps.successful_campaigns
         (fst (AddFollowUps.runner env change d selected ss tr))
       = (AddFollowUps.successful_campaigns ss ++ newly)%list
    /\ (forall c d' e,
          In (Invoked (call_add_follow_ups c d' e)) added -> e = None)
    /\ (forall cid, In cid newly ->
        exists before after key seqs,
          added
          = (before
               ++ [Invoked (call_add_follow_ups cid d None);
                   Sent (sequences_get key cid);
                   Sent (sequences_post key cid
                           (AddFollowUps.build_inputs d seqs))]
               ++ after)%list
          /\ http env
               (tr ++ before ++ [Invoked (call_add_follow_ups cid d None)])%list
               (sequences_get key cid) = Ok (SequenceList seqs)
          /\ List.length (AddFollowUps.build_inputs d seqs)
             = (2 * List.length seqs)%nat
          /\ Forall (fun i => in_id i = None)
               (skipn (List.length seqs) (AddFollowUps.build_inputs d seqs))).
Proof.
  destruct (runner_doubles env change d selected ss tr)
    as (added & newly & Etr & Ess & Fno & Hdouble).
  exists added, newly. split; [exact Etr|]. split; [exact Ess|].
  split; [|exact Hdouble].
  intros c d' e Hin.
  rewrite Forall_forall in Fno. specialize (Fno _ Hin).
  destruct e as [n|]; [destruct Fno | reflexivity].
Qed.

(** Campaign 7, three sequences at first, processed twice in one run:
    both passes succeed, no call carries an expected length, and the
    submissions have 6 and then 12 inputs. *)
Lemma workflow_submits_twice_the_sequences_witness :
  let run :=
    AddFollowUps.runner Demo.campaign_env false 5 [7; 7]
      {| AddFollowUps.successful_campaigns := [];
         AddFollowUps.failed_campaigns := [] |} [] in
  AddFollowUps.successful_campaigns (fst run) = [7; 7]
  /\ submitted_lengths (snd run) = [6; 12]%nat
  /\ forall c d' e, In (Invoked (call_add_follow_ups c d' e)) (snd run) ->
                    e = None.
Proof.
  intros run. split; [reflexivity|]. split; [reflexivity|].
  destruct (workflow_submits_twice_the_sequences Demo.campaign_env false 5
              [7; 7]
              {| AddFollowUps.successful_campaigns := [];
                 AddFollowUps.failed_campaigns := [] |} [])
    as (added & newly & Etr & _ & Hnone & _).
  fold run in Etr. simpl app in Etr. rewrite Etr. exact Hnone.
Defined.

(** ** Pagination *)

Lemma firstn_then_next {A} (l : list A) (a k : nat) :
  (firstn a l ++ firstn k (skipn a l))%list = firstn (a + k) l.
Proof.
  revert l. induction a as [|a IH]; intros l; simpl; [reflexivity|].
  destruct l as [|x l]; simpl.
  - now rewrite firstn_nil.
  - now rewrite IH.
Qed.

Lemma firstn_own_length {A} (l : list A) (a : nat) :
  firstn (List.length (firstn a l)) l = firstn a l.
Proof.
  rewrite length_firstn.
  destruct (Nat.le_ge_cases a (List.length l)) as [H|H].
  - now rewrite Nat.min_l.
  - rewrite Nat.min_r by exact H. now rewrite !firstn_all2 by lia.
Qed.

(** One page request against a platform, the key being set. *)
Lemma fetch_leads_page_ok (env : Env) (key : string) (cid : Z)
  (params : list (string * pyval)) (tr : trace)
  (r : SmartleadGetCampaignLeadsResponse) :
  SMARTLEAD_API_KEY env = Some key ->
  page_reply (http env tr (leads_get key cid params)) = Some r ->
  Client.fetch_leads_page env cid params tr
  = (Ret r, (tr ++ [Sent (leads_get key cid params)])%list).
Proof.
  intros Hkey Hrep.
  unfold Client.fetch_leads_page, Client.query_smartlead, bind. rewrite Hkey.
  change {| req_host := SmartleadV1;
            req_method := PyStr.upper "GET";
            req_endpoint := Client.leads_endpoint cid;
            req_params := dict_set "api_key" (VStr key) params;
            req_body := NoBody |}
    with (leads_get key cid params).
  destruct (http env tr (leads_get key cid params)) as [[p|l|st|j]| |];
    simpl in Hrep; try discriminate.
  now injection Hrep as ->.
Qed.

Lemma fetch_leads_page_fails (env : Env) (key : string) (cid : Z)
  (params : list (string * pyval)) (tr : trace) :
  SMARTLEAD_API_KEY env = Some key ->
  page_reply (http env tr (leads_get key cid params)) = None ->
  exists e,
    Client.fetch_leads_page env cid params tr
    = (Raise e, (tr ++ [Sent (leads_get key cid params)])%list).
Proof.
  intros Hkey Hrep.
  unfold Client.fetch_leads_page, Client.query_smartlead, bind. rewrite Hkey.
  change {| req_host := SmartleadV1;
            req_method := PyStr.upper "GET";
            req_endpoint := Client.leads_endpoint cid;
            req_params := dict_set "api_key" (VStr key) params;
            req_body := NoBody |}
    with (leads_get key cid params).
  destruct (http env tr (leads_get key cid params)) as [[p|l|st|j]| |];
    simpl in Hrep; try discriminate; eexists; reflexivity.
Qed.

Section UnfilteredListing.

Variable env : Env.
Variable key : string.
Variable cid : Z.
Variable event_time : option string.
Variable db : list SmartleadCampaignLead.

Hypothesis key_set : SMARTLEAD_API_KEY env = Some key.

(** Whenever the platform answers the request for the page at an offset,
    the page is the one of [db] at that offset. *)
Hypothesis pages_of_db :
  forall tr o r,
    page_reply (http env tr (page_get key cid event_time o)) = Some r ->
    is_page_of db o r.

(** Each page request succeeds eventually. *)
Hypothesis eventually :
  forall tr o, exists n, succeeds_within env n tr (page_get key cid event_time o).

(** Retrying one offset until the page comes, then going on. *)
Lemma pagination_step (leads : list SmartleadCampaignLead)
  (go_on :
     forall leads' tr',
       leads' = firstn (List.length leads') db ->
       (List.length leads < List.length leads')%nat ->
       exists fuel out,
         Client.pagination env fuel cid event_time (Z.of_nat (List.length db)) leads' tr'
         = Some (db, out)) :
  leads = firstn (List.length leads) db ->
  (List.length leads < List.length db)%nat ->
  forall n tr,
    succeeds_within env n tr
      (page_get key cid event_time (List.length leads)) ->
    exists fuel out,
      Client.pagination env fuel cid event_time (Z.of_nat (List.length db)) leads tr
      = Some (db, out).
Proof.
  intros Hinv Hlt n.
  assert (Hcond : (Z.of_nat (List.length leads) <? (Z.of_nat (List.length db))) = true)
    by (apply Z.ltb_lt; lia).
  assert (Hpage :
    forall tr r,
      page_reply
        (http env tr (page_get key cid event_time (List.length leads)))
      = Some r ->
      exists fuel out,
        Client.pagination env fuel cid event_time (Z.of_nat (List.length db)) leads tr
        = Some (db, out)).
  { intros tr r Hrep.
    destruct (pages_of_db _ _ _ Hrep) as (_ & k & Hk & Hdata).
    destruct (go_on (leads ++ data r)%list
                (tr ++ [Sent (page_get key cid event_time
                                (List.length leads))])%list)
      as (fuel & out & Hout).
    - rewrite Hdata. remember (List.length leads) as len eqn:Hlen.
      rewrite Hinv, firstn_then_next. apply eq_sym, firstn_own_length.
    - rewrite Hdata, length_app, length_firstn, length_skipn. lia.
    - exists (S fuel), out. simpl. rewrite Hcond.
      unfold page_get in Hrep.
      now rewrite (fetch_leads_page_ok env key cid _ tr r key_set Hrep). }
  induction n as [|n IH]; intros tr Hn; cbn [succeeds_within] in Hn;
    destruct (page_reply
                (http env tr
                   (page_get key cid event_time (List.length leads))))
      as [r|] eqn:Hrep; try contradiction;
    try (now apply (Hpage tr r)).
  destruct (IH _ Hn) as (fuel & out & Hout).
  exists (S fuel), out. simpl. rewrite Hcond.
  unfold page_get in Hrep.
  destruct (fetch_leads_page_fails env key cid _ tr key_set Hrep) as (e & ->).
  exact Hout.
Qed.

(** The loop, started on a prefix of [db], ends with [db]. *)
Lemma pagination_completes (m : nat) :
  forall leads tr,
    leads = firstn (List.length leads) db ->
    (List.length db - List.length leads <= m)%nat ->
    exists fuel out,
      Client.pagination env fuel cid event_time (Z.of_nat (List.length db)) leads tr
      = Some (db, out).
Proof.
  induction m as [|m IH]; intros leads tr Hinv Hm.
  - exists O, tr. simpl.
    assert (Hlen : (List.length leads <= List.length db)%nat)
      by (rewrite Hinv, length_firstn; lia).
    assert (Hge : (Z.of_nat (List.length leads) <? (Z.of_nat (List.length db))) = false)
      by (apply Z.ltb_ge; lia).
    rewrite Hge. rewrite Hinv, firstn_all2 by lia. reflexivity.
  - destruct (Nat.lt_ge_cases (List.length leads) (List.length db))
      as [Hlt|Hge].
    + destruct (eventually tr (List.length leads)) as (n & Hn).
      apply (pagination_step leads) with (n := n); try assumption.
      intros leads' tr' Hinv' Hprog. apply IH; [exact Hinv'|]. lia.
    + exists O, tr. simpl.
      assert (Hlen : (List.length leads <= List.length db)%nat)
        by (rewrite Hinv, length_firstn; lia).
      assert (Hfalse : (Z.of_nat (List.length leads) <? (Z.of_nat (List.length db))) = false)
        by (apply Z.ltb_ge; lia).
      rewrite Hfalse. rewrite Hinv, firstn_all2 by lia. reflexivity.
Qed.

(** Without a category, against a platform that serves the list [db] in
    pages and whose page requests succeed eventually, the listing whose
    first request is answered returns exactly [db]: each of its leads, once
    and in order. *)
Theorem unfiltered_listing_is_complete (tr : trace)
  (first_page : SmartleadGetCampaignLeadsResponse) :
  page_reply (http env tr (first_leads_get key cid None event_time))
  = Some first_page ->
  is_page_of db 0 first_page ->
  exists fuel out,
    Client.get_leads_by_campaign_id_with_pagination env fuel cid None
      event_time tr = Some (Ret db, out).
Proof.
  intros Hrep (Htotal & k & Hk & Hdata).
  destruct (pagination_completes (List.length db) (data first_page)
              (tr ++ [Sent (first_leads_get key cid None event_time)])%list)
    as (fuel & out & Hout).
  - rewrite Hdata. simpl skipn. apply eq_sym, firstn_own_length.
  - lia.
  - exists fuel, out.
    unfold Client.get_leads_by_campaign_id_with_pagination.
    unfold first_leads_get in Hrep.
    rewrite (fetch_leads_page_ok env key cid _ tr first_page key_set Hrep).
    rewrite Htotal. simpl app at 1.
    unfold first_leads_get in Hout. now rewrite Hout.
Qed.

End UnfilteredListing.

(** Campaign 7 on the platform that fails every second request: the
    listing retries the offsets 1 and 2 once each and returns the three
    leads. *)
Lemma unfiltered_listing_is_complete_witness :
  exists fuel out,
    Client.get_leads_by_campaign_id_with_pagination Demo.flaky_env fuel 7 None
      None [] = Some (Ret Demo.three_leads, out).
Proof.
  apply (unfiltered_listing_is_complete Demo.flaky_env "key" 7 None
           Demo.three_leads eq_refl) with
    (first_page := Demo.leads_page Demo.three_leads 1 [("api_key", VStr "key")]).
  - intros tr o r. simpl. destruct (Nat.odd (List.length tr)); [discriminate|].
    unfold Demo.platform. simpl. intros [= <-].
    split; [reflexivity|]. exists 1%nat. split; [lia|].
    unfold Demo.leads_page. simpl. now rewrite Nat2Z.id.
  - intros tr o. exists 1%nat. simpl.
    destruct (Nat.odd (List.length tr)) eqn:Hodd; simpl; [|exact I].
    rewrite length_app, Nat.add_1_r, Nat.odd_succ.
    rewrite <- Nat.negb_odd, Hodd. exact I.
  - reflexivity.
  - split; [reflexivity|]. exists 1%nat. split; [lia | reflexivity].
Defined.

(** C3 (the code departs from the claim).  Campaign 7 has the leads a, b
    and c, of which b and c are in category 1, and its platform serves one
    lead per page.  Asked for category 1, the platform reports two leads
    and serves b; the loop then asks for offset 1 without the category and
    is served b again, the second of all the leads.  The listing returns b
    twice and never c. *)
Theorem category_is_dropped_after_first_page (fuel : nat) :
  let b := Demo.lead_of 2 "b@x.io" (Some 1) in
  let c := Demo.lead_of 3 "c@x.io" (Some 1) in
  filter (Demo.has_category 1) Demo.three_leads = [b; c]
  /\ page_reply
       (http Demo.campaign_env [] (first_leads_get "key" 7 (Some 1) None))
     = Some {| total_leads := 2; offset := 0; limit := 1; data := [b] |}
  /\ Client.get_leads_by_campaign_id_with_pagination Demo.campaign_env
       (S fuel) 7 (Some 1) None []
     = Some (Ret [b; b],
             [Sent (first_leads_get "key" 7 (Some 1) None);
              Sent (page_get "key" 7 None 1)])
  /\ ~ NoDup [b; b]
  /\ ~ In c [b; b].
Proof.
  intros b c. split; [reflexivity|]. split; [reflexivity|].
  split; [destruct fuel; reflexivity|]. split.
  - intros H. inversion H as [|x l Hnotin _]. apply Hnotin. now left.
  - intros [H|[H|[]]]; discriminate H.
Qed.

(* ================================================================== *)
(** * Further properties of the sources *)

(** ** Batches *)

Lemma range_from_slices {A} (lst : list A) (n : nat) :
  (1 <= n)%nat ->
  forall fuel s,
    (List.length lst - s <= fuel)%nat ->
    List.concat (map (fun i => firstn n (skipn i lst))
                (Utils.range_from fuel s (List.length lst) n))
    = skipn s lst.
Proof.
  intros Hn. induction fuel as [|fuel IH]; intros s Hfuel; simpl.
  - symmetry. apply skipn_all2. lia.
  - destruct (s <? List.length lst)%nat eqn:Hs.
    + apply Nat.ltb_lt in Hs. simpl. rewrite IH by lia.
      rewrite Nat.add_comm, <- skipn_skipn. apply firstn_skipn.
    + apply Nat.ltb_ge in Hs. symmetry. now apply skipn_all2.
Qed.

Lemma range_from_sizes {A} (lst : list A) (n : nat) :
  (1 <= n)%nat ->
  forall fuel s,
    Forall (fun c : list A => (1 <= List.length c <= n)%nat)
      (map (fun i => firstn n (skipn i lst))
           (Utils.range_from fuel s (List.length lst) n)).
Proof.
  intros Hn. induction fuel as [|fuel IH]; intros s; simpl; [constructor|].
  destruct (s <? List.length lst)%nat eqn:Hs; [|constructor].
  apply Nat.ltb_lt in Hs. simpl. constructor; [|apply IH].
  rewrite length_firstn, length_skipn. lia.
Qed.

Lemma range_from_full {A} (lst : list A) (n : nat) :
  forall fuel s j c,
    let chunks :=
      map (fun i => firstn n (skipn i lst))
          (Utils.range_from fuel s (List.length lst) n) in
    nth_error chunks j = Some c ->
    (S j < List.length chunks)%nat ->
    List.length c = n.
Proof.
  induction fuel as [|fuel IH]; intros s j c chunks; subst chunks; simpl.
  - now destruct j.
  - destruct (s <? List.length lst)%nat eqn:Hs; [|now destruct j].
    simpl. destruct j as [|j]; simpl.
    + intros [= <-] Hmore.
      destruct fuel as [|fuel]; simpl in Hmore; [lia|].
      destruct (s + n <? List.length lst)%nat eqn:Hnext;
        [|simpl in Hmore; lia].
      apply Nat.ltb_lt in Hnext.
      rewrite length_firstn, length_skipn. lia.
    + intros Hc Hmore. apply (IH (s + n)%nat j c Hc). lia.
Qed.

(** X1.  For a positive batch size, [chunk_list] cuts a list into batches
    that put end to end give the list back: no element is lost, repeated
    or moved.  No batch is empty, none is longer than the size, and every
    batch but the last has exactly the size. *)
Theorem chunk_list_partitions {A} (lst : list A) (chunk_size : Z) :
  0 < chunk_size ->
  exists chunks,
    Utils.chunk_list lst chunk_size = Ret chunks
    /\ List.concat chunks = lst
    /\ Forall (fun c : list A =>
                 (1 <= List.length c <= Z.to_nat chunk_size)%nat) chunks
    /\ forall j c,
         nth_error chunks j = Some c ->
         (S j < List.length chunks)%nat ->
         List.length c = Z.to_nat chunk_size.
Proof.
  intros Hpos. unfold Utils.chunk_list.
  destruct (chunk_size =? 0) eqn:H0; [apply Z.eqb_eq in H0; lia|].
  destruct (chunk_size <? 0) eqn:Hneg; [apply Z.ltb_lt in Hneg; lia|].
  eexists. split; [reflexivity|].
  assert (Hn : (1 <= Z.to_nat chunk_size)%nat) by lia.
  split; [|split].
  - rewrite (range_from_slices lst _ Hn) by lia. reflexivity.
  - now apply range_from_sizes.
  - intros j c. apply range_from_full.
Qed.

(** Five leads in batches of two: two full batches and one of one. *)
Lemma chunk_list_partitions_witness :
  exists chunks,
    Utils.chunk_list [1; 2; 3; 4; 5] 2 = Ret chunks
    /\ List.concat chunks = [1; 2; 3; 4; 5]
    /\ List.length chunks = 3%nat.
Proof.
  destruct (chunk_list_partitions [1; 2; 3; 4; 5] 2 ltac:(lia))
    as (chunks & Hrun & Hcat & _).
  exists chunks. split; [exact Hrun|]. split; [exact Hcat|].
  vm_compute in Hrun. injection Hrun as <-. reflexivity.
Defined.

Lemma range_from_count (stop n : nat) :
  (1 <= n)%nat ->
  forall fuel s,
    (stop - s <= fuel)%nat ->
    let k := List.length (Utils.range_from fuel s stop n) in
    (stop - s <= k * n)%nat
    /\ ((s < stop)%nat -> ((k - 1) * n < stop - s)%nat).
Proof.
  intros Hn. induction fuel as [|fuel IH]; intros s Hfuel k; subst k; simpl.
  - lia.
  - destruct (s <? stop)%nat eqn:Hs.
    + apply Nat.ltb_lt in Hs. simpl.
      destruct (IH (s + n)%nat ltac:(lia)) as [Hup Hlow].
      split; [lia|]. intros _. rewrite Nat.sub_0_r.
      destruct (Nat.lt_ge_cases (s + n) stop) as [Hlt|Hge].
      * specialize (Hlow Hlt).
        destruct (List.length (Utils.range_from fuel (s + n) stop n))
          as [|k]; simpl in *; lia.
      * assert (Hz : List.length (Utils.range_from fuel (s + n) stop n) = O).
        { destruct fuel as [|fuel']; simpl; [reflexivity|].
          apply Nat.ltb_ge in Hge. now rewrite Hge. }
        rewrite Hz. simpl. lia.
    + apply Nat.ltb_ge in Hs. simpl. lia.
Qed.

(** X2.  The number [k] of batches of a non-empty list is the least with
    [len <= k * size]: as many batches as needed and not one more.  An
    empty list has no batch. *)
Theorem chunk_list_count {A} (lst : list A) (chunk_size : Z) :
  0 < chunk_size ->
  exists chunks,
    Utils.chunk_list lst chunk_size = Ret chunks
    /\ (List.length lst <= List.length chunks * Z.to_nat chunk_size)%nat
    /\ (lst <> [] ->
        ((List.length chunks - 1) * Z.to_nat chunk_size < List.length lst)%nat)
    /\ (lst = [] -> chunks = []).
Proof.
  intros Hpos. unfold Utils.chunk_list.
  destruct (chunk_size =? 0) eqn:H0; [apply Z.eqb_eq in H0; lia|].
  destruct (chunk_size <? 0) eqn:Hneg; [apply Z.ltb_lt in Hneg; lia|].
  eexists. split; [reflexivity|]. rewrite length_map.
  destruct (range_from_count (List.length lst) (Z.to_nat chunk_size)
              ltac:(lia) (List.length lst) 0%nat ltac:(lia)) as [Hup Hlow].
  rewrite Nat.sub_0_r in *.
  split; [exact Hup|]. split.
  - intros Hne. apply Hlow. destruct lst; [congruence | simpl; lia].
  - intros ->. reflexivity.
Qed.

(** 120 leads in batches of 50: three batches. *)
Lemma chunk_list_count_witness :
  exists chunks,
    Utils.chunk_list (repeat tt 120) 50 = Ret chunks
    /\ List.length chunks = 3%nat.
Proof.
  destruct (chunk_list_count (repeat tt 120) 50 ltac:(lia))
    as (chunks & Hrun & Hup & Hlow & _).
  exists chunks. split; [exact Hrun|].
  assert (Hne : repeat tt 120 <> []) by discriminate.
  specialize (Hlow Hne). rewrite repeat_length in *.
  change (Z.to_nat 50) with 50%nat in *. lia.
Defined.

(** ** The REST client *)

Lemma dict_get_set_same {V} (k : string) (v : V) (d : list (string * V)) :
  dict_get k (dict_set k v d) = Some v.
Proof.
  induction d as [|[k' v'] d IH]; simpl.
  - now rewrite String.eqb_refl.
  - destruct (String.eqb k k') eqn:E; simpl; rewrite ?String.eqb_refl, ?E;
      [reflexivity | exact IH].
Qed.

Lemma dict_get_set_other {V} (k k0 : string) (v : V) (d : list (string * V)) :
  k0 <> k -> dict_get k0 (dict_set k v d) = dict_get k0 d.
Proof.
  intros Hne. apply String.eqb_neq in Hne.
  induction d as [|[k' v'] d IH]; simpl.
  - now rewrite Hne.
  - destruct (String.eqb k k') eqn:E; simpl.
    + apply String.eqb_eq in E. subst k'. now rewrite Hne.
    + now rewrite IH.
Qed.

(** X3.  [query_smartlead] reads the API key before anything else: without
    it the call raises [KeyError] and nothing is sent.  With it, exactly
    one request goes out, to the endpoint and with the body it was given;
    its parameters hold the key under [api_key], replacing any value the
    caller gave under that name, and every other parameter of the caller
    as it was. *)
Theorem query_smartlead_adds_the_key (env : Env) (endpoint method : string)
  (b : body) (params : list (string * pyval)) (tr : trace) :
  (SMARTLEAD_API_KEY env = None ->
   Client.query_smartlead env endpoint method b params tr
   = (Raise KeyError, tr))
  /\
  (forall key,
     SMARTLEAD_API_KEY env = Some key ->
     exists req,
       snd (Client.query_smartlead env endpoint method b params tr)
       = (tr ++ [Sent req])%list
       /\ req_host req = SmartleadV1
       /\ req_endpoint req = endpoint
       /\ req_body req = b
       /\ dict_get "api_key" (req_params req) = Some (VStr key)
       /\ forall k, k <> "api_key" ->
                    dict_get k (req_params req) = dict_get k params).
Proof.
  unfold Client.query_smartlead. split.
  - intros ->. reflexivity.
  - intros key ->.
    match goal with |- context [http ?e ?t ?q] =>
      exists q; destruct (http e t q) end;
      (split; [reflexivity|]); simpl;
      (do 3 (split; [reflexivity|])); (split; [apply dict_get_set_same|]);
      intros k Hk; now apply dict_get_set_other.
Qed.

(** Without the key nothing reaches the platform; with it, a caller who
    passes its own [api_key] and an [offset] sees the first replaced and
    the second kept. *)
Lemma query_smartlead_adds_the_key_witness :
  Client.query_smartlead Demo2.keyless_env "campaigns/7/leads" "get" NoBody
    [] [] = (Raise KeyError, [])
  /\ exists req,
       snd (Client.query_smartlead Demo.campaign_env "campaigns/7/leads" "get"
              NoBody [("api_key", VStr "mine"); ("offset", VInt 2)] [])
       = [Sent req]
       /\ dict_get "api_key" (req_params req) = Some (VStr "key")
       /\ dict_get "offset" (req_params req) = Some (VInt 2).
Proof.
  split.
  - destruct (query_smartlead_adds_the_key Demo2.keyless_env
                "campaigns/7/leads" "get" NoBody [] []) as [H _].
    exact (H eq_refl).
  - destruct (query_smartlead_adds_the_key Demo.campaign_env
                "campaigns/7/leads" "get" NoBody
                [("api_key", VStr "mine"); ("offset", VInt 2)] [])
      as [_ H].
    destruct (H "key" eq_refl) as (req & Hsent & _ & _ & _ & Hkey & Hother).
    exists req. split; [exact Hsent|]. split; [exact Hkey|].
    rewrite (Hother "offset") by discriminate. reflexivity.
Defined.




(** ** The duplicator, further *)

Lemma clone_numbers (K : nat) (d : Z) (l : list SmartleadCampaignSequence) :
  forall k,
    map in_seq_number
        (map (fun p => AddFollowUps.clone K d (fst p) (snd p))
             (AddFollowUps.enumerate_from k l))
    = map (fun i => Z.of_nat K + Z.of_nat i + 1) (seq k (List.length l)).
Proof.
  induction l as [|x l IH]; intros k; simpl; [reflexivity|].
  now rewrite IH.
Qed.

Lemma shifted_numbers (K n : nat) :
  forall s,
    map (fun i => Z.of_nat K + Z.of_nat i + 1) (seq s n)
    = map Z.of_nat (seq (1 + K + s) n).
Proof.
  induction n as [|n IH]; intros s; simpl; [reflexivity|].
  rewrite IH. f_equal; [lia|]. do 2 f_equal. lia.
Qed.

(** X5.  The duplicator keeps the numbering contiguous: when the fetched
    sequences are numbered 1 to [K], the submitted inputs are numbered 1 to
    [2 * K], in this order.  A campaign without sequences gets a submission
    with an empty list. *)
Theorem duplicator_keeps_numbering_contiguous (env : Env) (cid d : Z)
  (E : option Z) (tr tr1 : trace) (seqs : list SmartleadCampaignSequence) :
  Client.get_campaign_sequences env cid
    (tr ++ [Invoked (call_add_follow_ups cid d E)])%list = (Ret seqs, tr1) ->
  AddFollowUps.nothing_to_do E seqs = false ->
  map seq_number seqs = map Z.of_nat (seq 1 (List.length seqs)) ->
  exists key inputs,
    snd (AddFollowUps.add_follow_ups_to_campaign env cid d E tr)
    = (tr1 ++ [Sent (sequences_post key cid inputs)])%list
    /\ map in_seq_number inputs
       = map Z.of_nat (seq 1 (2 * List.length seqs))
    /\ (seqs = [] -> inputs = []).
Proof.
  intros Hget Hguard Hnum.
  destruct (add_follow_ups_submits env cid d E tr tr1 seqs Hget Hguard)
    as (key & _ & Hsent).
  exists key, (AddFollowUps.build_inputs d seqs).
  split; [exact Hsent|]. split.
  - unfold AddFollowUps.build_inputs, AddFollowUps.enumerate.
    rewrite map_app, map_map. simpl in_seq_number.
    change (map (fun x => seq_number x) seqs) with (map seq_number seqs).
    rewrite Hnum, clone_numbers, shifted_numbers.
    replace (2 * List.length seqs)%nat
      with (List.length seqs + List.length seqs)%nat by lia.
    rewrite seq_app, map_app. do 3 f_equal. lia.
  - intros ->. reflexivity.
Qed.

(** Campaign 7: sequences 1, 2, 3 become inputs 1 to 6. *)
Lemma duplicator_keeps_numbering_contiguous_witness :
  exists key inputs,
    snd (AddFollowUps.add_follow_ups_to_campaign Demo.campaign_env 7 5 None [])
    = [Invoked (call_add_follow_ups 7 5 None); Sent (sequences_get "key" 7);
       Sent (sequences_post key 7 inputs)]
    /\ map in_seq_number inputs = [1; 2; 3; 4; 5; 6].
Proof.
  destruct (duplicator_keeps_numbering_contiguous Demo.campaign_env 7 5 None
              []
              [Invoked (call_add_follow_ups 7 5 None);
               Sent (sequences_get "key" 7)]
              Demo.three_sequences eq_refl eq_refl eq_refl)
    as (key & inputs & Hsent & Hnum & _).
  exists key, inputs. split; [exact Hsent | exact Hnum].
Defined.

(** The variants of an input with their ids removed. *)
Lemma clone_variants_erase (seq : SmartleadCampaignSequence) :
  AddFollowUps.clone_variants seq
  = option_map
      (map (fun v => {| vin_subject := vin_subject v;
                        vin_id := None;
                        vin_email_body := vin_email_body v;
                        vin_variant_label := vin_variant_label v;
                        vin_variant_distribution_percentage :=
                          vin_variant_distribution_percentage v |}))
      (AddFollowUps.original_variants seq).
Proof.
  unfold AddFollowUps.clone_variants, AddFollowUps.original_variants.
  destruct (sequence_variants seq) as [[|v vs]|]; try reflexivity.
  simpl. now rewrite map_map.
Qed.

(** X6.  Variants through the duplicator.  The original at position [i]
    carries the variants of its sequence with their ids, the clone at
    [K + i] the same variants in the same order with the ids removed and
    everything else kept; a sequence whose list of variants is absent or
    empty is submitted, original and clone, without variants. *)
Theorem duplicator_copies_variants (env : Env) (cid d : Z) (E : option Z)
  (tr tr1 : trace) (seqs : list SmartleadCampaignSequence) :
  Client.get_campaign_sequences env cid
    (tr ++ [Invoked (call_add_follow_ups cid d E)])%list = (Ret seqs, tr1) ->
  AddFollowUps.nothing_to_do E seqs = false ->
  exists key inputs,
    snd (AddFollowUps.add_follow_ups_to_campaign env cid d E tr)
    = (tr1 ++ [Sent (sequences_post key cid inputs)])%list
    /\ forall i seq,
         nth_error seqs i = Some seq ->
         exists original copy,
           nth_error inputs i = Some original
           /\ nth_error inputs (List.length seqs + i) = Some copy
           /\ in_seq_variants copy
              = option_map
                  (map (fun v =>
                          {| vin_subject := vin_subject v;
                             vin_id := None;
                             vin_email_body := vin_email_body v;
                             vin_variant_label := vin_variant_label v;
                             vin_variant_distribution_percentage :=
                               vin_variant_distribution_percentage v |}))
                  (in_seq_variants original)
           /\ match sequence_variants seq with
              | Some (v :: vs) =>
                  exists ws,
                    in_seq_variants original = Some ws
                    /\ map vin_id ws = map (fun x => Some (var_id x)) (v :: vs)
                    /\ map vin_variant_label ws
                       = map var_variant_label (v :: vs)
                    /\ map vin_subject ws = map var_subject (v :: vs)
                    /\ map vin_email_body ws = map var_email_body (v :: vs)
                    /\ map vin_variant_distribution_percentage ws
                       = map var_variant_distribution_percentage (v :: vs)
              | _ => in_seq_variants original = None
                     /\ in_seq_variants copy = None
              end.
Proof.
  intros Hget Hguard.
  destruct (add_follow_ups_submits env cid d E tr tr1 seqs Hget Hguard)
    as (key & _ & Hsent).
  exists key, (AddFollowUps.build_inputs d seqs).
  split; [exact Hsent|]. intros i seq Hi.
  exists (AddFollowUps.original_input seq),
         (AddFollowUps.clone (List.length seqs) d i seq).
  split; [now apply build_inputs_original|].
  split; [now apply build_inputs_clone|].
  split; [apply clone_variants_erase|].
  simpl. unfold AddFollowUps.original_variants, AddFollowUps.clone_variants.
  destruct (sequence_variants seq) as [[|v vs]|]; [now split| |now split].
  eexists. split; [reflexivity|].
  rewrite !map_map. simpl. now repeat split.
Qed.

(** Campaign 7: the first sequence has the variants 101 and 102, the third
    an empty list of variants. *)
Lemma duplicator_copies_variants_witness :
  exists key inputs,
    snd (AddFollowUps.add_follow_ups_to_campaign Demo.campaign_env 7 5 None [])
    = [Invoked (call_add_follow_ups 7 5 None); Sent (sequences_get "key" 7);
       Sent (sequences_post key 7 inputs)]
    /\ map (fun i => option_map (map vin_id) (in_seq_variants i)) inputs
       = [Some [Some 101; Some 102]; None; None;
          Some [None; None]; None; None].
Proof.
  destruct (duplicator_copies_variants Demo.campaign_env 7 5 None []
              [Invoked (call_add_follow_ups 7 5 None);
               Sent (sequences_get "key" 7)]
              Demo.three_sequences eq_refl eq_refl)
    as (key & inputs & Hsent & _).
  exists key, inputs. split; [exact Hsent|].
  apply (f_equal (fun t => nth_error t 2)) in Hsent.
  vm_compute in Hsent. injection Hsent as _ <-. reflexivity.
Defined.

(** ** The workflow, further *)



(** X8.  The runner reports every selected campaign exactly once: the ids
    it adds to the successes and to the failures are, taken together, the
    selection, and what the two lists held before the run stays in front.
    A failure does not stop the campaigns after it. *)
Theorem runner_reports_each_campaign_once (env : Env) (change : bool)
  (d : Z) (selected : list Z) :
  forall (ss : AddFollowUps.session) (tr : trace),
  exists succeeded failed,
    AddFollowUps.successful_campaigns
      (fst (AddFollowUps.runner env change d selected ss tr))
    = (AddFollowUps.successful_campaigns ss ++ succeeded)%list
    /\ AddFollowUps.failed_campaigns
         (fst (AddFollowUps.runner env change d selected ss tr))
       = (AddFollowUps.failed_campaigns ss ++ failed)%list
    /\ Permutation (succeeded ++ map fst failed)%list selected.
Proof.
  induction selected as [|cid rest IH]; intros ss tr; simpl.
  - exists [], []. rewrite !app_nil_r. now repeat split.
  - destruct (AddFollowUps.process_campaign env change d cid tr)
      as [[u|e] tr1].
    + destruct (IH {| AddFollowUps.successful_campaigns :=
                        (AddFollowUps.successful_campaigns ss ++ [cid])%list;
                      AddFollowUps.failed_campaigns :=
                        AddFollowUps.failed_campaigns ss |} tr1)
        as (s2 & f2 & Hs & Hf & Hperm).
      exists (cid :: s2), f2. rewrite Hs, Hf. simpl.
      rewrite <- app_assoc. split; [reflexivity|]. split; [reflexivity|].
      now constructor.
    + destruct (IH {| AddFollowUps.successful_campaigns :=
                        AddFollowUps.successful_campaigns ss;
                      AddFollowUps.failed_campaigns :=
                        (AddFollowUps.failed_campaigns ss ++ [(cid, e)])%list |}
                  tr1)
        as (s2 & f2 & Hs & Hf & Hperm).
      exists s2, ((cid, e) :: f2). rewrite Hs, Hf. simpl.
      rewrite <- app_assoc. split; [reflexivity|]. split; [reflexivity|].
      apply Permutation_sym, Permutation_cons_app, Permutation_sym, Hperm.
Qed.

(** ** The paginated listing, further *)

Lemma pagination_hangs (env : Env) (key : string) (cid : Z)
  (event_time : option string) (total_leads : Z) :
  SMARTLEAD_API_KEY env = Some key ->
  (forall tr o,
     match page_reply (http env tr (page_get key cid event_time o)) with
     | Some r => data r = []
     | None => True
     end) ->
  forall fuel leads tr,
    Z.of_nat (List.length leads) < total_leads ->
    Client.pagination env fuel cid event_time total_leads leads tr = None.
Proof.
  intros Hkey Hstuck. induction fuel as [|fuel IH]; intros leads tr Hlt;
    simpl; apply Z.ltb_lt in Hlt as Hcond; rewrite Hcond; [reflexivity|].
  specialize (Hstuck tr (List.length leads)). unfold page_get in Hstuck.
  destruct (page_reply
              (http env tr
                 (leads_get key cid
                    (("offset", VInt (Z.of_nat (List.length leads)))
                       :: Client.event_time_param event_time))))
    as [r|] eqn:Hrep.
  - rewrite (fetch_leads_page_ok env key cid _ tr r Hkey Hrep).
    rewrite Hstuck, app_nil_r. now apply IH.
  - destruct (fetch_leads_page_fails env key cid _ tr Hkey Hrep) as (e & ->).
    now apply IH.
Qed.

(** X9.  The loop has no way out but reaching the total.  When the first
    page holds fewer leads than the total it announces and every later
    page request fails or brings no lead, the listing never returns:
    whatever the number of page requests allowed, it is still asking. *)
Theorem listing_never_returns_without_progress (env : Env) (key : string)
  (cid : Z) (lead_category_id : option Z) (event_time : option string)
  (tr : trace) (first_page : SmartleadGetCampaignLeadsResponse) :
  SMARTLEAD_API_KEY env = Some key ->
  page_reply
    (http env tr (first_leads_get key cid lead_category_id event_time))
  = Some first_page ->
  Z.of_nat (List.length (data first_page)) < total_leads first_page ->
  (forall tr' o,
     match page_reply (http env tr' (page_get key cid event_time o)) with
     | Some r => data r = []
     | None => True
     end) ->
  forall fuel,
    Client.get_leads_by_campaign_id_with_pagination env fuel cid
      lead_category_id event_time tr = None.
Proof.
  intros Hkey Hfirst Hlt Hstuck fuel.
  unfold Client.get_leads_by_campaign_id_with_pagination.
  unfold first_leads_get in Hfirst.
  rewrite (fetch_leads_page_ok env key cid _ tr first_page Hkey Hfirst).
  simpl app at 1.
  now rewrite (pagination_hangs env key cid event_time _ Hkey Hstuck fuel _ _
                 Hlt).
Qed.

(** The first page announces three leads and holds one; the requests with
    an offset all fail: a thousand page requests are not enough. *)
Lemma listing_never_returns_without_progress_witness :
  Client.get_leads_by_campaign_id_with_pagination Demo2.stuck_env 1000 7 None
    None [] = None.
Proof.
  apply (listing_never_returns_without_progress Demo2.stuck_env "key" 7 None
           None [] (Demo.leads_page Demo.three_leads 1 [])).
  - reflexivity.
  - reflexivity.
  - simpl. lia.
  - intros tr' o. reflexivity.
Defined.

Lemma pagination_extends (env : Env) (cid : Z) (event_time : option string)
  (total_leads : Z) :
  forall fuel leads tr all out,
    Client.pagination env fuel cid event_time total_leads leads tr
    = Some (all, out) ->
    (exists rest, all = (leads ++ rest)%list)
    /\ total_leads <= Z.of_nat (List.length all).
Proof.
  induction fuel as [|fuel IH]; intros leads tr all out; simpl;
    destruct (Z.of_nat (List.length leads) <? total_leads) eqn:Hcond;
    try discriminate;
    try (intros [= <- <-]; apply Z.ltb_ge in Hcond;
         split; [exists []; now rewrite app_nil_r | exact Hcond]).
  destruct (Client.fetch_leads_page env cid _ tr) as [[page|e] tr1];
    intros Hrun; destruct (IH _ _ _ _ Hrun) as [(rest & ->) Hle].
  - split; [|exact Hle]. exists (data page ++ rest)%list.
    now rewrite app_assoc.
  - split; [|exact Hle]. now exists rest.
Qed.

(** X10.  The listing never raises, and what it returns after a first
    page that came through starts with the leads of that page, in their
    order, and holds at least as many leads as that page announced:
    nothing fetched is dropped and the loop does not stop short. *)
Theorem listing_keeps_what_it_fetched (env : Env) (key : string) (fuel : nat)
  (cid : Z) (lead_category_id : option Z) (event_time : option string)
  (tr out : trace) (result : res (list SmartleadCampaignLead)) :
  Client.get_leads_by_campaign_id_with_pagination env fuel cid
    lead_category_id event_time tr = Some (result, out) ->
  exists all,
    result = Ret all
    /\ forall first_page,
         SMARTLEAD_API_KEY env = Some key ->
         page_reply
           (http env tr (first_leads_get key cid lead_category_id event_time))
         = Some first_page ->
         (exists rest, all = (data first_page ++ rest)%list)
         /\ total_leads first_page <= Z.of_nat (List.length all).
Proof.
  unfold Client.get_leads_by_campaign_id_with_pagination.
  destruct (Client.fetch_leads_page env cid _ tr) as [[page|e] tr1] eqn:Hfetch.
  - destruct (Client.pagination env fuel cid event_time (total_leads page)
                ([] ++ data page)%list tr1) as [[all out']|] eqn:Hloop;
      [|discriminate].
    intros [= <- <-]. exists all. split; [reflexivity|].
    intros first_page Hkey Hfirst. unfold first_leads_get in Hfirst.
    rewrite (fetch_leads_page_ok env key cid _ tr first_page Hkey Hfirst)
      in Hfetch.
    injection Hfetch as <- <-.
    exact (pagination_extends _ _ _ _ _ _ _ _ _ Hloop).
  - intros [= <- <-]. exists []. split; [reflexivity|].
    intros first_page Hkey Hfirst. unfold first_leads_get in Hfirst.
    rewrite (fetch_leads_page_ok env key cid _ tr first_page Hkey Hfirst)
      in Hfetch.
    discriminate.
Qed.

(** The listing of campaign 7 on the platform that fails every second
    request returns the lead of the first page in front. *)
Lemma listing_keeps_what_it_fetched_witness :
  exists all rest,
    fst (match Client.get_leads_by_campaign_id_with_pagination Demo.flaky_env
                 10 7 None None [] with
         | Some p => p
         | None => (Ret [], [])
         end) = Ret all
    /\ all = (firstn 1 Demo.three_leads ++ rest)%list
    /\ (3 <= List.length all)%nat.
Proof.
  destruct (listing_keeps_what_it_fetched Demo.flaky_env "key" 10 7 None None
              []
              (snd (match Client.get_leads_by_campaign_id_with_pagination
                            Demo.flaky_env 10 7 None None [] with
                    | Some p => p
                    | None => (Ret [], [])
                    end))
              (Ret Demo.three_leads) eq_refl)
    as (all & Hall & Hfirst).
  destruct (Hfirst (Demo.leads_page Demo.three_leads 1
                      [("api_key", VStr "key")]) eq_refl eq_refl)
    as [(rest & Hrest) Hlen].
  exists all, rest. injection Hall as <-.
  split; [reflexivity|]. split; [exact Hrest|]. simpl in Hlen |- *. lia.
Defined.

(** ** The classifier, further *)

Lemma strip_lower_strip (s : string) :
  PyStr.strip (PyStr.lower (PyStr.strip s)) = PyStr.lower (PyStr.strip s).
Proof. now rewrite lower_strip, strip_idem. Qed.

(** X11.  An answer that [get_gpt_answer] returns is in normal form: it
    has no white space at either end and no capital letter, so trimming or
    lowering it again changes nothing; it is the reply of the model to the
    one question asked, trimmed and lowered.  Without the OpenAI key the
    function raises [KeyError] and asks nothing. *)
Theorem gpt_answer_is_normalised (env : Env) (sy us : string) (te : Q)
  (tr : trace) :
  (forall ans tr',
     FilterLeads.get_gpt_answer env sy us te tr = (Ret ans, tr') ->
     PyStr.strip ans = ans
     /\ PyStr.lower ans = ans
     /\ tr' = (tr ++ [Asked {| system_prompt := sy; user_prompt := us;
                               temperature := te |}])%list
     /\ exists s,
          openai env tr {| system_prompt := sy; user_prompt := us;
                           temperature := te |} = Content s
          /\ ans = PyStr.lower (PyStr.strip s))
  /\ (OPENAI_API_KEY env = None ->
      FilterLeads.get_gpt_answer env sy us te tr = (Raise KeyError, tr)).
Proof.
  unfold FilterLeads.get_gpt_answer. split.
  - intros ans tr'. destruct (OPENAI_API_KEY env) as [k|]; [|discriminate].
    destruct (openai env tr _) as [s| |] eqn:Hrep; try discriminate.
    intros [= <- <-].
    split; [apply strip_lower_strip|]. split; [apply lower_idem|].
    split; [reflexivity|]. now exists s.
  - intros ->. reflexivity.
Qed.

(** The model says [" No "]: the answer is ["no"]. *)
Lemma gpt_answer_is_normalised_witness :
  FilterLeads.get_gpt_answer Demo.campaign_env "system" "question" (7 # 10) []
  = (Ret "no",
     [Asked {| system_prompt := "system"; user_prompt := "question";
               temperature := (7 # 10)%Q |}])
  /\ PyStr.strip "no" = "no".
Proof.
  destruct (gpt_answer_is_normalised Demo.campaign_env "system" "question"
              (7 # 10) []) as [H _].
  destruct (H "no" _ eq_refl) as (Hstrip & _).
  split; [reflexivity | exact Hstrip].
Defined.

(** X12.  A lead for which each predicate has an empty side is kept
    without a single question to the model: this is so when no criterion
    is given at all, and when the lead has neither location nor industry.
    The three predicates are still called, in their order. *)
Theorem nothing_to_compare_asks_nothing (env : Env)
  (blocklisted_industries whitelisted_industries whitelisted_areas : string)
  (row : FilterLeads.lead_row) (tr : trace) :
  let loc := FilterLeads.get "Location" row in
  let industry := FilterLeads.get "informalIndustry" row in
  FilterLeads.either_empty loc whitelisted_areas = true ->
  FilterLeads.either_empty industry blocklisted_industries = true ->
  FilterLeads.either_empty industry whitelisted_industries = true ->
  FilterLeads.check_one env blocklisted_industries whitelisted_industries
    whitelisted_areas row tr
  = (Ret None,
     (tr ++ [Invoked (call_is_outside_whitelisted_area loc whitelisted_areas);
             Invoked (call_is_in_blocklisted_industry industry
                        blocklisted_industries);
             Invoked (call_is_outside_whitelisted_industry industry
                        whitelisted_industries)])%list).
Proof.
  intros loc industry H1 H2 H3. unfold FilterLeads.check_one.
  fold loc. fold industry.
  unfold bind at 1. rewrite (area_empty env _ _ _ H1).
  unfold bind at 1. rewrite (blocklist_empty env _ _ _ H2).
  unfold bind at 1. rewrite (whitelist_empty env _ _ _ H3).
  unfold ret. now rewrite <- !app_assoc.
Qed.

(** No criteria at all, and a row that has neither column. *)
Lemma nothing_to_compare_asks_nothing_witness :
  fst (FilterLeads.check_one Demo.campaign_env "" "" ""
         [("Location", Some "Oslo"); ("informalIndustry", Some "Tech")] [])
  = Ret None
  /\ fst (FilterLeads.check_one Demo.campaign_env "Gambling" "Software"
            "Paris;Rome" [("Email", Some "b@x.io")] [])
     = Ret None.
Proof.
  split.
  - now rewrite (nothing_to_compare_asks_nothing Demo.campaign_env "" "" ""
                   [("Location", Some "Oslo");
                    ("informalIndustry", Some "Tech")] []
                   eq_refl eq_refl eq_refl).
  - now rewrite (nothing_to_compare_asks_nothing Demo.campaign_env "Gambling"
                   "Software" "Paris;Rome" [("Email", Some "b@x.io")] []
                   eq_refl eq_refl eq_refl).
Defined.

(** X13.  Whatever the model and the lead, [check_one] adds to the trace
    only calls of the three predicates and their own questions about this
    lead, at most three of each, and what it returns is the lead it was
    given, unchanged, or [None]. *)
Theorem check_one_stays_on_its_lead (env : Env)
  (blocklisted_industries whitelisted_industries whitelisted_areas : string)
  (row : FilterLeads.lead_row) (tr : trace) :
  let loc := FilterLeads.get "Location" row in
  let industry := FilterLeads.get "informalIndustry" row in
  let run :=
    FilterLeads.check_one env blocklisted_industries whitelisted_industries
      whitelisted_areas row tr in
  exists added,
    snd run = (tr ++ added)%list
    /\ (List.length added <= 6)%nat
    /\ Forall
         (fun ev =>
            In ev
              [Invoked (call_is_outside_whitelisted_area loc
                          whitelisted_areas);
               Asked (FilterLeads.area_question loc whitelisted_areas);
               Invoked (call_is_in_blocklisted_industry industry
                          blocklisted_industries);
               Asked (FilterLeads.blocklist_question industry
                        blocklisted_industries);
               Invoked (call_is_outside_whitelisted_industry industry
                          whitelisted_industries);
               Asked (FilterLeads.whitelist_question industry
                        whitelisted_industries)])
         added
    /\ forall r, fst run = Ret r -> r = Some row \/ r = None.
Proof.
  intros loc industry run. subst run.
  unfold FilterLeads.check_one. fold loc. fold industry.
  unfold FilterLeads.is_outside_whitelisted_area,
    FilterLeads.is_in_blocklisted_industry,
    FilterLeads.is_outside_whitelisted_industry,
    FilterLeads.get_gpt_answer, bind, emit, ret.
  generalize loc industry. clear loc industry. intros loc industry.
  destruct (OPENAI_API_KEY env);
    destruct (FilterLeads.either_empty loc whitelisted_areas);
    destruct (FilterLeads.either_empty industry blocklisted_industries);
    destruct (FilterLeads.either_empty industry whitelisted_industries);
    cbv zeta beta iota;
    repeat (match goal with
            | |- context [openai ?e ?t ?q] => destruct (openai e t q)
            | |- context [String.eqb ?a ?b] => destruct (String.eqb a b)
            end; cbv beta iota);
    (eexists; split;
     [ cbn [snd]; rewrite <- ?app_assoc; cbn [app]; reflexivity
     | split; [cbn [List.length]; lia |
       split; [ repeat constructor; cbn [In]; tauto
              | cbn [fst]; intros r Hr;
                first [discriminate | injection Hr as <-; tauto] ] ] ]).
Qed.

(** ** The filter page *)

Lemma lead_details_nth (leads : list SmartleadCampaignLead)
  (upload : list FilterLeads.lead_row) (i : nat) (a b : Z) :
  nth_error (map FilterPage.leadId (FilterPage.lead_details leads upload)) i
  = Some a ->
  nth_error (map FilterPage.leadMappingId
               (FilterPage.lead_details leads upload)) i = Some b ->
  exists l,
    In l leads
    /\ lead_id (lead l) = a
    /\ campaign_lead_map_id l = b
    /\ exists row, In row upload
                   /\ FilterLeads.get "Email" row = Some (email (lead l)).
Proof.
  unfold FilterPage.lead_details. rewrite !map_map. simpl.
  rewrite !nth_error_map.
  destruct (nth_error (filter (FilterPage.in_upload upload) leads) i)
    as [l|] eqn:Hl; simpl; [|discriminate].
  intros [= <-] [= <-]. exists l.
  apply nth_error_In in Hl. apply filter_In in Hl. destruct Hl as [Hin Hup].
  split; [exact Hin|]. split; [reflexivity|]. split; [reflexivity|].
  unfold FilterPage.in_upload in Hup. apply existsb_exists in Hup.
  destruct Hup as (row & Hrow & Hmail). exists row. split; [exact Hrow|].
  destruct (FilterLeads.get "Email" row) as [e|]; [|discriminate].
  apply String.eqb_eq in Hmail. now subst e.
Qed.

(** X14.  The removal step of the page cannot trip the length check of the
    client: for the leads matched by mail, the two id lists it passes have
    one length, the lead id and the map id at each position belong to one
    lead of the campaign whose mail is in the upload, and a failure shown
    to the user is never the [ValueError] of the check; it is a
    [RuntimeError].  With the token set the deletion request goes out with
    these two lists. *)
Theorem removal_passes_paired_ids (env : Env) (cid : Z)
  (leads : list SmartleadCampaignLead) (upload : list FilterLeads.lead_row)
  (tr : trace) :
  let details := FilterPage.lead_details leads upload in
  let ids := map FilterPage.leadId details in
  let map_ids := map FilterPage.leadMappingId details in
  let run := FilterPage.perform_removal env cid details tr in
  List.length ids = List.length map_ids
  /\ (forall i a b,
        nth_error ids i = Some a -> nth_error map_ids i = Some b ->
        exists l,
          In l leads /\ lead_id (lead l) = a /\ campaign_lead_map_id l = b
          /\ exists row, In row upload
                         /\ FilterLeads.get "Email" row
                            = Some (email (lead l)))
  /\ (forall e, fst run = FilterPage.Failed_to_remove e -> e = RuntimeError)
  /\ (forall n, fst run = FilterPage.Removed n -> n = List.length details)
  /\ (Internal.present (SMARTLEAD_INTERNAL_API_TOKEN env) <> None ->
      snd run
      = (tr ++ [Invoked (call_remove_multiple_leads (str_of_int cid) ids
                           map_ids);
                Sent (delete_leads_post (str_of_int cid) ids map_ids)])%list).
Proof.
  intros details ids map_ids run.
  assert (Hlen : List.length ids = List.length map_ids)
    by (subst ids map_ids; now rewrite !length_map).
  split; [exact Hlen|]. split; [apply lead_details_nth|].
  subst run. unfold FilterPage.perform_removal,
    Internal.remove_multiple_leads_from_campaign, bind, emit.
  fold ids. fold map_ids. apply Nat.eqb_eq in Hlen. rewrite Hlen.
  cbn [negb]. unfold Internal.query_smartlead_internal_rest_endpoint.
  destruct (Internal.present (SMARTLEAD_INTERNAL_API_TOKEN env)) as [t|].
  - cbv beta.
    match goal with |- context [http ?e ?t ?q] => destruct (http e t q) end;
      cbn [fst snd];
      (split; [intros e [= <-]; reflexivity || discriminate
                 || (intros e He; discriminate He)|]);
      (split; [first [intros n [= <-]; reflexivity
                     | intros n Hn; discriminate Hn]|]);
      intros _; now rewrite <- app_assoc.
  - unfold raise. cbn [fst snd].
    split; [now intros e [= <-]|]. split; [intros n Hn; discriminate Hn|].
    intros H. now destruct H.
Qed.

(** Campaign 7 listed in full, the upload naming b and a stranger: one
    pair of ids, those of b, is sent for deletion. *)
Lemma removal_passes_paired_ids_witness :
  FilterPage.perform_removal Demo.campaign_env 7
    (FilterPage.lead_details Demo.three_leads Demo2.upload) []
  = (FilterPage.Removed 1,
     [Invoked (call_remove_multiple_leads "7" [2] [502]);
      Sent (delete_leads_post "7" [2] [502])]).
Proof.
  destruct (removal_passes_paired_ids Demo.campaign_env 7 Demo.three_leads
              Demo2.upload []) as (_ & _ & _ & _ & Hsent).
  specialize (Hsent ltac:(discriminate)).
  destruct (FilterPage.perform_removal Demo.campaign_env 7
              (FilterPage.lead_details Demo.three_leads Demo2.upload) [])
    as [msg out] eqn:Hrun.
  simpl in Hsent. subst out.
  vm_compute in Hrun. injection Hrun as <-. reflexivity.
Defined.

(** X15.  After a filter run, a listing whose first page request fails
    leaves nothing to remove and raises nothing: the details are empty,
    whatever the upload, so the page goes on as if no lead of the campaign
    had matched. *)
Theorem failed_listing_matches_nothing (env : Env) (key : string)
  (fuel : nat) (cid : Z) (upload : list FilterLeads.lead_row) (tr : trace) :
  SMARTLEAD_API_KEY env = Some key ->
  page_reply (http env tr (first_leads_get key cid None None)) = None ->
  FilterPage.precompute env fuel cid upload tr
  = Some (Ret [], (tr ++ [Sent (first_leads_get key cid None None)])%list).
Proof.
  intros Hkey Hfail.
  unfold FilterPage.precompute,
    Client.get_leads_by_campaign_id_with_pagination.
  unfold first_leads_get in Hfail.
  destruct (fetch_leads_page_fails env key cid _ tr Hkey Hfail) as (e & ->).
  reflexivity.
Qed.

(** The platform is down while the upload names a lead of the campaign. *)
Lemma failed_listing_matches_nothing_witness :
  FilterPage.precompute Demo.down_env 0 7 Demo2.upload []
  = Some (Ret [], [Sent (first_leads_get "key" 7 None None)]).
Proof.
  apply (failed_listing_matches_nothing Demo.down_env "key" 0 7 Demo2.upload
           []); reflexivity.
Defined.

Lemma get_campaign_by_id_raise (env : Env)
  (model_validate : pyval -> option Campaigns.SmartleadCampaign) (cid : Z)
  (tr tr' : trace) (e : exn) :
  Campaigns.get_campaign_by_id env model_validate cid tr = (Raise e, tr') ->
  e = KeyError \/ e = Exception_ \/ e = AttributeError \/ e = ValueError.
Proof.
  unfold Campaigns.get_campaign_by_id, Client.query_smartlead, bind.
  destruct (SMARTLEAD_API_KEY env) as [key|]; [|intros [= <- _]; tauto].
  match goal with |- context [http ?e ?t ?q] =>
    destruct (http e t q) as [p|[| |]|]
  end; try (intros [= <- _]; tauto).
  destruct (Campaigns.validate_campaign model_validate p);
    unfold ret, raise; [discriminate | intros [= <- _]; tauto].
Qed.

Lemma requests_chain_cons (env : Env)
  (model_validate : pyval -> option Campaigns.SmartleadCampaign)
  (cid : Z) (o0 : option Campaigns.SmartleadCampaign) (tr tr1 : trace)
  (outcomes : list (Z * option Campaigns.SmartleadCampaign))
  (traces : list trace) :
  Campaigns.get_campaign_by_id env model_validate cid tr
  = (match o0 with Some c => Ret c | None => Raise ValueError end, tr1) ->
  nth_error traces 0 = Some tr1 ->
  (forall i o t t1,
     nth_error outcomes i = Some o ->
     nth_error traces i = Some t ->
     nth_error traces (S i) = Some t1 ->
     Campaigns.get_campaign_by_id env model_validate (fst o) t
     = (match snd o with Some c => Ret c | None => Raise ValueError end,
        t1)) ->
  forall i o t t1,
    nth_error ((cid, o0) :: outcomes) i = Some o ->
    nth_error (tr :: traces) i = Some t ->
    nth_error (tr :: traces) (S i) = Some t1 ->
    Campaigns.get_campaign_by_id env model_validate (fst o) t
    = (match snd o with Some c => Ret c | None => Raise ValueError end, t1).
Proof.
  intros Hget Hhead Hchain [|i] o t t1.
  - intros [= <-] [= <-] Ht1.
    change (nth_error traces 0 = Some t1) in Ht1.
    rewrite Hhead in Ht1. injection Ht1 as <-. exact Hget.
  - exact (Hchain i o t t1).
Qed.

(** X16.  Loading the campaigns of an organisation sends the requests of
    the ids one after the other, each on the trace the one before left.
    A campaign whose request returns is appended to the loaded ones, as
    the client returned it; a campaign whose answer does not validate
    ([ValueError]) has its id appended to the errors shown, and the loop
    goes on: what is loaded and what is shown are exactly these, in the
    order of the ids.  Any other failure is not caught: the loading stops
    at the first id whose request raises [KeyError], a plain [Exception]
    or the [AttributeError] of the HTTP error handler, raises it, and the
    campaigns loaded so far are lost. *)
Theorem loading_skips_invalid_campaigns_only (env : Env)
  (model_validate : pyval -> option Campaigns.SmartleadCampaign)
  (campaign_ids : list Z) :
  forall (loaded : list Campaigns.SmartleadCampaign) (shown : list Z)
         (tr : trace),
    match FilterPage.load_campaign_details env model_validate campaign_ids
            loaded shown tr with
    | (Ret (loaded', shown'), tr') =>
        exists (outcomes : list (Z * option Campaigns.SmartleadCampaign))
               (traces : list trace),
          map fst outcomes = campaign_ids
          /\ nth_error traces 0 = Some tr
          /\ nth_error traces (List.length campaign_ids) = Some tr'
          /\ (forall i o t t1,
                nth_error outcomes i = Some o ->
                nth_error traces i = Some t ->
                nth_error traces (S i) = Some t1 ->
                Campaigns.get_campaign_by_id env model_validate (fst o) t
                = (match snd o with
                   | Some c => Ret c
                   | None => Raise ValueError
                   end, t1))
          /\ loaded'
             = (loaded
                  ++ flat_map (fun o => match snd o with
                                        | Some c => [c]
                                        | None => []
                                        end) outcomes)%list
          /\ shown'
             = (shown
                  ++ flat_map (fun o => match snd o with
                                        | Some _ => []
                                        | None => [fst o]
                                        end) outcomes)%list
    | (Raise e, tr') =>
        (e = KeyError \/ e = Exception_ \/ e = AttributeError)
        /\ exists (outcomes : list (Z * option Campaigns.SmartleadCampaign))
                  (traces : list trace) (cid : Z) (rest : list Z) (t : trace),
             campaign_ids = (map fst outcomes ++ cid :: rest)%list
             /\ nth_error traces 0 = Some tr
             /\ nth_error traces (List.length outcomes) = Some t
             /\ (forall i o t0 t1,
                   nth_error outcomes i = Some o ->
                   nth_error traces i = Some t0 ->
                   nth_error traces (S i) = Some t1 ->
                   Campaigns.get_campaign_by_id env model_validate (fst o) t0
                   = (match snd o with
                      | Some c => Ret c
                      | None => Raise ValueError
                      end, t1))
             /\ Campaigns.get_campaign_by_id env model_validate cid t
                = (Raise e, tr')
    end.
Proof.
  induction campaign_ids as [|cid rest IH]; intros loaded shown tr; simpl.
  - exists [], [tr]. simpl. rewrite !app_nil_r.
    repeat (split; [reflexivity|]).
    split; [|split; reflexivity].
    intros [|i] o t t1; discriminate.
  - destruct (Campaigns.get_campaign_by_id env model_validate cid tr)
      as [[c|e] tr1] eqn:Hget.
    + specialize (IH (loaded ++ [c])%list shown tr1).
      destruct (FilterPage.load_campaign_details env model_validate rest
                  (loaded ++ [c])%list shown tr1) as [[[l' s']|e] t].
      * destruct IH as (outcomes & traces & Hids & H0 & Hlast & Hchain
                        & -> & ->).
        exists ((cid, Some c) :: outcomes), (tr :: traces).
        simpl. rewrite <- app_assoc.
        split; [now rewrite Hids|]. split; [reflexivity|].
        split; [exact Hlast|].
        split; [|split; reflexivity].
        exact (requests_chain_cons env model_validate cid (Some c) tr tr1
                 outcomes traces Hget H0 Hchain).
      * destruct IH as (Hclass & outcomes & traces & cid' & rest' & t0
                        & Hids & H0 & Hlast & Hchain & Hraise).
        split; [exact Hclass|].
        exists ((cid, Some c) :: outcomes), (tr :: traces), cid', rest', t0.
        simpl. split; [now rewrite Hids|]. split; [reflexivity|].
        split; [exact Hlast|]. split; [|exact Hraise].
        exact (requests_chain_cons env model_validate cid (Some c) tr tr1
                 outcomes traces Hget H0 Hchain).
    + destruct (get_campaign_by_id_raise _ _ _ _ _ _ Hget)
        as [->|[->|[->| ->]]];
        try (split; [tauto|]; exists [], [tr], cid, rest, tr; simpl;
             split; [reflexivity|]; split; [reflexivity|];
             split; [reflexivity|]; split; [|exact Hget];
             intros [|i] o t t1; discriminate).
      specialize (IH loaded (shown ++ [cid])%list tr1).
      destruct (FilterPage.load_campaign_details env model_validate rest
                  loaded (shown ++ [cid])%list tr1) as [[[l' s']|e] t].
      * destruct IH as (outcomes & traces & Hids & H0 & Hlast & Hchain
                        & -> & ->).
        exists ((cid, None) :: outcomes), (tr :: traces).
        simpl. rewrite <- app_assoc.
        split; [now rewrite Hids|]. split; [reflexivity|].
        split; [exact Hlast|].
        split; [|split; reflexivity].
        exact (requests_chain_cons env model_validate cid None tr tr1
                 outcomes traces Hget H0 Hchain).
      * destruct IH as (Hclass & outcomes & traces & cid' & rest' & t0
                        & Hids & H0 & Hlast & Hchain & Hraise).
        split; [exact Hclass|].
        exists ((cid, None) :: outcomes), (tr :: traces), cid', rest', t0.
        simpl. split; [now rewrite Hids|]. split; [reflexivity|].
        split; [exact Hlast|]. split; [|exact Hraise].
        exact (requests_chain_cons env model_validate cid None tr tr1
                 outcomes traces Hget H0 Hchain).
Qed.

(** Campaign 8 answers a malformed object and is skipped, campaign 7 is
    loaded; with campaign 9, whose request fails, nothing is loaded and
    the request of campaign 8 is never sent. *)
Lemma loading_skips_invalid_campaigns_only_witness :
  (exists c,
     fst (FilterPage.load_campaign_details Demo2.campaigns_env
            Demo2.validate_by_id [8; 7] [] [] []) = Ret ([c], [8])
     /\ fst (Campaigns.get_campaign_by_id Demo2.campaigns_env
               Demo2.validate_by_id 7 [Sent (Demo2.campaign_get 8)])
        = Ret c)
  /\ FilterPage.load_campaign_details Demo2.campaigns_env
       Demo2.validate_by_id [7; 9; 8] [] [] []
     = (Raise Exception_,
        [Sent (Demo2.campaign_get 7); Sent (Demo2.campaign_get 9)]).
Proof.
  split.
  - pose proof (loading_skips_invalid_campaigns_only Demo2.campaigns_env
                  Demo2.validate_by_id [8; 7] [] [] []) as H.
    destruct (FilterPage.load_campaign_details Demo2.campaigns_env
                Demo2.validate_by_id [8; 7] [] [] []) as [[[l s]|e] t] eqn:E;
      vm_compute in E; [|discriminate].
    destruct H as (outcomes & traces & Hids & H0 & Hlast & Hchain & Hl & Hs).
    eexists. split; [|reflexivity].
    injection E as <- <- _. reflexivity.
  - pose proof (loading_skips_invalid_campaigns_only Demo2.campaigns_env
                  Demo2.validate_by_id [7; 9; 8] [] [] []) as H.
    destruct (FilterPage.load_campaign_details Demo2.campaigns_env
                Demo2.validate_by_id [7; 9; 8] [] [] []) as [[[l s]|e] t] eqn:E;
      vm_compute in E; [discriminate|].
    destruct H as [[->|[->| ->]] _]; try discriminate.
    injection E as <-. reflexivity.
Defined.

(** ** The list of campaigns *)

Lemma validate_all_length
  (model_validate : pyval -> option Campaigns.SmartleadCampaign)
  (items : list pyval) :
  forall cs,
    Campaigns.validate_all model_validate items = Some cs ->
    Forall2 (fun item c => model_validate item = Some c) items cs.
Proof.
  induction items as [|item rest IH]; simpl; intros cs.
  - intros [= <-]. constructor.
  - destruct (model_validate item) as [c|] eqn:Hc; [|discriminate].
    destruct (Campaigns.validate_all model_validate rest) as [cs'|];
      [|discriminate].
    intros [= <-]. constructor; [exact Hc | now apply IH].
Qed.

Lemma validate_all_stops
  (model_validate : pyval -> option Campaigns.SmartleadCampaign)
  (items : list pyval) (item : pyval) :
  In item items -> model_validate item = None ->
  Campaigns.validate_all model_validate items = None.
Proof.
  induction items as [|x rest IH]; simpl; [tauto|].
  intros [->|Hin] Hbad.
  - now rewrite Hbad.
  - destruct (model_validate x); [|reflexivity].
    now rewrite (IH Hin Hbad).
Qed.

(** X17.  [get_campaigns] is all or nothing.  When the platform answers
    with a JSON list, the function returns one campaign per item, in
    order, if every item validates; a single item that does not makes the
    whole call raise [RuntimeError], the valid campaigns with it.  The
    request is outside any [try]: what it raises comes out as it is, so
    the function raises [KeyError], a plain [Exception], [RuntimeError] or,
    for an HTTP error whose body is JSON but not an object, the
    [AttributeError] of the error handler. *)
Theorem get_campaigns_all_or_nothing (env : Env)
  (model_validate : pyval -> option Campaigns.SmartleadCampaign)
  (tr : trace) :
  (forall e tr',
     Campaigns.get_campaigns env model_validate tr = (Raise e, tr') ->
     e = KeyError \/ e = Exception_ \/ e = RuntimeError
     \/ (e = AttributeError
         /\ exists key,
              SMARTLEAD_API_KEY env = Some key
              /\ http env tr (Statements.campaigns_get key)
                 = HttpError JsonOther))
  /\
  (forall key,
     SMARTLEAD_API_KEY env = Some key ->
     http env tr (Statements.campaigns_get key) = HttpError JsonOther ->
     Campaigns.get_campaigns env model_validate tr
     = (Raise AttributeError,
        (tr ++ [Sent (Statements.campaigns_get key)])%list))
  /\
  (forall key items,
     SMARTLEAD_API_KEY env = Some key ->
     http env tr (Statements.campaigns_get key) = Ok (Other (VList items)) ->
     (forall item, In item items -> model_validate item <> None) ->
     exists campaigns,
       Campaigns.get_campaigns env model_validate tr
       = (Ret campaigns, (tr ++ [Sent (Statements.campaigns_get key)])%list)
       /\ Forall2 (fun item c => model_validate item = Some c)
            items campaigns)
  /\
  (forall key items item,
     SMARTLEAD_API_KEY env = Some key ->
     http env tr (Statements.campaigns_get key) = Ok (Other (VList items)) ->
     In item items -> model_validate item = None ->
     Campaigns.get_campaigns env model_validate tr
     = (Raise RuntimeError, (tr ++ [Sent (Statements.campaigns_get key)])%list)).
Proof.
  unfold Campaigns.get_campaigns, Client.query_smartlead, bind.
  split; [|split; [|split]].
  - intros e tr'. destruct (SMARTLEAD_API_KEY env) as [key|];
      [|intros [= <- _]; tauto].
    change {| req_host := SmartleadV1;
              req_method := PyStr.upper "GET";
              req_endpoint := "/campaigns";
              req_params := dict_set "api_key" (VStr key) [];
              req_body := NoBody |} with (Statements.campaigns_get key).
    destruct (http env tr (Statements.campaigns_get key))
      as [[r|[|x l]|st|[| | | items|]]|[| |]|] eqn:Hrep;
      unfold ret, raise; try discriminate; try (intros [= <- _]; tauto).
    + destruct (Campaigns.validate_all model_validate items);
        [discriminate | intros [= <- _]; tauto].
    + intros [= <- _]. right. right. right. split; [reflexivity|].
      now exists key.
  - intros key -> Hrep.
    change {| req_host := SmartleadV1;
              req_method := PyStr.upper "GET";
              req_endpoint := "/campaigns";
              req_params := dict_set "api_key" (VStr key) [];
              req_body := NoBody |} with (Statements.campaigns_get key).
    now rewrite Hrep.
  - intros key items -> Hrep Hvalid.
    change {| req_host := SmartleadV1;
              req_method := PyStr.upper "GET";
              req_endpoint := "/campaigns";
              req_params := dict_set "api_key" (VStr key) [];
              req_body := NoBody |} with (Statements.campaigns_get key).
    rewrite Hrep.
    destruct (Campaigns.validate_all model_validate items) as [cs|] eqn:Hall.
    + exists cs. split; [reflexivity | now apply validate_all_length].
    + exfalso. clear Hrep. induction items as [|x rest IH]; simpl in Hall;
        [discriminate|].
      destruct (model_validate x) eqn:Hx;
        [|exact (Hvalid x (or_introl eq_refl) Hx)].
      destruct (Campaigns.validate_all model_validate rest) eqn:Hrest;
        [discriminate|].
      apply IH; [|reflexivity]. intros item Hin. apply Hvalid. now right.
  - intros key items item -> Hrep Hin Hbad.
    change {| req_host := SmartleadV1;
              req_method := PyStr.upper "GET";
              req_endpoint := "/campaigns";
              req_params := dict_set "api_key" (VStr key) [];
              req_body := NoBody |} with (Statements.campaigns_get key).
    rewrite Hrep. now rewrite (validate_all_stops _ _ _ Hin Hbad).
Qed.

(** Two campaigns are listed; a third, malformed item spoils the list; an
    HTTP error whose body is a JSON list comes out as [AttributeError]. *)
Lemma get_campaigns_all_or_nothing_witness :
  fst (Campaigns.get_campaigns Demo2.bad_gateway_env Demo2.validate_by_id [])
  = Raise AttributeError
  /\
  (exists campaigns,
     fst (Campaigns.get_campaigns
            (Demo2.listing_env [VDict [("id", VInt 7)]; VDict [("id", VInt 8)]])
            Demo2.validate_by_id []) = Ret campaigns
     /\ map Campaigns.id campaigns = [7; 8])
  /\ fst (Campaigns.get_campaigns
            (Demo2.listing_env [VDict [("id", VInt 7)]; VStr "oops";
                                VDict [("id", VInt 8)]])
            Demo2.validate_by_id []) = Raise RuntimeError.
Proof.
  split.
  { destruct (get_campaigns_all_or_nothing Demo2.bad_gateway_env
                Demo2.validate_by_id []) as (_ & H & _).
    now rewrite (H "key" eq_refl eq_refl). }
  split.
  - destruct (get_campaigns_all_or_nothing
                (Demo2.listing_env [VDict [("id", VInt 7)];
                                    VDict [("id", VInt 8)]])
                Demo2.validate_by_id []) as (_ & _ & H & _).
    destruct (H "key" _ eq_refl eq_refl) as (cs & Hrun & Hall).
    + intros item [<-|[<-|[]]]; discriminate.
    + exists cs. rewrite Hrun. split; [reflexivity|].
      inversion Hall as [|a b l1 l2 Ha Hrest]; subst.
      inversion Hrest as [|a' b' l1' l2' Ha' Hrest']; subst.
      inversion Hrest'; subst.
      injection Ha as <-. injection Ha' as <-. reflexivity.
  - destruct (get_campaigns_all_or_nothing
                (Demo2.listing_env [VDict [("id", VInt 7)]; VStr "oops";
                                    VDict [("id", VInt 8)]])
                Demo2.validate_by_id []) as (_ & _ & _ & H).
    rewrite (H "key" _ (VStr "oops") eq_refl eq_refl); [reflexivity| |].
    + right. now left.
    + reflexivity.
Defined.

(** ** The batches of the classifier *)

Lemma sublist_refl {A} (l : list A) : FilterPage.sublist l l.
Proof. induction l; now constructor. Qed.

Lemma sublist_app {A} (a b c d : list A) :
  FilterPage.sublist a b -> FilterPage.sublist c d ->
  FilterPage.sublist (a ++ c)%list (b ++ d)%list.
Proof.
  intros Hab Hcd. induction Hab; simpl; [exact Hcd | |]; now constructor.
Qed.

Lemma not_none_sublist {A} (batch : list A) (results : list (option A)) :
  Forall2 (fun row r => r = None \/ r = Some row) batch results ->
  FilterPage.sublist (FilterPage.not_none results) batch.
Proof.
  induction 1 as [|row r batch results Hr _ IH]; simpl; [constructor|].
  destruct Hr as [->| ->]; now constructor.
Qed.

Lemma chunk_list_concat {A} (lst : list A) (n : Z) (chunks : list (list A)) :
  0 < n -> Utils.chunk_list lst n = Ret chunks -> List.concat chunks = lst.
Proof.
  intros Hpos. unfold Utils.chunk_list.
  destruct (n =? 0) eqn:H0; [apply Z.eqb_eq in H0; lia|].
  destruct (n <? 0) eqn:Hneg; [apply Z.ltb_lt in Hneg; lia|].
  intros [= <-].
  rewrite (range_from_slices lst (Z.to_nat n)) by lia. reflexivity.
Qed.

Lemma process_batches_sublist
  (gather : list FilterLeads.lead_row ->
            M event (list (option FilterLeads.lead_row))) :
  (forall batch tr results tr',
     gather batch tr = (Ret results, tr') ->
     Forall2 (fun row r => r = None \/ r = Some row) batch results) ->
  forall batches acc tr removed tr',
    FilterPage.process_batches gather batches acc tr = (Ret removed, tr') ->
    exists more,
      removed = (acc ++ more)%list
      /\ FilterPage.sublist more (List.concat batches).
Proof.
  intros Hsound. induction batches as [|batch rest IH];
    intros acc tr removed tr'; simpl.
  - intros [= <- _]. exists []. rewrite app_nil_r. split; constructor.
  - unfold bind.
    destruct (gather batch tr) as [[results|e] tr1] eqn:Hg; [|discriminate].
    intros Hrun. destruct (IH _ _ _ _ Hrun) as (more & -> & Hsub).
    exists (FilterPage.not_none results ++ more)%list.
    split; [now rewrite app_assoc|].
    apply sublist_app; [|exact Hsub].
    apply not_none_sublist. exact (Hsound _ _ _ _ Hg).
Qed.

(** X18.  What [process_leads] returns is made of uploaded leads only, as
    they were uploaded and in the order of the upload: as long as each
    batch comes back from [gather] with, for each lead in turn, that lead
    or [None], cutting into batches of 50 and joining the results neither
    invents, alters nor reorders a lead. *)
Theorem process_leads_returns_uploaded_leads
  (gather : list FilterLeads.lead_row ->
            M event (list (option FilterLeads.lead_row)))
  (raw_leads removed : list FilterLeads.lead_row) (tr tr' : trace) :
  (forall batch t results t',
     gather batch t = (Ret results, t') ->
     Forall2 (fun row r => r = None \/ r = Some row) batch results) ->
  FilterPage.process_leads gather raw_leads tr = (Ret removed, tr') ->
  FilterPage.sublist removed raw_leads.
Proof.
  intros Hsound. unfold FilterPage.process_leads, bind, lift.
  destruct (Utils.chunk_list raw_leads 50) as [batches|e] eqn:Hchunks;
    [|discriminate].
  intros Hrun.
  destruct (process_batches_sublist gather Hsound _ _ _ _ _ Hrun)
    as (more & -> & Hsub).
  now rewrite (chunk_list_concat raw_leads 50 batches ltac:(lia) Hchunks)
    in Hsub.
Qed.

Lemma check_one_returns_its_lead (env : Env) (bl wl areas : string)
  (row : FilterLeads.lead_row) (tr tr' : trace)
  (r : option FilterLeads.lead_row) :
  FilterLeads.check_one env bl wl areas row tr = (Ret r, tr') ->
  r = None \/ r = Some row.
Proof.
  unfold FilterLeads.check_one, bind, ret.
  destruct (FilterLeads.is_outside_whitelisted_area env _ areas tr)
    as [[[|]|e1] t1]; try discriminate; [intros [= <- _]; tauto|].
  destruct (FilterLeads.is_in_blocklisted_industry env _ bl t1)
    as [[[|]|e2] t2]; try discriminate; [intros [= <- _]; tauto|].
  destruct (FilterLeads.is_outside_whitelisted_industry env _ wl t2)
    as [[[|]|e3] t3]; try discriminate; intros [= <- _]; tauto.
Qed.

Lemma check_in_turn_sound (env : Env) (bl wl areas : string) :
  forall batch tr results tr',
    FilterPage.check_in_turn env bl wl areas batch tr = (Ret results, tr') ->
    Forall2 (fun row r => r = None \/ r = Some row) batch results.
Proof.
  induction batch as [|row rest IH]; intros tr results tr'; simpl.
  - intros [= <- _]. constructor.
  - unfold bind at 1.
    destruct (FilterLeads.check_one env bl wl areas row tr)
      as [[r|e] t1] eqn:Hone; [|discriminate].
    unfold bind at 1.
    destruct (FilterPage.check_in_turn env bl wl areas rest t1)
      as [[rs|e] t2] eqn:Hrest; [|discriminate].
    intros [= <- _]. constructor.
    + exact (check_one_returns_its_lead _ _ _ _ _ _ _ _ Hone).
    + exact (IH _ _ _ Hrest).
Qed.

(** The three uploaded rows checked one after the other against the areas
    Paris and Rome, the model saying no each time. *)
Lemma process_leads_returns_uploaded_leads_witness :
  FilterPage.sublist
    (match fst (FilterPage.process_leads
                  (FilterPage.check_in_turn Demo.campaign_env "" ""
                     "Paris;Rome") Demo2.upload []) with
     | Ret removed => removed
     | Raise _ => []
     end)
    Demo2.upload.
Proof.
  destruct (FilterPage.process_leads
              (FilterPage.check_in_turn Demo.campaign_env "" "" "Paris;Rome")
              Demo2.upload []) as [[removed|e] out] eqn:Hrun.
  - exact (process_leads_returns_uploaded_leads _ _ _ _ _
             (check_in_turn_sound Demo.campaign_env "" "" "Paris;Rome") Hrun).
  - vm_compute in Hrun. discriminate.
Defined.

(** ** The gate on small campaigns *)




